(** * GRID editor bridge: a shallow embedding of the Unreal plugin's command bridge

    The development follows the plugin sources under
    [Source/GRIDEditor]: the JSON response envelopes, the six command
    handler classes, [FGRIDBridge] (routing, game-thread hand-off,
    lifecycle, discovery file) and [FGRIDServerRunnable] (accept loop,
    per-connection handling, request parsing), the module that owns the
    bridge, and from [Core] the tool registry and the service context.

    Engine facilities the plugin calls but does not define (FString
    comparison, the JSON reader and writer, the editor world, sockets,
    threads, files) are kept apart from the plugin's own logic: string
    and JSON services and the editor sit behind the [Engine] interface,
    the operating-system answers to one lifecycle call are an explicit
    [FPlatformAnswers] record, and the game thread's pace is an explicit
    schedule.  The properties are proved for every engine; a small
    example engine serves to run the definitions on concrete requests. *)

From Stdlib Require Import ZArith Ascii String List Floats Lia.
From Stdlib Require Import DecimalString DecimalZ DecimalPos.
From stdpp Require Import gmap strings list fin_maps.

Set Warnings "-register-all".

Local Open Scope string_scope.
Local Open Scope Z_scope.

(** ** Dom/JsonObject.h: the JSON document model *)

(** [FJsonValue] with its six kinds; numbers are C++ [double]s. *)
Inductive FJsonValue : Type :=
| FJsonValueNull
| FJsonValueBoolean (Value : bool)
| FJsonValueNumber (Value : float)
| FJsonValueString (Value : string)
| FJsonValueArray (Value : list FJsonValue)
| FJsonValueObject (Value : list (string * FJsonValue)).

(** [FJsonObject] owns a map [Values] from field names to values.  The
    fields are kept in insertion order; a later write to a name replaces
    the earlier value ([TMap::Add]). *)
Definition FJsonObject : Type := list (string * FJsonValue).

(** [MakeShared<FJsonObject>()] *)
Definition MakeShared_FJsonObject : FJsonObject := [].

Fixpoint SetField (Object : FJsonObject) (FieldName : string) (Value : FJsonValue)
  : FJsonObject :=
  match Object with
  | [] => [(FieldName, Value)]
  | (Name, Old) :: Rest =>
      if String.eqb Name FieldName then (FieldName, Value) :: Rest
      else (Name, Old) :: SetField Rest FieldName Value
  end.

Definition SetBoolField (Object : FJsonObject) (FieldName : string) (b : bool) :=
  SetField Object FieldName (FJsonValueBoolean b).
Definition SetStringField (Object : FJsonObject) (FieldName : string) (s : string) :=
  SetField Object FieldName (FJsonValueString s).
Definition SetNumberField (Object : FJsonObject) (FieldName : string) (d : float) :=
  SetField Object FieldName (FJsonValueNumber d).
Definition SetObjectField (Object : FJsonObject) (FieldName : string) (o : FJsonObject) :=
  SetField Object FieldName (FJsonValueObject o).
Definition SetArrayField (Object : FJsonObject) (FieldName : string)
  (a : list FJsonValue) :=
  SetField Object FieldName (FJsonValueArray a).

(** Reading a field back ([Values.Find]). *)
Fixpoint TryGetField (Object : FJsonObject) (FieldName : string) : option FJsonValue :=
  match Object with
  | [] => None
  | (Name, Value) :: Rest =>
      if String.eqb Name FieldName then Some Value else TryGetField Rest FieldName
  end.

Definition FieldNames (Object : FJsonObject) : list string := map fst Object.

(** An [int32] count stored through [SetNumberField] is converted to [double]. *)
Definition int32_to_double (n : Z) : float := PrimFloat.of_uint63 (Uint63.of_Z n).

(** ** The response envelope

    The two shapes of a response object: a success envelope holds
    ["success" = true] and at most a ["data"] object; a failure envelope
    holds ["success" = false], an ["error_code"] string and an ["error"]
    string.  The checks are on the fields actually present. *)

Definition is_string_value (v : option FJsonValue) : bool :=
  match v with Some (FJsonValueString _) => true | _ => false end.

Definition is_absent_or_object (v : option FJsonValue) : bool :=
  match v with None => true | Some (FJsonValueObject _) => true | _ => false end.

Definition is_absent (v : option FJsonValue) : bool :=
  match v with None => true | Some _ => false end.

Definition only_fields (allowed : list string) (Object : FJsonObject) : bool :=
  forallb (fun Name => existsb (String.eqb Name) allowed) (FieldNames Object).

Definition IsSuccessEnvelope (Response : FJsonObject) : bool :=
  match TryGetField Response "success" with
  | Some (FJsonValueBoolean true) =>
      is_absent_or_object (TryGetField Response "data")
      && is_absent (TryGetField Response "error_code")
      && is_absent (TryGetField Response "error")
      && only_fields ["success"; "data"] Response
  | _ => false
  end.

Definition IsFailureEnvelope (Response : FJsonObject) : bool :=
  match TryGetField Response "success" with
  | Some (FJsonValueBoolean false) =>
      is_string_value (TryGetField Response "error_code")
      && is_string_value (TryGetField Response "error")
      && is_absent (TryGetField Response "data")
      && only_fields ["success"; "error_code"; "error"] Response
  | _ => false
  end.

Definition IsEnvelope (Response : FJsonObject) : bool :=
  xorb (IsSuccessEnvelope Response) (IsFailureEnvelope Response).

Definition ErrorCodeOf (Response : FJsonObject) : option string :=
  match TryGetField Response "error_code" with
  | Some (FJsonValueString Code) => Some Code
  | _ => None
  end.

(** ** Editor objects the handlers read *)

Record FVector := { FVector_X : float; FVector_Y : float; FVector_Z : float }.

Record UClass := { UClass_GetName : string }.

Record AActor := {
  GetActorLabel : string;
  GetClass : UClass;
  GetActorLocation : FVector
}.

Inductive EBlueprintStatus :=
| BS_Unknown | BS_Dirty | BS_Error | BS_UpToDate | BS_BeingCreated
| BS_UpToDateWithWarnings.

Definition EBlueprintStatus_eqb (a b : EBlueprintStatus) : bool :=
  match a, b with
  | BS_Unknown, BS_Unknown | BS_Dirty, BS_Dirty | BS_Error, BS_Error
  | BS_UpToDate, BS_UpToDate | BS_BeingCreated, BS_BeingCreated
  | BS_UpToDateWithWarnings, BS_UpToDateWithWarnings => true
  | _, _ => false
  end.

Record UBlueprint := {
  UBlueprint_GetName : string;
  ParentClass : option UClass;
  GeneratedClass : option UClass;
  Status : EBlueprintStatus;
  (** [SimpleConstructionScript], when present, with its number of nodes *)
  SimpleConstructionScript : option Z;
  (** [NewVariables.Num()] *)
  NewVariables_Num : Z;
  (** one entry per function graph *)
  FunctionGraphs : list unit
}.

Record FAssetData := {
  AssetName : string;
  GetObjectPathString : string;
  AssetClassPath_GetAssetName : string
}.

(** ** The engine interface

    What the plugin asks of Unreal.  None of it is defined by the
    plugin, so the development is parametric in it. *)
Class Engine := {
  (** [FString]: [operator==], [StartsWith], [Contains] *)
  FString_Equals : string -> string -> bool;
  FString_StartsWith : string -> string -> bool;
  FString_Contains : string -> string -> bool;
  (** [UTF8_TO_TCHAR]: the text of a string of UTF-8 bytes *)
  UTF8_TO_TCHAR : string -> string;
  (** [FPackageName] helpers *)
  ObjectPathToPackageName : string -> string;
  GetLongPackageAssetName : string -> string;
  (** [FJsonSerializer] and the typed getters of [FJsonObject];
      which values [TryGetStringField] gives as a string is the engine's
      matter: its [FJsonValue::TryGetString] gives a string as it is
      and a number or a boolean as its text *)
  FJsonSerializer_Serialize : FJsonObject -> string;
  FJsonSerializer_Deserialize : string -> option FJsonObject;
  TryGetStringField : FJsonObject -> string -> option string;
  GetStringField : FJsonObject -> string -> string;
  GetNumberField : FJsonObject -> string -> float;
  GetObjectField : FJsonObject -> string -> option FJsonObject;
  (** the editor: everything only the game thread may touch *)
  Host : Type;
  AActor_StaticClass : UClass;
  AStaticMeshActor_StaticClass : UClass;
  (** [GEditor ? GEditor->GetEditorWorldContext().World() : nullptr],
      given as the actors a [TActorIterator] walks over *)
  EditorWorld : Host -> option (list AActor);
  StaticLoadObject_UBlueprint : string -> Host -> option UBlueprint * Host;
  FindObject_UClass : string -> Host -> option UClass;
  World_SpawnActor : UClass -> FVector -> Host -> option AActor * Host;
  (** [CreatePackage] followed by the blueprint factory's [FactoryCreateNew] *)
  BlueprintFactory_CreateNew : UClass -> string -> string -> Host -> option UBlueprint * Host;
  (** [CreatePackage] followed by the material factory's [FactoryCreateNew] *)
  MaterialFactory_CreateNew : string -> string -> Host -> bool * Host;
  (** [AssetCreated], [MarkPackageDirty], [UEditorAssetLibrary::SaveAsset] *)
  RegisterAndSaveAsset : string -> Host -> Host;
  UEditorAssetLibrary_LoadBlueprint : string -> Host -> option UBlueprint * Host;
  FKismetEditorUtilities_CompileBlueprint : UBlueprint -> Host -> UBlueprint * Host;
  (** [AssetRegistry.Get().GetAssets] under [/Game], optionally by class *)
  AssetRegistry_GetAssets : option string -> Host -> list FAssetData * Host
}.

(** Work confined to the game thread: a computation over the editor. *)
Definition GameThreadOp {E : Engine} (A : Type) : Type := Host -> A * Host.

Definition ret {E : Engine} {A} (a : A) : GameThreadOp A := fun h => (a, h).

Definition bind {E : Engine} {A B} (m : GameThreadOp A) (k : A -> GameThreadOp B)
  : GameThreadOp B :=
  fun h => let '(a, h') := m h in k a h'.

Definition query {E : Engine} {A} (f : Host -> A) : GameThreadOp A := fun h => (f h, h).

Definition effect {E : Engine} (f : Host -> Host) : GameThreadOp unit := fun h => (tt, f h).

Notation "'let*' x ':=' m 'in' k" := (bind m (fun x => k))
  (at level 10, x name, m at level 100, k at level 200).
Notation "'run' m 'in' k" := (bind m (fun _ => k))
  (at level 10, m at level 100, k at level 200).

(** [FString::IsEmpty] *)
Definition IsEmpty (s : string) : bool := String.eqb s "".

(** The six handler classes share the signature of [HandleCommand] and of
    every operation behind it. *)
Definition FCommandHandler {E : Engine} : Type := FJsonObject -> GameThreadOp FJsonObject.

(** ** Commands/ActorCommands.cpp *)
Module FActorCommands.
Section WithEngine.
Context {E : Engine}.

Definition CreateError (Code Message : string) : FJsonObject :=
  let Result := MakeShared_FJsonObject in
  let Result := SetBoolField Result "success" false in
  let Result := SetStringField Result "error_code" Code in
  let Result := SetStringField Result "error" Message in
  Result.

Definition CreateSuccess (Data : option FJsonObject) : FJsonObject :=
  let Result := MakeShared_FJsonObject in
  let Result := SetBoolField Result "success" true in
  match Data with
  | Some Data => SetObjectField Result "data" Data
  | None => Result
  end.

Definition ListActors (Params : FJsonObject) : GameThreadOp FJsonObject :=
  let* World := query EditorWorld in
  match World with
  | None => ret (CreateError "NO_WORLD" "No active world")
  | Some Actors =>
      let ActorArray :=
        map (fun Actor =>
               let ActorObj := MakeShared_FJsonObject in
               let ActorObj := SetStringField ActorObj "name" (GetActorLabel Actor) in
               let ActorObj :=
                 SetStringField ActorObj "class" (UClass_GetName (GetClass Actor)) in
               let Location := GetActorLocation Actor in
               let ActorObj := SetNumberField ActorObj "x" (FVector_X Location) in
               let ActorObj := SetNumberField ActorObj "y" (FVector_Y Location) in
               let ActorObj := SetNumberField ActorObj "z" (FVector_Z Location) in
               FJsonValueObject ActorObj) Actors in
      let Data := MakeShared_FJsonObject in
      let Data := SetArrayField Data "actors" ActorArray in
      let Data :=
        SetNumberField Data "count" (int32_to_double (Z.of_nat (length ActorArray))) in
      ret (CreateSuccess (Some Data))
  end.

Definition FindActors (Params : FJsonObject) : GameThreadOp FJsonObject :=
  let Pattern := GetStringField Params "pattern" in
  let ClassName := GetStringField Params "class" in
  let* World := query EditorWorld in
  match World with
  | None => ret (CreateError "NO_WORLD" "No active world")
  | Some Actors =>
      let bMatch (Actor : AActor) : bool :=
        negb (negb (IsEmpty Pattern)
              && negb (FString_Contains (GetActorLabel Actor) Pattern))
        && negb (negb (IsEmpty ClassName)
                 && negb (FString_Equals (UClass_GetName (GetClass Actor)) ClassName)) in
      let ActorArray :=
        map (fun Actor =>
               let ActorObj := MakeShared_FJsonObject in
               let ActorObj := SetStringField ActorObj "name" (GetActorLabel Actor) in
               let ActorObj :=
                 SetStringField ActorObj "class" (UClass_GetName (GetClass Actor)) in
               FJsonValueObject ActorObj) (List.filter bMatch Actors) in
      let Data := MakeShared_FJsonObject in
      let Data := SetArrayField Data "actors" ActorArray in
      let Data :=
        SetNumberField Data "count" (int32_to_double (Z.of_nat (length ActorArray))) in
      ret (CreateSuccess (Some Data))
  end.

Definition SpawnActor (Params : FJsonObject) : GameThreadOp FJsonObject :=
  let ClassName := GetStringField Params "class" in
  let BlueprintPath := GetStringField Params "blueprint" in
  let X := GetNumberField Params "x" in
  let Y := GetNumberField Params "y" in
  let Z := GetNumberField Params "z" in
  let* World := query EditorWorld in
  match World with
  | None => ret (CreateError "NO_WORLD" "No active world")
  | Some _ =>
      let* ActorClass :=
        if negb (IsEmpty BlueprintPath) then
          let* Blueprint := StaticLoadObject_UBlueprint BlueprintPath in
          ret (match Blueprint with
               | Some Blueprint => GeneratedClass Blueprint
               | None => None
               end)
        else if negb (IsEmpty ClassName) then query (FindObject_UClass ClassName)
        else ret None in
      let ActorClass :=
        match ActorClass with
        | Some ActorClass => ActorClass
        | None => AStaticMeshActor_StaticClass
        end in
      let* NewActor :=
        World_SpawnActor ActorClass
          {| FVector_X := X; FVector_Y := Y; FVector_Z := Z |} in
      match NewActor with
      | None => ret (CreateError "SPAWN_FAILED" "Failed to spawn actor")
      | Some NewActor =>
          let Data := MakeShared_FJsonObject in
          let Data := SetStringField Data "name" (GetActorLabel NewActor) in
          let Data := SetStringField Data "class" (UClass_GetName (GetClass NewActor)) in
          let Data := SetNumberField Data "x" X in
          let Data := SetNumberField Data "y" Y in
          let Data := SetNumberField Data "z" Z in
          ret (CreateSuccess (Some Data))
      end
  end.

(** Stub implementations *)
Definition DeleteActor (Params : FJsonObject) : GameThreadOp FJsonObject :=
  ret (CreateError "NOT_IMPLEMENTED" "DeleteActor not yet implemented").
Definition GetActorInfo (Params : FJsonObject) : GameThreadOp FJsonObject :=
  ret (CreateError "NOT_IMPLEMENTED" "GetActorInfo not yet implemented").
Definition GetTransform (Params : FJsonObject) : GameThreadOp FJsonObject :=
  ret (CreateError "NOT_IMPLEMENTED" "GetTransform not yet implemented").
Definition SetTransform (Params : FJsonObject) : GameThreadOp FJsonObject :=
  ret (CreateError "NOT_IMPLEMENTED" "SetTransform not yet implemented").
Definition SetLocation (Params : FJsonObject) : GameThreadOp FJsonObject :=
  ret (CreateError "NOT_IMPLEMENTED" "SetLocation not yet implemented").
Definition SetRotation (Params : FJsonObject) : GameThreadOp FJsonObject :=
  ret (CreateError "NOT_IMPLEMENTED" "SetRotation not yet implemented").
Definition SetScale (Params : FJsonObject) : GameThreadOp FJsonObject :=
  ret (CreateError "NOT_IMPLEMENTED" "SetScale not yet implemented").
Definition GetProperty (Params : FJsonObject) : GameThreadOp FJsonObject :=
  ret (CreateError "NOT_IMPLEMENTED" "GetProperty not yet implemented").
Definition SetProperty (Params : FJsonObject) : GameThreadOp FJsonObject :=
  ret (CreateError "NOT_IMPLEMENTED" "SetProperty not yet implemented").
Definition FocusActor (Params : FJsonObject) : GameThreadOp FJsonObject :=
  ret (CreateError "NOT_IMPLEMENTED" "FocusActor not yet implemented").
Definition SelectActor (Params : FJsonObject) : GameThreadOp FJsonObject :=
  ret (CreateError "NOT_IMPLEMENTED" "SelectActor not yet implemented").
Definition RenameActor (Params : FJsonObject) : GameThreadOp FJsonObject :=
  ret (CreateError "NOT_IMPLEMENTED" "RenameActor not yet implemented").

Definition HandleCommand (CommandType : string) (Params : FJsonObject)
  : GameThreadOp FJsonObject :=
  if FString_Equals CommandType "actor_list" then ListActors Params
  else if FString_Equals CommandType "actor_find" then FindActors Params
  else if FString_Equals CommandType "actor_spawn" then SpawnActor Params
  else if FString_Equals CommandType "actor_delete" then DeleteActor Params
  else if FString_Equals CommandType "actor_get_info" then GetActorInfo Params
  else if FString_Equals CommandType "actor_get_transform" then GetTransform Params
  else if FString_Equals CommandType "actor_set_transform" then SetTransform Params
  else if FString_Equals CommandType "actor_set_location" then SetLocation Params
  else if FString_Equals CommandType "actor_set_rotation" then SetRotation Params
  else if FString_Equals CommandType "actor_set_scale" then SetScale Params
  else if FString_Equals CommandType "actor_focus" then FocusActor Params
  else if FString_Equals CommandType "actor_select" then SelectActor Params
  else if FString_Equals CommandType "actor_rename" then RenameActor Params
  else ret (CreateError "UNKNOWN_COMMAND" ("Unknown actor command: " +:+ CommandType)).

End WithEngine.
End FActorCommands.

(** ** Commands/BlueprintCommands.cpp *)
Module FBlueprintCommands.
Section WithEngine.
Context {E : Engine}.

Definition CreateError (Code Message : string) : FJsonObject :=
  let Result := MakeShared_FJsonObject in
  let Result := SetBoolField Result "success" false in
  let Result := SetStringField Result "error_code" Code in
  let Result := SetStringField Result "error" Message in
  Result.

Definition CreateSuccess (Data : option FJsonObject) : FJsonObject :=
  let Result := MakeShared_FJsonObject in
  let Result := SetBoolField Result "success" true in
  match Data with
  | Some Data => SetObjectField Result "data" Data
  | None => Result
  end.

Definition LoadBlueprint (Path : string) : GameThreadOp (option UBlueprint) :=
  UEditorAssetLibrary_LoadBlueprint Path.

Definition CreateBlueprint (Params : FJsonObject) : GameThreadOp FJsonObject :=
  let Path := GetStringField Params "path" in
  let ParentClassName := GetStringField Params "parent_class" in
  if IsEmpty Path then ret (CreateError "MISSING_PATH" "Blueprint path is required")
  else
    (* Default to Actor *)
    let* Parent :=
      if negb (IsEmpty ParentClassName) then
        let* FoundClass := query (FindObject_UClass ParentClassName) in
        ret (match FoundClass with
             | Some FoundClass => FoundClass
             | None => AActor_StaticClass
             end)
      else ret AActor_StaticClass in
    let PackagePath := ObjectPathToPackageName Path in
    let AssetName := GetLongPackageAssetName Path in
    let* Blueprint := BlueprintFactory_CreateNew Parent PackagePath AssetName in
    match Blueprint with
    | None => ret (CreateError "CREATE_FAILED" "Failed to create blueprint")
    | Some _ =>
        run effect (RegisterAndSaveAsset Path) in
        let Data := MakeShared_FJsonObject in
        let Data := SetStringField Data "path" Path in
        let Data := SetStringField Data "name" AssetName in
        let Data := SetStringField Data "parent_class" (UClass_GetName Parent) in
        ret (CreateSuccess (Some Data))
    end.

Definition CompileBlueprint (Params : FJsonObject) : GameThreadOp FJsonObject :=
  let Path := GetStringField Params "path" in
  let* Blueprint := LoadBlueprint Path in
  match Blueprint with
  | None => ret (CreateError "NOT_FOUND" ("Blueprint not found: " +:+ Path))
  | Some Blueprint =>
      let* Blueprint := FKismetEditorUtilities_CompileBlueprint Blueprint in
      let Data := MakeShared_FJsonObject in
      let Data := SetStringField Data "path" Path in
      let Data := SetBoolField Data "compiled" true in
      let Data :=
        SetBoolField Data "has_errors" (EBlueprintStatus_eqb (Status Blueprint) BS_Error) in
      ret (CreateSuccess (Some Data))
  end.

Definition GetBlueprintInfo (Params : FJsonObject) : GameThreadOp FJsonObject :=
  let Path := GetStringField Params "path" in
  let* Blueprint := LoadBlueprint Path in
  match Blueprint with
  | None => ret (CreateError "NOT_FOUND" ("Blueprint not found: " +:+ Path))
  | Some Blueprint =>
      let Data := MakeShared_FJsonObject in
      let Data := SetStringField Data "path" Path in
      let Data := SetStringField Data "name" (UBlueprint_GetName Blueprint) in
      let Data :=
        SetStringField Data "parent_class"
          (match ParentClass Blueprint with
           | Some Parent => UClass_GetName Parent
           | None => "None"
           end) in
      let Data :=
        SetStringField Data "status"
          (if EBlueprintStatus_eqb (Status Blueprint) BS_UpToDate
           then "UpToDate" else "NeedsCompile") in
      (* Component count *)
      let Data :=
        match SimpleConstructionScript Blueprint with
        | Some Nodes => SetNumberField Data "component_count" (int32_to_double Nodes)
        | None => Data
        end in
      (* Variable count *)
      let Data :=
        SetNumberField Data "variable_count"
          (int32_to_double (NewVariables_Num Blueprint)) in
      (* Function count *)
      let FunctionCount :=
        fold_left (fun FunctionCount _ => FunctionCount + 1) (FunctionGraphs Blueprint) 0 in
      let Data := SetNumberField Data "function_count" (int32_to_double FunctionCount) in
      ret (CreateSuccess (Some Data))
  end.

(** Stub implementations for remaining methods *)
Definition ReparentBlueprint (Params : FJsonObject) : GameThreadOp FJsonObject :=
  ret (CreateError "NOT_IMPLEMENTED" "ReparentBlueprint not yet implemented").
Definition GetProperty (Params : FJsonObject) : GameThreadOp FJsonObject :=
  ret (CreateError "NOT_IMPLEMENTED" "GetProperty not yet implemented").
Definition SetProperty (Params : FJsonObject) : GameThreadOp FJsonObject :=
  ret (CreateError "NOT_IMPLEMENTED" "SetProperty not yet implemented").
Definition AddComponent (Params : FJsonObject) : GameThreadOp FJsonObject :=
  ret (CreateError "NOT_IMPLEMENTED" "AddComponent not yet implemented").
Definition RemoveComponent (Params : FJsonObject) : GameThreadOp FJsonObject :=
  ret (CreateError "NOT_IMPLEMENTED" "RemoveComponent not yet implemented").
Definition GetComponentHierarchy (Params : FJsonObject) : GameThreadOp FJsonObject :=
  ret (CreateError "NOT_IMPLEMENTED" "GetComponentHierarchy not yet implemented").
Definition SetComponentProperty (Params : FJsonObject) : GameThreadOp FJsonObject :=
  ret (CreateError "NOT_IMPLEMENTED" "SetComponentProperty not yet implemented").
Definition AddVariable (Params : FJsonObject) : GameThreadOp FJsonObject :=
  ret (CreateError "NOT_IMPLEMENTED" "AddVariable not yet implemented").
Definition RemoveVariable (Params : FJsonObject) : GameThreadOp FJsonObject :=
  ret (CreateError "NOT_IMPLEMENTED" "RemoveVariable not yet implemented").
Definition ListVariables (Params : FJsonObject) : GameThreadOp FJsonObject :=
  ret (CreateError "NOT_IMPLEMENTED" "ListVariables not yet implemented").
Definition AddFunction (Params : FJsonObject) : GameThreadOp FJsonObject :=
  ret (CreateError "NOT_IMPLEMENTED" "AddFunction not yet implemented").
Definition RemoveFunction (Params : FJsonObject) : GameThreadOp FJsonObject :=
  ret (CreateError "NOT_IMPLEMENTED" "RemoveFunction not yet implemented").
Definition ListFunctions (Params : FJsonObject) : GameThreadOp FJsonObject :=
  ret (CreateError "NOT_IMPLEMENTED" "ListFunctions not yet implemented").
Definition DiscoverNodes (Params : FJsonObject) : GameThreadOp FJsonObject :=
  ret (CreateError "NOT_IMPLEMENTED" "DiscoverNodes not yet implemented").
Definition CreateNode (Params : FJsonObject) : GameThreadOp FJsonObject :=
  ret (CreateError "NOT_IMPLEMENTED" "CreateNode not yet implemented").
Definition DeleteNode (Params : FJsonObject) : GameThreadOp FJsonObject :=
  ret (CreateError "NOT_IMPLEMENTED" "DeleteNode not yet implemented").
Definition ConnectNodes (Params : FJsonObject) : GameThreadOp FJsonObject :=
  ret (CreateError "NOT_IMPLEMENTED" "ConnectNodes not yet implemented").
Definition ListNodes (Params : FJsonObject) : GameThreadOp FJsonObject :=
  ret (CreateError "NOT_IMPLEMENTED" "ListNodes not yet implemented").

Definition HandleCommand (CommandType : string) (Params : FJsonObject)
  : GameThreadOp FJsonObject :=
  if FString_Equals CommandType "blueprint_create" then CreateBlueprint Params
  else if FString_Equals CommandType "blueprint_compile" then CompileBlueprint Params
  else if FString_Equals CommandType "blueprint_get_info" then GetBlueprintInfo Params
  else if FString_Equals CommandType "blueprint_reparent" then ReparentBlueprint Params
  else if FString_Equals CommandType "blueprint_get_property" then GetProperty Params
  else if FString_Equals CommandType "blueprint_set_property" then SetProperty Params
  else if FString_Equals CommandType "blueprint_add_component" then AddComponent Params
  else if FString_Equals CommandType "blueprint_remove_component"
       then RemoveComponent Params
  else if FString_Equals CommandType "blueprint_get_hierarchy"
       then GetComponentHierarchy Params
  else if FString_Equals CommandType "blueprint_add_variable" then AddVariable Params
  else if FString_Equals CommandType "blueprint_remove_variable" then RemoveVariable Params
  else if FString_Equals CommandType "blueprint_list_variables" then ListVariables Params
  else if FString_Equals CommandType "blueprint_add_function" then AddFunction Params
  else if FString_Equals CommandType "blueprint_remove_function" then RemoveFunction Params
  else if FString_Equals CommandType "blueprint_list_functions" then ListFunctions Params
  else if FString_Equals CommandType "blueprint_discover_nodes" then DiscoverNodes Params
  else if FString_Equals CommandType "blueprint_create_node" then CreateNode Params
  else if FString_Equals CommandType "blueprint_delete_node" then DeleteNode Params
  else if FString_Equals CommandType "blueprint_connect_nodes" then ConnectNodes Params
  else if FString_Equals CommandType "blueprint_list_nodes" then ListNodes Params
  else ret (CreateError "UNKNOWN_COMMAND"
              ("Unknown blueprint command: " +:+ CommandType)).

End WithEngine.
End FBlueprintCommands.

(** ** Commands/MaterialCommands.cpp *)
Module FMaterialCommands.
Section WithEngine.
Context {E : Engine}.

Definition CreateError (Code Message : string) : FJsonObject :=
  let R := MakeShared_FJsonObject in
  let R := SetBoolField R "success" false in
  let R := SetStringField R "error_code" Code in
  let R := SetStringField R "error" Message in
  R.

Definition CreateSuccess (Data : option FJsonObject) : FJsonObject :=
  let R := MakeShared_FJsonObject in
  let R := SetBoolField R "success" true in
  match Data with
  | Some Data => SetObjectField R "data" Data
  | None => R
  end.

Definition CreateMaterial (Params : FJsonObject) : GameThreadOp FJsonObject :=
  let Path := GetStringField Params "path" in
  if IsEmpty Path then ret (CreateError "MISSING_PATH" "Material path required")
  else
    let PackagePath := ObjectPathToPackageName Path in
    let AssetName := GetLongPackageAssetName Path in
    let* Material := MaterialFactory_CreateNew PackagePath AssetName in
    if negb Material then ret (CreateError "CREATE_FAILED" "Failed to create material")
    else
      run effect (RegisterAndSaveAsset Path) in
      let Data := MakeShared_FJsonObject in
      let Data := SetStringField Data "path" Path in
      let Data := SetStringField Data "name" AssetName in
      ret (CreateSuccess (Some Data)).

Definition CreateMaterialInstance (Params : FJsonObject) : GameThreadOp FJsonObject :=
  ret (CreateError "NOT_IMPLEMENTED" "Not implemented").
Definition GetMaterialInfo (Params : FJsonObject) : GameThreadOp FJsonObject :=
  ret (CreateError "NOT_IMPLEMENTED" "Not implemented").
Definition GetProperty (Params : FJsonObject) : GameThreadOp FJsonObject :=
  ret (CreateError "NOT_IMPLEMENTED" "Not implemented").
Definition SetProperty (Params : FJsonObject) : GameThreadOp FJsonObject :=
  ret (CreateError "NOT_IMPLEMENTED" "Not implemented").
Definition ListParameters (Params : FJsonObject) : GameThreadOp FJsonObject :=
  ret (CreateError "NOT_IMPLEMENTED" "Not implemented").
Definition SetParameter (Params : FJsonObject) : GameThreadOp FJsonObject :=
  ret (CreateError "NOT_IMPLEMENTED" "Not implemented").
Definition Compile (Params : FJsonObject) : GameThreadOp FJsonObject :=
  ret (CreateError "NOT_IMPLEMENTED" "Not implemented").
Definition Save (Params : FJsonObject) : GameThreadOp FJsonObject :=
  ret (CreateError "NOT_IMPLEMENTED" "Not implemented").
Definition DiscoverNodeTypes (Params : FJsonObject) : GameThreadOp FJsonObject :=
  ret (CreateError "NOT_IMPLEMENTED" "Not implemented").
Definition CreateNode (Params : FJsonObject) : GameThreadOp FJsonObject :=
  ret (CreateError "NOT_IMPLEMENTED" "Not implemented").
Definition DeleteNode (Params : FJsonObject) : GameThreadOp FJsonObject :=
  ret (CreateError "NOT_IMPLEMENTED" "Not implemented").
Definition ConnectNodes (Params : FJsonObject) : GameThreadOp FJsonObject :=
  ret (CreateError "NOT_IMPLEMENTED" "Not implemented").
Definition ListNodes (Params : FJsonObject) : GameThreadOp FJsonObject :=
  ret (CreateError "NOT_IMPLEMENTED" "Not implemented").

Definition HandleCommand (CommandType : string) (Params : FJsonObject)
  : GameThreadOp FJsonObject :=
  if FString_Equals CommandType "material_create" then CreateMaterial Params
  else if FString_Equals CommandType "material_create_instance" then CreateMaterialInstance Params
  else if FString_Equals CommandType "material_get_info" then GetMaterialInfo Params
  else if FString_Equals CommandType "material_compile" then Compile Params
  else if FString_Equals CommandType "material_save" then Save Params
  else ret (CreateError "UNKNOWN_COMMAND" ("Unknown material command: " +:+ CommandType)).

End WithEngine.
End FMaterialCommands.

(** ** Commands/WidgetCommands.cpp *)
Module FWidgetCommands.
Section WithEngine.
Context {E : Engine}.

Definition CreateError (Code Message : string) : FJsonObject :=
  let R := MakeShared_FJsonObject in
  let R := SetBoolField R "success" false in
  let R := SetStringField R "error_code" Code in
  let R := SetStringField R "error" Message in
  R.

Definition CreateSuccess (Data : option FJsonObject) : FJsonObject :=
  let R := MakeShared_FJsonObject in
  let R := SetBoolField R "success" true in
  match Data with
  | Some Data => SetObjectField R "data" Data
  | None => R
  end.

Definition CreateWidgetBlueprint (Params : FJsonObject) : GameThreadOp FJsonObject :=
  ret (CreateError "NOT_IMPLEMENTED" "Not implemented").
Definition ListComponents (Params : FJsonObject) : GameThreadOp FJsonObject :=
  ret (CreateError "NOT_IMPLEMENTED" "Not implemented").
Definition AddComponent (Params : FJsonObject) : GameThreadOp FJsonObject :=
  ret (CreateError "NOT_IMPLEMENTED" "Not implemented").
Definition RemoveComponent (Params : FJsonObject) : GameThreadOp FJsonObject :=
  ret (CreateError "NOT_IMPLEMENTED" "Not implemented").
Definition GetProperty (Params : FJsonObject) : GameThreadOp FJsonObject :=
  ret (CreateError "NOT_IMPLEMENTED" "Not implemented").
Definition SetProperty (Params : FJsonObject) : GameThreadOp FJsonObject :=
  ret (CreateError "NOT_IMPLEMENTED" "Not implemented").
Definition ListProperties (Params : FJsonObject) : GameThreadOp FJsonObject :=
  ret (CreateError "NOT_IMPLEMENTED" "Not implemented").
Definition DiscoverWidgetTypes (Params : FJsonObject) : GameThreadOp FJsonObject :=
  ret (CreateError "NOT_IMPLEMENTED" "Not implemented").
Definition ValidateHierarchy (Params : FJsonObject) : GameThreadOp FJsonObject :=
  ret (CreateError "NOT_IMPLEMENTED" "Not implemented").
Definition GetAvailableEvents (Params : FJsonObject) : GameThreadOp FJsonObject :=
  ret (CreateError "NOT_IMPLEMENTED" "Not implemented").
Definition BindEvents (Params : FJsonObject) : GameThreadOp FJsonObject :=
  ret (CreateError "NOT_IMPLEMENTED" "Not implemented").

Definition HandleCommand (CommandType : string) (Params : FJsonObject)
  : GameThreadOp FJsonObject :=
  if FString_Equals CommandType "widget_create" then CreateWidgetBlueprint Params
  else if FString_Equals CommandType "widget_list_components" then ListComponents Params
  else if FString_Equals CommandType "widget_add_component" then AddComponent Params
  else if FString_Equals CommandType "widget_remove_component" then RemoveComponent Params
  else if FString_Equals CommandType "widget_get_property" then GetProperty Params
  else if FString_Equals CommandType "widget_set_property" then SetProperty Params
  else if FString_Equals CommandType "widget_list_properties" then ListProperties Params
  else if FString_Equals CommandType "widget_discover_types" then DiscoverWidgetTypes Params
  else if FString_Equals CommandType "widget_validate" then ValidateHierarchy Params
  else if FString_Equals CommandType "widget_get_events" then GetAvailableEvents Params
  else if FString_Equals CommandType "widget_bind_events" then BindEvents Params
  else ret (CreateError "UNKNOWN_COMMAND" ("Unknown widget command: " +:+ CommandType)).

End WithEngine.
End FWidgetCommands.

(** ** Commands/AssetCommands.cpp *)
Module FAssetCommands.
Section WithEngine.
Context {E : Engine}.

Definition CreateError (Code Message : string) : FJsonObject :=
  let R := MakeShared_FJsonObject in
  let R := SetBoolField R "success" false in
  let R := SetStringField R "error_code" Code in
  let R := SetStringField R "error" Message in
  R.

Definition CreateSuccess (Data : option FJsonObject) : FJsonObject :=
  let R := MakeShared_FJsonObject in
  let R := SetBoolField R "success" true in
  match Data with
  | Some Data => SetObjectField R "data" Data
  | None => R
  end.

Fixpoint SearchLoop (Query : string) (Assets : list FAssetData)
  (ResultArray : list FJsonValue) : list FJsonValue :=
  match Assets with
  | [] => ResultArray
  | Asset :: Assets =>
      if negb (IsEmpty Query) && negb (FString_Contains (AssetName Asset) Query)
      then SearchLoop Query Assets ResultArray
      else
        let AssetObj := MakeShared_FJsonObject in
        let AssetObj := SetStringField AssetObj "name" (AssetName Asset) in
        let AssetObj := SetStringField AssetObj "path" (GetObjectPathString Asset) in
        let AssetObj :=
          SetStringField AssetObj "class" (AssetClassPath_GetAssetName Asset) in
        let ResultArray := (ResultArray ++ [FJsonValueObject AssetObj])%list in
        if 100 <=? Z.of_nat (length ResultArray) then ResultArray
        else SearchLoop Query Assets ResultArray
  end.

Definition Search (Params : FJsonObject) : GameThreadOp FJsonObject :=
  let Query := GetStringField Params "query" in
  let Type_ := GetStringField Params "type" in
  let* Assets :=
    AssetRegistry_GetAssets (if negb (IsEmpty Type_) then Some Type_ else None) in
  let ResultArray := SearchLoop Query Assets [] in
  let Data := MakeShared_FJsonObject in
  let Data := SetArrayField Data "assets" ResultArray in
  let Data :=
    SetNumberField Data "count" (int32_to_double (Z.of_nat (length ResultArray))) in
  ret (CreateSuccess (Some Data)).

Definition ImportTexture (Params : FJsonObject) : GameThreadOp FJsonObject :=
  ret (CreateError "NOT_IMPLEMENTED" "Not implemented").
Definition ExportTexture (Params : FJsonObject) : GameThreadOp FJsonObject :=
  ret (CreateError "NOT_IMPLEMENTED" "Not implemented").
Definition Delete (Params : FJsonObject) : GameThreadOp FJsonObject :=
  ret (CreateError "NOT_IMPLEMENTED" "Not implemented").
Definition Duplicate (Params : FJsonObject) : GameThreadOp FJsonObject :=
  ret (CreateError "NOT_IMPLEMENTED" "Not implemented").
Definition Save (Params : FJsonObject) : GameThreadOp FJsonObject :=
  ret (CreateError "NOT_IMPLEMENTED" "Not implemented").
Definition SaveAll (Params : FJsonObject) : GameThreadOp FJsonObject :=
  ret (CreateError "NOT_IMPLEMENTED" "Not implemented").
Definition ListReferences (Params : FJsonObject) : GameThreadOp FJsonObject :=
  ret (CreateError "NOT_IMPLEMENTED" "Not implemented").
Definition Open (Params : FJsonObject) : GameThreadOp FJsonObject :=
  ret (CreateError "NOT_IMPLEMENTED" "Not implemented").

Definition HandleCommand (CommandType : string) (Params : FJsonObject)
  : GameThreadOp FJsonObject :=
  if FString_Equals CommandType "asset_search" then Search Params
  else if FString_Equals CommandType "asset_import_texture" then ImportTexture Params
  else if FString_Equals CommandType "asset_export_texture" then ExportTexture Params
  else if FString_Equals CommandType "asset_delete" then Delete Params
  else if FString_Equals CommandType "asset_duplicate" then Duplicate Params
  else if FString_Equals CommandType "asset_save" then Save Params
  else if FString_Equals CommandType "asset_save_all" then SaveAll Params
  else if FString_Equals CommandType "asset_list_references" then ListReferences Params
  else if FString_Equals CommandType "asset_open" then Open Params
  else ret (CreateError "UNKNOWN_COMMAND" ("Unknown asset command: " +:+ CommandType)).

End WithEngine.
End FAssetCommands.

(** ** Commands/InputCommands.cpp *)
Module FInputCommands.
Section WithEngine.
Context {E : Engine}.

Definition CreateError (Code Message : string) : FJsonObject :=
  let R := MakeShared_FJsonObject in
  let R := SetBoolField R "success" false in
  let R := SetStringField R "error_code" Code in
  let R := SetStringField R "error" Message in
  R.

Definition CreateSuccess (Data : option FJsonObject) : FJsonObject :=
  let R := MakeShared_FJsonObject in
  let R := SetBoolField R "success" true in
  match Data with
  | Some Data => SetObjectField R "data" Data
  | None => R
  end.

Definition CreateAction (Params : FJsonObject) : GameThreadOp FJsonObject :=
  ret (CreateError "NOT_IMPLEMENTED" "Not implemented").
Definition ListActions (Params : FJsonObject) : GameThreadOp FJsonObject :=
  ret (CreateError "NOT_IMPLEMENTED" "Not implemented").
Definition GetActionProperties (Params : FJsonObject) : GameThreadOp FJsonObject :=
  ret (CreateError "NOT_IMPLEMENTED" "Not implemented").
Definition ConfigureAction (Params : FJsonObject) : GameThreadOp FJsonObject :=
  ret (CreateError "NOT_IMPLEMENTED" "Not implemented").
Definition CreateMappingContext (Params : FJsonObject) : GameThreadOp FJsonObject :=
  ret (CreateError "NOT_IMPLEMENTED" "Not implemented").
Definition ListMappingContexts (Params : FJsonObject) : GameThreadOp FJsonObject :=
  ret (CreateError "NOT_IMPLEMENTED" "Not implemented").
Definition GetMappings (Params : FJsonObject) : GameThreadOp FJsonObject :=
  ret (CreateError "NOT_IMPLEMENTED" "Not implemented").
Definition AddKeyMapping (Params : FJsonObject) : GameThreadOp FJsonObject :=
  ret (CreateError "NOT_IMPLEMENTED" "Not implemented").
Definition RemoveKeyMapping (Params : FJsonObject) : GameThreadOp FJsonObject :=
  ret (CreateError "NOT_IMPLEMENTED" "Not implemented").
Definition GetAvailableKeys (Params : FJsonObject) : GameThreadOp FJsonObject :=
  ret (CreateError "NOT_IMPLEMENTED" "Not implemented").
Definition AddModifier (Params : FJsonObject) : GameThreadOp FJsonObject :=
  ret (CreateError "NOT_IMPLEMENTED" "Not implemented").
Definition RemoveModifier (Params : FJsonObject) : GameThreadOp FJsonObject :=
  ret (CreateError "NOT_IMPLEMENTED" "Not implemented").
Definition ListModifiers (Params : FJsonObject) : GameThreadOp FJsonObject :=
  ret (CreateError "NOT_IMPLEMENTED" "Not implemented").
Definition AddTrigger (Params : FJsonObject) : GameThreadOp FJsonObject :=
  ret (CreateError "NOT_IMPLEMENTED" "Not implemented").
Definition RemoveTrigger (Params : FJsonObject) : GameThreadOp FJsonObject :=
  ret (CreateError "NOT_IMPLEMENTED" "Not implemented").
Definition ListTriggers (Params : FJsonObject) : GameThreadOp FJsonObject :=
  ret (CreateError "NOT_IMPLEMENTED" "Not implemented").

Definition HandleCommand (CommandType : string) (Params : FJsonObject)
  : GameThreadOp FJsonObject :=
  if FString_Equals CommandType "input_create_action" then CreateAction Params
  else if FString_Equals CommandType "input_list_actions" then ListActions Params
  else if FString_Equals CommandType "input_create_context" then CreateMappingContext Params
  else if FString_Equals CommandType "input_list_contexts" then ListMappingContexts Params
  else if FString_Equals CommandType "input_add_mapping" then AddKeyMapping Params
  else if FString_Equals CommandType "input_remove_mapping" then RemoveKeyMapping Params
  else if FString_Equals CommandType "input_get_mappings" then GetMappings Params
  else if FString_Equals CommandType "input_get_keys" then GetAvailableKeys Params
  else if FString_Equals CommandType "input_add_modifier" then AddModifier Params
  else if FString_Equals CommandType "input_remove_modifier" then RemoveModifier Params
  else if FString_Equals CommandType "input_add_trigger" then AddTrigger Params
  else if FString_Equals CommandType "input_remove_trigger" then RemoveTrigger Params
  else ret (CreateError "UNKNOWN_COMMAND" ("Unknown input command: " +:+ CommandType)).

End WithEngine.
End FInputCommands.

(** ** GRIDBridge.cpp: responses and routing *)

Section BridgeRouting.
Context {E : Engine}.

Definition CreateErrorResponse (ErrorCode ErrorMessage : string) : FJsonObject :=
  let Response := MakeShared_FJsonObject in
  let Response := SetBoolField Response "success" false in
  let Response := SetStringField Response "error_code" ErrorCode in
  let Response := SetStringField Response "error" ErrorMessage in
  Response.

Definition CreateSuccessResponse (Data : option FJsonObject) : FJsonObject :=
  let Response := MakeShared_FJsonObject in
  let Response := SetBoolField Response "success" true in
  match Data with
  | Some Data => SetObjectField Response "data" Data
  | None => Response
  end.

Definition RouteCommand (CommandType : string) (Params : FJsonObject)
  : GameThreadOp FJsonObject :=
  (* System commands *)
  if FString_Equals CommandType "check_connection" then
    let Result := MakeShared_FJsonObject in
    let Result := SetBoolField Result "connected" true in
    let Result := SetStringField Result "engine_version" "5.5" in
    let Result := SetStringField Result "plugin_version" "1.0.0" in
    ret (CreateSuccessResponse (Some Result))
  (* Blueprint commands *)
  else if FString_StartsWith CommandType "blueprint_" then
    FBlueprintCommands.HandleCommand CommandType Params
  (* Actor commands *)
  else if FString_StartsWith CommandType "actor_" then
    FActorCommands.HandleCommand CommandType Params
  (* Material commands *)
  else if FString_StartsWith CommandType "material_" then
    FMaterialCommands.HandleCommand CommandType Params
  (* Widget commands *)
  else if FString_StartsWith CommandType "widget_" then
    FWidgetCommands.HandleCommand CommandType Params
  (* Asset commands *)
  else if FString_StartsWith CommandType "asset_" then
    FAssetCommands.HandleCommand CommandType Params
  (* Input commands *)
  else if FString_StartsWith CommandType "input_" then
    FInputCommands.HandleCommand CommandType Params
  else
    ret (CreateErrorResponse "UNKNOWN_COMMAND" ("Unknown command: " +:+ CommandType)).

End BridgeRouting.

(** ** The game thread

    [AsyncTask(ENamedThreads::GameThread, ...)] appends a task to the
    game thread's queue; the game thread takes queued tasks up in order,
    one at a time.  A promise is named by a number; a fulfilled promise
    holds its value. *)

Record FTimespan := { GetTotalMilliseconds : Z }.
Definition FromSeconds (Seconds : Z) : FTimespan :=
  {| GetTotalMilliseconds := Seconds * 1000 |}.
Definition FromMilliseconds (Milliseconds : Z) : FTimespan :=
  {| GetTotalMilliseconds := Milliseconds |}.

(** The lambda [ExecuteCommand] hands over, with what it captures. *)
Record FAsyncTask := {
  Task_CommandType : string;
  Task_Params : FJsonObject;
  Task_Promise : nat
}.

Record FGameThread {E : Engine} := {
  TaskQueue : list FAsyncTask;
  Promises : gmap nat string;
  NextPromise : nat;
  Editor : Host
}.

(** How many queued tasks the game thread takes up while a caller
    waits for the given time; a blocked game thread takes up none. *)
Definition FGameThreadSchedule : Type := FTimespan -> nat.

Section GameThread.
Context {E : Engine}.

(** The body of the task: route, serialise, fulfil the promise. *)
Definition RunTask (Task : FAsyncTask) (G : FGameThread) : FGameThread :=
  let '(Result, Editor') :=
    RouteCommand (Task_CommandType Task) (Task_Params Task) (Editor G) in
  let ResultString := FJsonSerializer_Serialize Result in
  {| TaskQueue := TaskQueue G;
     Promises := <[Task_Promise Task := ResultString]> (Promises G);
     NextPromise := NextPromise G;
     Editor := Editor' |}.

(** One turn of the game thread: take the task at the head of the queue. *)
Definition GameThreadTick (G : FGameThread) : FGameThread :=
  match TaskQueue G with
  | [] => G
  | Task :: Rest =>
      RunTask Task
        {| TaskQueue := Rest; Promises := Promises G;
           NextPromise := NextPromise G; Editor := Editor G |}
  end.

Fixpoint GameThreadTicks (n : nat) (G : FGameThread) : FGameThread :=
  match n with
  | O => G
  | S n => GameThreadTicks n (GameThreadTick G)
  end.

(** [AsyncTask(ENamedThreads::GameThread, Task)] with a fresh promise. *)
Definition AsyncTask (CommandType : string) (Params : FJsonObject) (G : FGameThread)
  : nat * FGameThread :=
  let Promise := NextPromise G in
  (Promise,
   {| TaskQueue := TaskQueue G ++
                   [{| Task_CommandType := CommandType; Task_Params := Params;
                       Task_Promise := Promise |}];
      Promises := Promises G;
      NextPromise := S Promise;
      Editor := Editor G |}).

(** [Future.WaitFor]: the caller sleeps while the game thread works; it
    wakes as soon as its promise is fulfilled, or when the game thread
    has used up what the schedule grants for the waiting time. *)
Fixpoint WaitLoop (Turns : nat) (Promise : nat) (G : FGameThread)
  : bool * FGameThread :=
  match Promises G !! Promise with
  | Some _ => (true, G)
  | None =>
      match Turns with
      | O => (false, G)
      | S Turns => WaitLoop Turns Promise (GameThreadTick G)
      end
  end.

Definition Future_WaitFor (Schedule : FGameThreadSchedule) (Promise : nat)
  (Duration : FTimespan) (G : FGameThread) : bool * FGameThread :=
  WaitLoop (Schedule Duration) Promise G.

(** [Future.Get] on a fulfilled promise. *)
Definition Future_Get (Promise : nat) (G : FGameThread) : string :=
  default "" (Promises G !! Promise).

Definition ExecuteCommand (CommandType : string) (Params : FJsonObject)
  (Schedule : FGameThreadSchedule) (G : FGameThread) : string * FGameThread :=
  (* Execute on game thread *)
  let '(Future, G) := AsyncTask CommandType Params G in
  (* Wait for result with timeout *)
  let '(bReady, G) := Future_WaitFor Schedule Future (FromSeconds 30) G in
  if negb bReady then
    let TimeoutError := CreateErrorResponse "TIMEOUT" "Command execution timed out" in
    let ErrorString := FJsonSerializer_Serialize TimeoutError in
    (ErrorString, G)
  else (Future_Get Future G, G).

(** Promises are issued in increasing order: those of queued tasks have
    been issued, and none that is still to be issued is fulfilled.  Every
    game thread reached through [ExecuteCommand] and [GameThreadTick]
    from an idle one is of this kind. *)
Definition GameThreadWF (G : FGameThread) : Prop :=
  (forall Task, In Task (TaskQueue G) -> (Task_Promise Task < NextPromise G)%nat)
  /\ (forall Promise, (NextPromise G <= Promise)%nat -> Promises G !! Promise = None).

End GameThread.

(** ** GRIDBridge.cpp: lifecycle and the discovery file *)

(** [FString::FromInt] *)
Definition FromInt (Num : Z) : string := NilZero.string_of_int (Z.to_int Num).

(** Reading a decimal number back, as the IDE does with the port file. *)
Definition Atoi (s : string) : option Z := option_map Z.of_int (NilZero.int_of_string s).

Fixpoint EndsWithSlash (s : string) : bool :=
  match s with
  | EmptyString => false
  | String c EmptyString => Ascii.eqb c "/"%char
  | String _ Rest => EndsWithSlash Rest
  end.

(** [FPaths::Combine]: the parts joined by one separator. *)
Definition PathAppend (A B : string) : string :=
  if IsEmpty A then B
  else if EndsWithSlash A then A +:+ B
  else A +:+ "/" +:+ B.

Definition FPaths_Combine (Parts : list string) : string :=
  match Parts with
  | [] => ""
  | First :: Rest => fold_left PathAppend Rest First
  end.

Inductive ESocketState :=
| SocketCreated | SocketBound | SocketListening | SocketClosed.

(** What the operating system holds for the process: files by path with
    their text, sockets and server threads by handle, and how often
    [Bind] was called.  Writes and deletes of the platform file layer
    take effect; the bridge discards their results. *)
Record FPlatform := {
  ProjectDir : string;
  Files : gmap string string;
  Sockets : gmap nat ESocketState;
  NextSocket : nat;
  Threads : gset nat;
  NextThread : nat;
  BindCalls : nat
}.

(** The answers of the operating system to the calls of one
    [Initialize] or [Shutdown]. *)
Record FPlatformAnswers := {
  (** [ISocketSubsystem::Get] returns a subsystem *)
  SocketSubsystem_Get : bool;
  (** [CreateSocket] returns a socket *)
  CreateSocket_ok : bool;
  (** [Bind] succeeds, and the port [GetPort] then reports *)
  Bind_ok : bool;
  BoundAddr_GetPort : Z;
  (** [Listen] succeeds *)
  Listen_ok : bool;
  (** [FRunnableThread::Create] returns a thread *)
  CreateThread_ok : bool
}.

(** GRIDServerRunnable.h: the members of the runnable. *)
Record FGRIDServerRunnable := {
  Runnable_Bridge : bool;
  Runnable_ListenerSocket : option nat;
  StopTaskCounter : Z
}.

(** GRIDBridge.h: the server state of the bridge. *)
Record FGRIDBridge := {
  ListenerSocket : option nat;
  ServerThread : option nat;
  ServerRunnable : option FGRIDServerRunnable;
  bIsRunning : bool;
  Port : Z;
  PortFilePath : string
}.

Definition set_ListenerSocket (v : option nat) (B : FGRIDBridge) : FGRIDBridge :=
  {| ListenerSocket := v; ServerThread := ServerThread B;
     ServerRunnable := ServerRunnable B; bIsRunning := bIsRunning B;
     Port := Port B; PortFilePath := PortFilePath B |}.
Definition set_ServerThread (v : option nat) (B : FGRIDBridge) : FGRIDBridge :=
  {| ListenerSocket := ListenerSocket B; ServerThread := v;
     ServerRunnable := ServerRunnable B; bIsRunning := bIsRunning B;
     Port := Port B; PortFilePath := PortFilePath B |}.
Definition set_ServerRunnable (v : option FGRIDServerRunnable) (B : FGRIDBridge)
  : FGRIDBridge :=
  {| ListenerSocket := ListenerSocket B; ServerThread := ServerThread B;
     ServerRunnable := v; bIsRunning := bIsRunning B;
     Port := Port B; PortFilePath := PortFilePath B |}.
Definition set_bIsRunning (v : bool) (B : FGRIDBridge) : FGRIDBridge :=
  {| ListenerSocket := ListenerSocket B; ServerThread := ServerThread B;
     ServerRunnable := ServerRunnable B; bIsRunning := v;
     Port := Port B; PortFilePath := PortFilePath B |}.
Definition set_Port (v : Z) (B : FGRIDBridge) : FGRIDBridge :=
  {| ListenerSocket := ListenerSocket B; ServerThread := ServerThread B;
     ServerRunnable := ServerRunnable B; bIsRunning := bIsRunning B;
     Port := v; PortFilePath := PortFilePath B |}.
Definition set_PortFilePath (v : string) (B : FGRIDBridge) : FGRIDBridge :=
  {| ListenerSocket := ListenerSocket B; ServerThread := ServerThread B;
     ServerRunnable := ServerRunnable B; bIsRunning := bIsRunning B;
     Port := Port B; PortFilePath := v |}.

Definition set_Files (v : gmap string string) (P : FPlatform) : FPlatform :=
  {| ProjectDir := ProjectDir P; Files := v; Sockets := Sockets P;
     NextSocket := NextSocket P; Threads := Threads P; NextThread := NextThread P;
     BindCalls := BindCalls P |}.
Definition set_Sockets (v : gmap nat ESocketState) (P : FPlatform) : FPlatform :=
  {| ProjectDir := ProjectDir P; Files := Files P; Sockets := v;
     NextSocket := NextSocket P; Threads := Threads P; NextThread := NextThread P;
     BindCalls := BindCalls P |}.

(** The constructor: not running, no thread, no runnable, port 0. *)
Definition FGRIDBridge_new : FGRIDBridge :=
  {| ListenerSocket := None; ServerThread := None; ServerRunnable := None;
     bIsRunning := false; Port := 0; PortFilePath := "" |}.

Definition IsRunning (B : FGRIDBridge) : bool := bIsRunning B.
Definition GetPort (B : FGRIDBridge) : Z := Port B.

(** [SocketSubsystem->CreateSocket(NAME_Stream, "GRIDListener", false)] *)
Definition CreateSocket (Answers : FPlatformAnswers) (P : FPlatform)
  : option nat * FPlatform :=
  if CreateSocket_ok Answers then
    let Socket := NextSocket P in
    (Some Socket,
     {| ProjectDir := ProjectDir P; Files := Files P;
        Sockets := <[Socket := SocketCreated]> (Sockets P);
        NextSocket := S Socket; Threads := Threads P; NextThread := NextThread P;
        BindCalls := BindCalls P |})
  else (None, P).

(** [ListenerSocket->Bind(...)] *)
Definition Socket_Bind (Answers : FPlatformAnswers) (Socket : nat) (P : FPlatform)
  : bool * FPlatform :=
  let P :=
    {| ProjectDir := ProjectDir P; Files := Files P;
       Sockets := if Bind_ok Answers then <[Socket := SocketBound]> (Sockets P)
                  else Sockets P;
       NextSocket := NextSocket P; Threads := Threads P; NextThread := NextThread P;
       BindCalls := S (BindCalls P) |} in
  (Bind_ok Answers, P).

(** [ListenerSocket->Listen(5)] *)
Definition Socket_Listen (Answers : FPlatformAnswers) (Socket : nat) (P : FPlatform)
  : bool * FPlatform :=
  if Listen_ok Answers then (true, set_Sockets (<[Socket := SocketListening]> (Sockets P)) P)
  else (false, P).

(** [ListenerSocket->Close()] *)
Definition Socket_Close (Socket : nat) (P : FPlatform) : FPlatform :=
  set_Sockets (<[Socket := SocketClosed]> (Sockets P)) P.

(** [SocketSubsystem->DestroySocket(...)] *)
Definition DestroySocket (Socket : nat) (P : FPlatform) : FPlatform :=
  set_Sockets (delete Socket (Sockets P)) P.

(** [FRunnableThread::Create(ServerRunnable, "GRIDServerThread", 0, TPri_Normal)] *)
Definition FRunnableThread_Create (Answers : FPlatformAnswers) (P : FPlatform)
  : option nat * FPlatform :=
  if CreateThread_ok Answers then
    let Thread := NextThread P in
    (Some Thread,
     {| ProjectDir := ProjectDir P; Files := Files P; Sockets := Sockets P;
        NextSocket := NextSocket P; Threads := {[Thread]} ∪ Threads P;
        NextThread := S Thread; BindCalls := BindCalls P |})
  else (None, P).

(** [ServerThread->WaitForCompletion(); delete ServerThread;] *)
Definition FRunnableThread_Join (Thread : nat) (P : FPlatform) : FPlatform :=
  {| ProjectDir := ProjectDir P; Files := Files P; Sockets := Sockets P;
     NextSocket := NextSocket P; Threads := Threads P ∖ {[Thread]};
     NextThread := NextThread P; BindCalls := BindCalls P |}.

(** [FGRIDServerRunnable::Stop] *)
Definition FGRIDServerRunnable_Stop (R : FGRIDServerRunnable) : FGRIDServerRunnable :=
  {| Runnable_Bridge := Runnable_Bridge R;
     Runnable_ListenerSocket := Runnable_ListenerSocket R;
     StopTaskCounter := StopTaskCounter R + 1 |}.

(** GRIDBridge.h, GRIDServerRunnable.h: [ListenerSocket] is a
    [TSharedPtr<FSocket>], shared by the bridge and by the runnable made
    for the socket, which keeps a copy.  The socket is deleted when its
    last owner lets go of it.  No runnable is ever deleted, and the
    bridge takes a new socket before it makes a new runnable, so the
    socket of the bridge has a second owner exactly when the runnable
    the bridge points to was made for it. *)
Definition HeldByRunnable (B : FGRIDBridge) (Socket : nat) : bool :=
  match ServerRunnable B with
  | Some Runnable =>
      match Runnable_ListenerSocket Runnable with
      | Some Held => Nat.eqb Held Socket
      | None => false
      end
  | None => false
  end.

(** The sockets left when the bridge lets go of its listener socket, by
    an assignment to the member or by its destruction. *)
Definition ReleasedSockets (B : FGRIDBridge) (P : FPlatform) : gmap nat ESocketState :=
  match ListenerSocket B with
  | Some Socket =>
      if HeldByRunnable B Socket then Sockets P else delete Socket (Sockets P)
  | None => Sockets P
  end.

Definition ListenerSocket_Release (B : FGRIDBridge) (P : FPlatform) : FPlatform :=
  set_Sockets (ReleasedSockets B P) P.

Definition WritePortFile (B : FGRIDBridge) (P : FPlatform) : FGRIDBridge * FPlatform :=
  (* Write to Saved/Config/GRID/Port.txt for GRID IDE discovery *)
  let ProjectDir := ProjectDir P in
  let B :=
    set_PortFilePath
      (FPaths_Combine [ProjectDir; "Saved"; "Config"; "GRID"; "Port.txt"]) B in
  (* CreateDirectoryTree: directories are not tracked *)
  let P := set_Files (<[PortFilePath B := FromInt (Port B)]> (Files P)) P in
  (B, P).

Definition DeletePortFile (B : FGRIDBridge) (P : FPlatform) : FGRIDBridge * FPlatform :=
  if negb (IsEmpty (PortFilePath B)) then
    (B, set_Files (delete (PortFilePath B) (Files P)) P)
  else (B, P).

Definition Shutdown (Answers : FPlatformAnswers) (B : FGRIDBridge) (P : FPlatform)
  : FGRIDBridge * FPlatform :=
  if negb (bIsRunning B) then (B, P)
  else
    let B := set_bIsRunning false B in
    (* Stop server runnable *)
    let B :=
      match ServerRunnable B with
      | Some Runnable => set_ServerRunnable (Some (FGRIDServerRunnable_Stop Runnable)) B
      | None => B
      end in
    (* Close sockets *)
    let '(B, P) :=
      match ListenerSocket B with
      | Some Socket =>
          let P := Socket_Close Socket P in
          let P := if SocketSubsystem_Get Answers then DestroySocket Socket P else P in
          (* ListenerSocket.Reset(): the runnable of the running bridge keeps its copy *)
          (set_ListenerSocket None B, P)
      | None => (B, P)
      end in
    (* Wait for thread *)
    let '(B, P) :=
      match ServerThread B with
      | Some Thread =>
          let P := FRunnableThread_Join Thread P in
          (set_ServerRunnable None (set_ServerThread None B), P)
      | None => (B, P)
      end in
    (* Delete port file *)
    DeletePortFile B P.

(** [Initialize].  The assignment [ListenerSocket = MakeShareable(...)]
    takes the socket just created and lets go of the one the bridge
    held.  These are two sockets, neither step bears on the socket of
    the other, and the release is written first. *)
Definition Initialize (Answers : FPlatformAnswers) (B : FGRIDBridge) (P : FPlatform)
  : FGRIDBridge * FPlatform :=
  if bIsRunning B then (B, P)
  else if negb (SocketSubsystem_Get Answers) then (B, P)
  else
    (* Create listener socket on dynamic port (0 = OS assigns) *)
    let P := ListenerSocket_Release B P in
    let '(NewSocket, P) := CreateSocket Answers P in
    let B := set_ListenerSocket NewSocket B in
    match NewSocket with
    | None => (B, P)
    | Some Socket =>
        (* Bind to localhost on dynamic port *)
        let '(bBound, P) := Socket_Bind Answers Socket P in
        if negb bBound then (B, P)
        else
          (* Get the assigned port *)
          let B := set_Port (BoundAddr_GetPort Answers) B in
          let '(bListening, P) := Socket_Listen Answers Socket P in
          if negb bListening then (B, P)
          else
            (* Write port file for GRID IDE discovery *)
            let '(B, P) := WritePortFile B P in
            (* Start server thread *)
            let B :=
              set_ServerRunnable
                (Some {| Runnable_Bridge := true;
                         Runnable_ListenerSocket := ListenerSocket B;
                         StopTaskCounter := 0 |}) B in
            let '(Thread, P) := FRunnableThread_Create Answers P in
            let B := set_ServerThread Thread B in
            match Thread with
            | None => Shutdown Answers B P
            | Some _ => (set_bIsRunning true B, P)
            end
    end.

(** Calls made on the bridge from outside, each with the answers the
    operating system gives during it. *)
Inductive FBridgeCall :=
| Call_Initialize (Answers : FPlatformAnswers)
| Call_Shutdown (Answers : FPlatformAnswers).

Definition BridgeStep (State : FGRIDBridge * FPlatform) (Call : FBridgeCall)
  : FGRIDBridge * FPlatform :=
  match Call with
  | Call_Initialize Answers => Initialize Answers (fst State) (snd State)
  | Call_Shutdown Answers => Shutdown Answers (fst State) (snd State)
  end.

Definition BridgeRun (Calls : list FBridgeCall) (State : FGRIDBridge * FPlatform)
  : FGRIDBridge * FPlatform :=
  fold_left BridgeStep Calls State.

(** A process that has just loaded the plugin: nothing open, no files. *)
Definition FreshPlatform (Dir : string) : FPlatform :=
  {| ProjectDir := Dir; Files := ∅; Sockets := ∅; NextSocket := 0%nat;
     Threads := ∅; NextThread := 0%nat; BindCalls := 0%nat |}.

(** The discovery file of a project directory. *)
Definition DiscoveryFile (Dir : string) : string :=
  FPaths_Combine [Dir; "Saved"; "Config"; "GRID"; "Port.txt"].

(** The invariant the data model gives for [BridgeState]: a non-zero
    port together with a present discovery file, exactly when running. *)
Definition BridgeStateInvariant (State : FGRIDBridge * FPlatform) : Prop :=
  let '(B, P) := State in
  (Port B <> 0 /\ is_Some (Files P !! DiscoveryFile (ProjectDir P)))
  <-> bIsRunning B = true.

(** ** GRIDServerRunnable.cpp *)

(** C++ string literals with escaped quotes: a backquote in the argument
    stands for the escaped double quote of the source text. *)
Fixpoint TEXT (s : string) : string :=
  match s with
  | EmptyString => EmptyString
  | String c Rest =>
      String (if Ascii.eqb c "`"%char then ascii_of_nat 34 else c) (TEXT Rest)
  end.

Definition INVALID_JSON_Response : string :=
  Eval cbv in
    TEXT "{`success`:false,`error_code`:`INVALID_JSON`,`error`:`Failed to parse request JSON`}".

Definition MISSING_COMMAND_Response : string :=
  Eval cbv in
    TEXT "{`success`:false,`error_code`:`MISSING_COMMAND`,`error`:`Request missing 'command' field`}".

(** What the peer of an accepted connection does after connecting. *)
Inductive FClient :=
| Client_Sends (DelayMilliseconds : Z) (Bytes : string)
| Client_Closes (DelayMilliseconds : Z)
| Client_Silent.

(** The calls made on a client socket, in order; [Sock_Send] with the
    text whose UTF-8 form is sent. *)
Inductive FSocketCall :=
| Sock_SetNonBlocking (bIsNonBlocking : bool)
| Sock_Wait_WaitForRead (WaitTime : FTimespan)
| Sock_Recv (BufferSize : Z)
| Sock_Send (Data : string)
| Sock_Close
| Sock_DestroySocket.

(** [ClientSocket->Wait(WaitForRead, WaitTime)]: readable within the time. *)
Definition ClientSocket_Wait (Client : FClient) (WaitTime : FTimespan) : bool :=
  match Client with
  | Client_Sends Delay _ => Delay <=? GetTotalMilliseconds WaitTime
  | Client_Closes Delay => Delay <=? GetTotalMilliseconds WaitTime
  | Client_Silent => false
  end.

(** [ClientSocket->Recv] on a blocking socket: it returns once bytes have
    arrived (at most the buffer's size of them) or the peer has closed,
    and does not return while neither happens. *)
Inductive FRecvResult :=
| Recv_Returns (bSuccess : bool) (Received : string)
| Recv_Blocks.

Fixpoint Left (s : string) (Count : nat) : string :=
  match Count, s with
  | S Count, String c Rest => String c (Left Rest Count)
  | _, _ => EmptyString
  end.

Definition ClientSocket_Recv (Client : FClient) (BufferSize : Z) : FRecvResult :=
  match Client with
  | Client_Sends _ Bytes => Recv_Returns true (Left Bytes (Z.to_nat BufferSize))
  | Client_Closes _ => Recv_Returns false ""
  | Client_Silent => Recv_Blocks
  end.

(** The memory from an address on, after bytes were written there. *)
Fixpoint Overwrite (Written Memory : string) : string :=
  match Written with
  | EmptyString => Memory
  | String c Written =>
      String c (Overwrite Written
                  match Memory with
                  | String _ Rest => Rest
                  | EmptyString => EmptyString
                  end)
  end.

(** The bytes a [const char*] stands for: those from its address up to
    the first zero byte, or to the end of the memory given when it
    holds none. *)
Fixpoint CString (Memory : string) : string :=
  match Memory with
  | EmptyString => EmptyString
  | String c Rest =>
      if Ascii.eqb c Ascii.zero then EmptyString else String c (CString Rest)
  end.

(** What became of one connection: the socket calls made, and whether
    the handling thread came back from them. *)
Record FConnectionTrace := {
  SocketCalls : list FSocketCall;
  bReturned : bool
}.

Record FPoll := {
  (** the value [StopTaskCounter.GetValue()] yields at the top of the loop *)
  Poll_StopTaskCounter : Z;
  Poll_WaitForPendingConnection : bool;
  Poll_bHasPendingConnection : bool;
  (** the socket [Accept] returns, if any, with its peer *)
  Poll_Accept : option FClient;
  (** the memory the handler's receive buffer is placed in *)
  Poll_Memory : string;
  (** the pace of the game thread while this connection is served *)
  Poll_Schedule : FGameThreadSchedule
}.

Section ServerRunnable.
Context {E : Engine}.

Definition ProcessRequest (RequestData : string) (Schedule : FGameThreadSchedule)
  (G : FGameThread) : string * FGameThread :=
  (* Parse JSON request *)
  match FJsonSerializer_Deserialize RequestData with
  | None => (INVALID_JSON_Response, G)
  | Some RequestJson =>
      (* Extract command and params *)
      match TryGetStringField RequestJson "command" with
      | None => (MISSING_COMMAND_Response, G)
      | Some CommandType =>
          let Params :=
            match GetObjectField RequestJson "params" with
            | Some Params => Params
            | None => MakeShared_FJsonObject
            end in
          (* Execute command *)
          ExecuteCommand CommandType Params Schedule G
      end
  end.

(** [HandleClientConnection].  [Buffer.SetNumUninitialized(65536)]
    leaves in the buffer what its memory held: [Memory] is what lies at
    the buffer's address when the array has been set up, the 65536 bytes
    of the buffer and the bytes behind them.  [Recv] writes what it
    received at the start; the request text is made of the bytes there
    up to the first zero byte, wherever that is, and cut to as many
    characters as bytes were received. *)
Definition HandleClientConnection (Runnable : FGRIDServerRunnable)
  (ClientSocket : option FClient) (Memory : string)
  (Schedule : FGameThreadSchedule) (G : FGameThread)
  : FConnectionTrace * FGameThread :=
  match ClientSocket with
  | None => ({| SocketCalls := []; bReturned := true |}, G)
  | Some Client =>
      if negb (Runnable_Bridge Runnable)
      then ({| SocketCalls := []; bReturned := true |}, G)
      else
        (* Read request data *)
        let BufferSize := 65536 in
        let Calls := [Sock_SetNonBlocking false] in
        let _ := ClientSocket_Wait Client (FromSeconds 5) in
        let Calls := (Calls ++ [Sock_Wait_WaitForRead (FromSeconds 5)])%list in
        let Calls := (Calls ++ [Sock_Recv BufferSize])%list in
        match ClientSocket_Recv Client BufferSize with
        | Recv_Blocks => ({| SocketCalls := Calls; bReturned := false |}, G)
        | Recv_Returns false _ => ({| SocketCalls := Calls; bReturned := true |}, G)
        | Recv_Returns true Received =>
            let BytesRead := Z.of_nat (String.length Received) in
            let Memory := Overwrite Received Memory in
            if 0 <? BytesRead then
              let RequestData := UTF8_TO_TCHAR (CString Memory) in
              let RequestData := Left RequestData (Z.to_nat BytesRead) in
              let '(ResponseData, G) := ProcessRequest RequestData Schedule G in
              (* Send response *)
              ({| SocketCalls := (Calls ++ [Sock_Send ResponseData])%list;
                  bReturned := true |}, G)
            else ({| SocketCalls := Calls; bReturned := true |}, G)
        end
  end.

(** [Run]: the accept loop, one [FPoll] per turn of the [while]; a poll
    gives what [WaitForPendingConnection], called with
    [FromMilliseconds 100], and [Accept] report in that turn.  The
    result lists what happened on each accepted connection. *)
Fixpoint Run (Runnable : FGRIDServerRunnable) (Polls : list FPoll) (G : FGameThread)
  : list FConnectionTrace * FGameThread :=
  match Polls with
  | [] => ([], G)
  | Poll :: Polls =>
      if negb (Poll_StopTaskCounter Poll =? 0) then ([], G)
      else
        match Runnable_ListenerSocket Runnable with
        | None => ([], G)
        | Some _ =>
            if Poll_WaitForPendingConnection Poll && Poll_bHasPendingConnection Poll
            then
              match Poll_Accept Poll with
              | Some Client =>
                  let '(Trace, G) :=
                    HandleClientConnection Runnable (Some Client) (Poll_Memory Poll)
                      (Poll_Schedule Poll) G in
                  if bReturned Trace then
                    let Trace :=
                      {| SocketCalls :=
                           (SocketCalls Trace ++ [Sock_Close; Sock_DestroySocket])%list;
                         bReturned := true |} in
                    let '(Traces, G) := Run Runnable Polls G in
                    (Trace :: Traces, G)
                  else ([Trace], G)
              | None => Run Runnable Polls G
              end
            else Run Runnable Polls G
        end
  end.

End ServerRunnable.

(** ** CommandRouter, as the design describes it

    A fixed ordered list of (prefix, handler group) pairs; within a
    group, a list of operations by exact command name, each marked as
    built or not yet built.  [Route] and [Handle] follow the wording of
    the design; they are compared with [RouteCommand] and the classes'
    [HandleCommand] below. *)

Record FOperation {E : Engine} := {
  Op_Command : string;
  Op_bBuilt : bool;
  Op_Run : FCommandHandler
}.

Record FHandlerGroup {E : Engine} := {
  Group_Prefix : string;
  Group_Name : string;
  Group_HandleCommand : string -> FCommandHandler;
  Group_Operations : list FOperation
}.

Section CommandRouter.
Context {E : Engine}.

Definition Built (Command : string) (Run : FCommandHandler) : FOperation :=
  {| Op_Command := Command; Op_bBuilt := true; Op_Run := Run |}.
Definition Unbuilt (Command : string) (Run : FCommandHandler) : FOperation :=
  {| Op_Command := Command; Op_bBuilt := false; Op_Run := Run |}.

Definition BlueprintGroup : FHandlerGroup :=
  {| Group_Prefix := "blueprint_"; Group_Name := "blueprint";
     Group_HandleCommand := FBlueprintCommands.HandleCommand;
     Group_Operations :=
       [ Built "blueprint_create" FBlueprintCommands.CreateBlueprint;
         Built "blueprint_compile" FBlueprintCommands.CompileBlueprint;
         Built "blueprint_get_info" FBlueprintCommands.GetBlueprintInfo;
         Unbuilt "blueprint_reparent" FBlueprintCommands.ReparentBlueprint;
         Unbuilt "blueprint_get_property" FBlueprintCommands.GetProperty;
         Unbuilt "blueprint_set_property" FBlueprintCommands.SetProperty;
         Unbuilt "blueprint_add_component" FBlueprintCommands.AddComponent;
         Unbuilt "blueprint_remove_component" FBlueprintCommands.RemoveComponent;
         Unbuilt "blueprint_get_hierarchy" FBlueprintCommands.GetComponentHierarchy;
         Unbuilt "blueprint_add_variable" FBlueprintCommands.AddVariable;
         Unbuilt "blueprint_remove_variable" FBlueprintCommands.RemoveVariable;
         Unbuilt "blueprint_list_variables" FBlueprintCommands.ListVariables;
         Unbuilt "blueprint_add_function" FBlueprintCommands.AddFunction;
         Unbuilt "blueprint_remove_function" FBlueprintCommands.RemoveFunction;
         Unbuilt "blueprint_list_functions" FBlueprintCommands.ListFunctions;
         Unbuilt "blueprint_discover_nodes" FBlueprintCommands.DiscoverNodes;
         Unbuilt "blueprint_create_node" FBlueprintCommands.CreateNode;
         Unbuilt "blueprint_delete_node" FBlueprintCommands.DeleteNode;
         Unbuilt "blueprint_connect_nodes" FBlueprintCommands.ConnectNodes;
         Unbuilt "blueprint_list_nodes" FBlueprintCommands.ListNodes ] |}.

Definition ActorGroup : FHandlerGroup :=
  {| Group_Prefix := "actor_"; Group_Name := "actor";
     Group_HandleCommand := FActorCommands.HandleCommand;
     Group_Operations :=
       [ Built "actor_list" FActorCommands.ListActors;
         Built "actor_find" FActorCommands.FindActors;
         Built "actor_spawn" FActorCommands.SpawnActor;
         Unbuilt "actor_delete" FActorCommands.DeleteActor;
         Unbuilt "actor_get_info" FActorCommands.GetActorInfo;
         Unbuilt "actor_get_transform" FActorCommands.GetTransform;
         Unbuilt "actor_set_transform" FActorCommands.SetTransform;
         Unbuilt "actor_set_location" FActorCommands.SetLocation;
         Unbuilt "actor_set_rotation" FActorCommands.SetRotation;
         Unbuilt "actor_set_scale" FActorCommands.SetScale;
         Unbuilt "actor_focus" FActorCommands.FocusActor;
         Unbuilt "actor_select" FActorCommands.SelectActor;
         Unbuilt "actor_rename" FActorCommands.RenameActor ] |}.

Definition MaterialGroup : FHandlerGroup :=
  {| Group_Prefix := "material_"; Group_Name := "material";
     Group_HandleCommand := FMaterialCommands.HandleCommand;
     Group_Operations :=
       [ Built "material_create" FMaterialCommands.CreateMaterial;
         Unbuilt "material_create_instance" FMaterialCommands.CreateMaterialInstance;
         Unbuilt "material_get_info" FMaterialCommands.GetMaterialInfo;
         Unbuilt "material_compile" FMaterialCommands.Compile;
         Unbuilt "material_save" FMaterialCommands.Save ] |}.

Definition WidgetGroup : FHandlerGroup :=
  {| Group_Prefix := "widget_"; Group_Name := "widget";
     Group_HandleCommand := FWidgetCommands.HandleCommand;
     Group_Operations :=
       [ Unbuilt "widget_create" FWidgetCommands.CreateWidgetBlueprint;
         Unbuilt "widget_list_components" FWidgetCommands.ListComponents;
         Unbuilt "widget_add_component" FWidgetCommands.AddComponent;
         Unbuilt "widget_remove_component" FWidgetCommands.RemoveComponent;
         Unbuilt "widget_get_property" FWidgetCommands.GetProperty;
         Unbuilt "widget_set_property" FWidgetCommands.SetProperty;
         Unbuilt "widget_list_properties" FWidgetCommands.ListProperties;
         Unbuilt "widget_discover_types" FWidgetCommands.DiscoverWidgetTypes;
         Unbuilt "widget_validate" FWidgetCommands.ValidateHierarchy;
         Unbuilt "widget_get_events" FWidgetCommands.GetAvailableEvents;
         Unbuilt "widget_bind_events" FWidgetCommands.BindEvents ] |}.

Definition AssetGroup : FHandlerGroup :=
  {| Group_Prefix := "asset_"; Group_Name := "asset";
     Group_HandleCommand := FAssetCommands.HandleCommand;
     Group_Operations :=
       [ Built "asset_search" FAssetCommands.Search;
         Unbuilt "asset_import_texture" FAssetCommands.ImportTexture;
         Unbuilt "asset_export_texture" FAssetCommands.ExportTexture;
         Unbuilt "asset_delete" FAssetCommands.Delete;
         Unbuilt "asset_duplicate" FAssetCommands.Duplicate;
         Unbuilt "asset_save" FAssetCommands.Save;
         Unbuilt "asset_save_all" FAssetCommands.SaveAll;
         Unbuilt "asset_list_references" FAssetCommands.ListReferences;
         Unbuilt "asset_open" FAssetCommands.Open ] |}.

Definition InputGroup : FHandlerGroup :=
  {| Group_Prefix := "input_"; Group_Name := "input";
     Group_HandleCommand := FInputCommands.HandleCommand;
     Group_Operations :=
       [ Unbuilt "input_create_action" FInputCommands.CreateAction;
         Unbuilt "input_list_actions" FInputCommands.ListActions;
         Unbuilt "input_create_context" FInputCommands.CreateMappingContext;
         Unbuilt "input_list_contexts" FInputCommands.ListMappingContexts;
         Unbuilt "input_add_mapping" FInputCommands.AddKeyMapping;
         Unbuilt "input_remove_mapping" FInputCommands.RemoveKeyMapping;
         Unbuilt "input_get_mappings" FInputCommands.GetMappings;
         Unbuilt "input_get_keys" FInputCommands.GetAvailableKeys;
         Unbuilt "input_add_modifier" FInputCommands.AddModifier;
         Unbuilt "input_remove_modifier" FInputCommands.RemoveModifier;
         Unbuilt "input_add_trigger" FInputCommands.AddTrigger;
         Unbuilt "input_remove_trigger" FInputCommands.RemoveTrigger ] |}.

Definition HandlerGroups : list FHandlerGroup :=
  [BlueprintGroup; ActorGroup; MaterialGroup; WidgetGroup; AssetGroup; InputGroup].

(** The group whose prefix is the first the command starts with. *)
Definition MatchingGroup (command : string) : option FHandlerGroup :=
  List.find (fun Group => FString_StartsWith command (Group_Prefix Group)) HandlerGroups.

(** The operation of a group named exactly by the command. *)
Definition RecognizedOperation (Group : FHandlerGroup) (command : string)
  : option FOperation :=
  List.find (fun Op => FString_Equals command (Op_Command Op)) (Group_Operations Group).

Definition Handle (Group : FHandlerGroup) (command : string) (params : FJsonObject)
  : GameThreadOp FJsonObject :=
  match RecognizedOperation Group command with
  | Some Op => Op_Run Op params
  | None =>
      ret (CreateErrorResponse "UNKNOWN_COMMAND"
             ("Unknown " +:+ Group_Name Group +:+ " command: " +:+ command))
  end.

Definition Route (command : string) (params : FJsonObject) : GameThreadOp FJsonObject :=
  match MatchingGroup command with
  | Some Group => Handle Group command params
  | None => ret (CreateErrorResponse "UNKNOWN_COMMAND" ("Unknown command: " +:+ command))
  end.

End CommandRouter.

(** ** A condensed JSON writer and reader

    Enough of JSON to say what a response text denotes: objects, arrays,
    strings, [true], [false], [null] and whole numbers, without white
    space.  The reader takes fuel proportional to the text. *)

Definition Quote : ascii := ascii_of_nat 34.
Definition Backslash : ascii := ascii_of_nat 92.

Fixpoint EscapeJsonString (s : string) : string :=
  match s with
  | EmptyString => EmptyString
  | String c Rest =>
      if Ascii.eqb c Quote || Ascii.eqb c Backslash
      then String Backslash (String c (EscapeJsonString Rest))
      else String c (EscapeJsonString Rest)
  end.

Definition WriteJsonString (s : string) : string :=
  String Quote (EscapeJsonString s) +:+ String Quote EmptyString.

(** The whole part of a [double]. *)
Definition TruncateToInt (d : float) : Z :=
  match Prim2SF d with
  | S754_finite Negative Mantissa Exponent =>
      let Magnitude :=
        if 0 <=? Exponent then Z.pos Mantissa * 2 ^ Exponent
        else Z.pos Mantissa / 2 ^ (- Exponent) in
      if Negative then - Magnitude else Magnitude
  | _ => 0
  end.

Fixpoint WriteJsonValue (v : FJsonValue) : string :=
  match v with
  | FJsonValueNull => "null"
  | FJsonValueBoolean b => if b then "true" else "false"
  | FJsonValueNumber d => FromInt (TruncateToInt d)
  | FJsonValueString s => WriteJsonString s
  | FJsonValueArray a =>
      "[" +:+
      (fix Elements (l : list FJsonValue) : string :=
         match l with
         | [] => ""
         | x :: l =>
             WriteJsonValue x +:+ match l with [] => "" | _ => "," end +:+ Elements l
         end) a
      +:+ "]"
  | FJsonValueObject o =>
      "{" +:+
      (fix Members (l : list (string * FJsonValue)) : string :=
         match l with
         | [] => ""
         | (Name, x) :: l =>
             WriteJsonString Name +:+ ":" +:+ WriteJsonValue x
             +:+ match l with [] => "" | _ => "," end +:+ Members l
         end) o
      +:+ "}"
  end.

Definition WriteCondensed (Object : FJsonObject) : string :=
  WriteJsonValue (FJsonValueObject Object).

(** The text of a string literal after its opening quote, up to the
    closing quote, and what follows it. *)
Fixpoint ReadStringBody (s : string) : option (string * string) :=
  match s with
  | EmptyString => None
  | String c Rest =>
      if Ascii.eqb c Quote then Some (EmptyString, Rest)
      else if Ascii.eqb c Backslash then
        match Rest with
        | String Escaped Rest =>
            match ReadStringBody Rest with
            | Some (Body, After) => Some (String Escaped Body, After)
            | None => None
            end
        | EmptyString => None
        end
      else
        match ReadStringBody Rest with
        | Some (Body, After) => Some (String c Body, After)
        | None => None
        end
  end.

(** The members of an object after its opening brace. *)
Fixpoint ReadMembers (ReadValue : string -> option (FJsonValue * string))
  (Fuel : nat) (s : string) (Object : FJsonObject) : option (FJsonObject * string) :=
  match Fuel with
  | O => None
  | S Fuel =>
      match s with
      | String c Rest =>
          if Ascii.eqb c Quote then
            match ReadStringBody Rest with
            | Some (Name, String ":" Rest) =>
                match ReadValue Rest with
                | Some (Value, String "," Rest) =>
                    ReadMembers ReadValue Fuel Rest (SetField Object Name Value)
                | Some (Value, String "}" Rest) =>
                    Some (SetField Object Name Value, Rest)
                | _ => None
                end
            | _ => None
            end
          else None
      | EmptyString => None
      end
  end.

Fixpoint ReadJsonValue (Fuel : nat) (s : string) : option (FJsonValue * string) :=
  match Fuel with
  | O => None
  | S Fuel =>
      match s with
      | String "t" (String "r" (String "u" (String "e" Rest))) =>
          Some (FJsonValueBoolean true, Rest)
      | String "f" (String "a" (String "l" (String "s" (String "e" Rest)))) =>
          Some (FJsonValueBoolean false, Rest)
      | String "n" (String "u" (String "l" (String "l" Rest))) =>
          Some (FJsonValueNull, Rest)
      | String "{" (String "}" Rest) => Some (FJsonValueObject [], Rest)
      | String "{" Rest =>
          match ReadMembers (ReadJsonValue Fuel) Fuel Rest [] with
          | Some (Object, Rest) => Some (FJsonValueObject Object, Rest)
          | None => None
          end
      | String c Rest =>
          if Ascii.eqb c Quote then
            match ReadStringBody Rest with
            | Some (Body, Rest) => Some (FJsonValueString Body, Rest)
            | None => None
            end
          else None
      | EmptyString => None
      end
  end.

(** A whole text read as one JSON object. *)
Definition ReadCondensed (Text : string) : option FJsonObject :=
  match ReadJsonValue (S (String.length Text)) Text with
  | Some (FJsonValueObject Object, EmptyString) => Some Object
  | _ => None
  end.

(** ** An engine for examples

    A stand-in engine on which the definitions can be run: strings
    compare exactly and are their own UTF-8 bytes, JSON text is
    condensed, [TryGetStringField] gives the text of a number or of a
    boolean as it gives a string, the way the engine's
    [FJsonValue::TryGetString] does, and the editor is a world of actors
    and a list of assets in which nothing can be loaded or created. *)

Record FExampleEditor := {
  Example_World : option (list AActor);
  Example_Assets : list FAssetData
}.

Fixpoint Contains_exact (s Sub : string) : bool :=
  String.prefix Sub s
  || match s with
     | EmptyString => false
     | String _ Rest => Contains_exact Rest Sub
     end.

Definition ExampleEngine : Engine := {|
  FString_Equals := String.eqb;
  FString_StartsWith := fun s Prefix => String.prefix Prefix s;
  FString_Contains := Contains_exact;
  UTF8_TO_TCHAR := fun Bytes => Bytes;
  ObjectPathToPackageName := fun Path => Path;
  GetLongPackageAssetName := fun Path => Path;
  FJsonSerializer_Serialize := WriteCondensed;
  FJsonSerializer_Deserialize := ReadCondensed;
  TryGetStringField := fun Object FieldName =>
    match TryGetField Object FieldName with
    | Some (FJsonValueString s) => Some s
    | Some (FJsonValueNumber d) => Some (FromInt (TruncateToInt d))
    | Some (FJsonValueBoolean b) => Some (if b then "true" else "false")
    | _ => None
    end;
  GetStringField := fun Object FieldName =>
    match TryGetField Object FieldName with
    | Some (FJsonValueString s) => s
    | _ => ""
    end;
  GetNumberField := fun Object FieldName =>
    match TryGetField Object FieldName with
    | Some (FJsonValueNumber d) => d
    | _ => 0%float
    end;
  GetObjectField := fun Object FieldName =>
    match TryGetField Object FieldName with
    | Some (FJsonValueObject o) => Some o
    | _ => None
    end;
  Host := FExampleEditor;
  AActor_StaticClass := {| UClass_GetName := "Actor" |};
  AStaticMeshActor_StaticClass := {| UClass_GetName := "StaticMeshActor" |};
  EditorWorld := Example_World;
  StaticLoadObject_UBlueprint := fun _ h => (None, h);
  FindObject_UClass := fun _ _ => None;
  World_SpawnActor := fun Class Location h =>
    let NewActor :=
      {| GetActorLabel := UClass_GetName Class; GetClass := Class;
         GetActorLocation := Location |} in
    (Some NewActor,
     {| Example_World := option_map (fun Actors => Actors ++ [NewActor])%list
                           (Example_World h);
        Example_Assets := Example_Assets h |});
  BlueprintFactory_CreateNew := fun _ _ _ h => (None, h);
  MaterialFactory_CreateNew := fun _ _ h => (false, h);
  RegisterAndSaveAsset := fun _ h => h;
  UEditorAssetLibrary_LoadBlueprint := fun _ h => (None, h);
  FKismetEditorUtilities_CompileBlueprint := fun Blueprint h => (Blueprint, h);
  AssetRegistry_GetAssets := fun _ h => (Example_Assets h, h)
|}.

Definition ExampleEditor : FExampleEditor :=
  {| Example_World := Some []; Example_Assets := [] |}.

(** A game thread with nothing queued. *)
Definition IdleGameThread {E : Engine} (h : Host) : FGameThread :=
  {| TaskQueue := []; Promises := ∅; NextPromise := 0%nat; Editor := h |}.

Definition ExampleGameThread : FGameThread (E := ExampleEngine) :=
  IdleGameThread (E := ExampleEngine) ExampleEditor.

(** A game thread that is blocked takes up no task however long one waits. *)
Definition BlockedSchedule : FGameThreadSchedule := fun _ => 0%nat.

(** A game thread that takes up a task every 10 ms. *)
Definition BriskSchedule : FGameThreadSchedule :=
  fun Duration => Z.to_nat (GetTotalMilliseconds Duration / 10).

(** Every platform call succeeds; the system hands out the given port. *)
Definition Cooperative (AssignedPort : Z) : FPlatformAnswers :=
  {| SocketSubsystem_Get := true; CreateSocket_ok := true; Bind_ok := true;
     BoundAddr_GetPort := AssignedPort; Listen_ok := true; CreateThread_ok := true |}.


(** ** GRIDEditorModule.cpp *)
Module GRIDEditorModule.

(** GRIDEditorModule.h: the members of the module. *)
Record FGRIDEditorModule := {
  Bridge : option FGRIDBridge;
  ServerThread : option nat;
  bIsRunning : bool
}.

(** [delete Bridge]: the destructor of the bridge calls [Shutdown];
    then the members go, the shared pointer to the listener socket
    among them.  The thread and the runnable are held by plain pointers
    and stay. *)
Definition delete_Bridge (Answers : FPlatformAnswers) (B : FGRIDBridge) (P : FPlatform)
  : FPlatform :=
  let '(B, P) := Shutdown Answers B P in
  ListenerSocket_Release B P.

Definition StartServer (Answers : FPlatformAnswers) (M : FGRIDEditorModule)
  (P : FPlatform) : FGRIDEditorModule * FPlatform :=
  (* if (bIsRunning || !Bridge) return; *)
  match bIsRunning M, Bridge M with
  | false, Some B =>
      let '(B, P) := Initialize Answers B P in
      ({| Bridge := Some B; ServerThread := ServerThread M; bIsRunning := true |}, P)
  | _, _ => (M, P)
  end.

Definition StopServer (Answers : FPlatformAnswers) (M : FGRIDEditorModule)
  (P : FPlatform) : FGRIDEditorModule * FPlatform :=
  (* if (!bIsRunning || !Bridge) return; *)
  match bIsRunning M, Bridge M with
  | true, Some B =>
      let '(B, P) := Shutdown Answers B P in
      ({| Bridge := Some B; ServerThread := ServerThread M; bIsRunning := false |}, P)
  | _, _ => (M, P)
  end.

Definition StartupModule (Answers : FPlatformAnswers) (P : FPlatform)
  : FGRIDEditorModule * FPlatform :=
  let M := {| Bridge := Some FGRIDBridge_new; ServerThread := None;
              bIsRunning := false |} in
  StartServer Answers M P.

Definition ShutdownModule (Answers : FPlatformAnswers) (M : FGRIDEditorModule)
  (P : FPlatform) : FGRIDEditorModule * FPlatform :=
  let '(M, P) := StopServer Answers M P in
  (* if (Bridge) { delete Bridge; Bridge = nullptr; } *)
  match Bridge M with
  | Some B =>
      let P := delete_Bridge Answers B P in
      ({| Bridge := None; ServerThread := ServerThread M; bIsRunning := bIsRunning M |}, P)
  | None => (M, P)
  end.

End GRIDEditorModule.

(** ** Containers keyed by [FString]

    [TMap<FString, V>] and [TSet<FString>] file a string under its key:
    two strings that the engine's key comparison takes for equal have one
    key.  The maps and sets below are indexed by that key. *)
Class FStringKeyFuncs := { KeyOf : string -> string }.

(** ** Core/ToolRegistry.cpp *)
Module ToolRegistry.

Record FGRIDToolParameter := {
  Param_Name : string;
  Param_Description : string;
  Param_Type : string;
  bRequired : bool;
  DefaultValue : string;
  AllowedValues : list string
}.

Record FGRIDToolMetadata := {
  Name : string;
  Description : string;
  Category : string;
  Examples : list string;
  Parameters : list FGRIDToolParameter
}.

(** [using FGRIDToolExecuteFunc = TFunction<FString(const TMap<FString, FString>&)>] *)
Abbreviation FGRIDToolExecuteFunc := (gmap string string -> string).

Record FGRIDToolRegistration := {
  Reg_Name : string;
  Reg_Description : string;
  Reg_Category : string;
  Reg_Parameters : list FGRIDToolParameter;
  ExecuteFunc : FGRIDToolExecuteFunc
}.

Record FGRIDToolRegistry := {
  Tools : list FGRIDToolMetadata;
  ToolNameToIndex : gmap string Z;
  ToolExecuteFuncs : gmap string FGRIDToolExecuteFunc;
  DisabledTools : gset string;
  bInitialized : bool
}.

(** The registry as constructed: nothing registered, nothing disabled. *)
Definition FGRIDToolRegistry_new : FGRIDToolRegistry :=
  {| Tools := []; ToolNameToIndex := ∅; ToolExecuteFuncs := ∅; DisabledTools := ∅;
     bInitialized := false |}.

Definition Initialize (R : FGRIDToolRegistry) : FGRIDToolRegistry :=
  if bInitialized R then R
  else
    {| Tools := Tools R; ToolNameToIndex := ToolNameToIndex R;
       ToolExecuteFuncs := ToolExecuteFuncs R; DisabledTools := DisabledTools R;
       bInitialized := true |}.

Definition Shutdown (R : FGRIDToolRegistry) : FGRIDToolRegistry :=
  {| Tools := []; ToolNameToIndex := ∅; ToolExecuteFuncs := ∅;
     DisabledTools := DisabledTools R; bInitialized := false |}.

Definition GetAllTools (R : FGRIDToolRegistry) : list FGRIDToolMetadata := Tools R.

(** [Tools.IsValidIndex] *)
Definition IsValidIndex (R : FGRIDToolRegistry) (Index : Z) : bool :=
  (0 <=? Index) && (Index <? Z.of_nat (length (Tools R))).

(** [GetToolsByCategory]: the loop over the tools still to visit. *)
Fixpoint GetToolsByCategory_loop {E : Engine} (Wanted : string)
  (Rest : list FGRIDToolMetadata) (Result : list FGRIDToolMetadata)
  : list FGRIDToolMetadata :=
  match Rest with
  | [] => Result
  | Tool :: Rest =>
      if FString_Equals (Category Tool) Wanted
      then GetToolsByCategory_loop Wanted Rest (Result ++ [Tool])%list
      else GetToolsByCategory_loop Wanted Rest Result
  end.

Definition GetToolsByCategory {E : Engine} (R : FGRIDToolRegistry) (Wanted : string)
  : list FGRIDToolMetadata :=
  GetToolsByCategory_loop Wanted (Tools R) [].

Section WithKeys.
Context {K : FStringKeyFuncs}.

(** [DisabledTools.Contains] *)
Definition DisabledTools_Contains (R : FGRIDToolRegistry) (ToolName : string) : bool :=
  bool_decide (KeyOf ToolName ∈ DisabledTools R).

(** [GetEnabledTools]: the loop over the tools still to visit. *)
Fixpoint GetEnabledTools_loop (R : FGRIDToolRegistry) (Rest : list FGRIDToolMetadata)
  (Enabled : list FGRIDToolMetadata) : list FGRIDToolMetadata :=
  match Rest with
  | [] => Enabled
  | Tool :: Rest =>
      if negb (DisabledTools_Contains R (Name Tool))
      then GetEnabledTools_loop R Rest (Enabled ++ [Tool])%list
      else GetEnabledTools_loop R Rest Enabled
  end.

Definition GetEnabledTools (R : FGRIDToolRegistry) : list FGRIDToolMetadata :=
  GetEnabledTools_loop R (Tools R) [].

Definition FindTool (R : FGRIDToolRegistry) (ToolName : string)
  : option FGRIDToolMetadata :=
  match ToolNameToIndex R !! KeyOf ToolName with
  | Some Index =>
      if IsValidIndex R Index then Tools R !! Z.to_nat Index else None
  | None => None
  end.

Definition RegisterTool (Registration : FGRIDToolRegistration) (R : FGRIDToolRegistry)
  : FGRIDToolRegistry :=
  let Metadata :=
    {| Name := Reg_Name Registration;
       Description := Reg_Description Registration;
       Category := Reg_Category Registration;
       Examples := [];
       Parameters := Reg_Parameters Registration |} in
  let Index := Z.of_nat (length (Tools R)) in
  {| Tools := (Tools R ++ [Metadata])%list;
     ToolNameToIndex := <[KeyOf (Reg_Name Registration) := Index]> (ToolNameToIndex R);
     ToolExecuteFuncs :=
       <[KeyOf (Reg_Name Registration) := ExecuteFunc Registration]>
         (ToolExecuteFuncs R);
     DisabledTools := DisabledTools R;
     bInitialized := bInitialized R |}.

Definition IsToolEnabled (R : FGRIDToolRegistry) (ToolName : string) : bool :=
  negb (DisabledTools_Contains R ToolName).

Definition SetToolEnabled (ToolName : string) (bEnabled : bool) (R : FGRIDToolRegistry)
  : FGRIDToolRegistry :=
  {| Tools := Tools R; ToolNameToIndex := ToolNameToIndex R;
     ToolExecuteFuncs := ToolExecuteFuncs R;
     DisabledTools := if bEnabled then DisabledTools R ∖ {[KeyOf ToolName]}
                      else {[KeyOf ToolName]} ∪ DisabledTools R;
     bInitialized := bInitialized R |}.

Definition UNKNOWN_TOOL_Response : string :=
  Eval cbv in
    TEXT "{`success`:false,`error_code`:`UNKNOWN_TOOL`,`error`:`Tool not found`}".

Definition TOOL_DISABLED_Response : string :=
  Eval cbv in
    TEXT "{`success`:false,`error_code`:`TOOL_DISABLED`,`error`:`Tool is disabled`}".

Definition ExecuteTool (R : FGRIDToolRegistry) (ToolName : string)
  (Params : gmap string string) : string :=
  match ToolExecuteFuncs R !! KeyOf ToolName with
  | None => UNKNOWN_TOOL_Response
  | Some Func =>
      if DisabledTools_Contains R ToolName then TOOL_DISABLED_Response
      else Func Params
  end.

(** Calls made on the registry from outside. *)
Inductive FRegistryCall :=
| Call_Initialize
| Call_Shutdown
| Call_RegisterTool (Registration : FGRIDToolRegistration)
| Call_SetToolEnabled (ToolName : string) (bEnabled : bool).

Definition RegistryStep (R : FGRIDToolRegistry) (Call : FRegistryCall)
  : FGRIDToolRegistry :=
  match Call with
  | Call_Initialize => Initialize R
  | Call_Shutdown => Shutdown R
  | Call_RegisterTool Registration => RegisterTool Registration R
  | Call_SetToolEnabled ToolName bEnabled => SetToolEnabled ToolName bEnabled R
  end.

Definition RegistryRun (Calls : list FRegistryCall) (R : FGRIDToolRegistry)
  : FGRIDToolRegistry :=
  fold_left RegistryStep Calls R.

End WithKeys.
End ToolRegistry.

(** ** Core/ServiceContext.cpp *)
Module ServiceContext.

(** The module manager as the context sees it: the asset registry its
    module hands out, and how often the module was asked for. *)
Record FModuleManager := {
  AssetRegistryModule_Get : nat;
  LoadModuleChecked_calls : nat
}.

Record FServiceContext := {
  ConfigValues : gmap string string;
  CachedAssetRegistry : option nat
}.

Definition FServiceContext_new : FServiceContext :=
  {| ConfigValues := ∅; CachedAssetRegistry := None |}.

Definition GetWorld {E : Engine} (h : Host) : option (list AActor) := EditorWorld h.

Definition GetAssetRegistry (C : FServiceContext) (Modules : FModuleManager)
  : nat * FServiceContext * FModuleManager :=
  match CachedAssetRegistry C with
  | Some Registry => (Registry, C, Modules)
  | None =>
      let Modules :=
        {| AssetRegistryModule_Get := AssetRegistryModule_Get Modules;
           LoadModuleChecked_calls := S (LoadModuleChecked_calls Modules) |} in
      let C :=
        {| ConfigValues := ConfigValues C;
           CachedAssetRegistry := Some (AssetRegistryModule_Get Modules) |} in
      (AssetRegistryModule_Get Modules, C, Modules)
  end.

Section WithKeys.
Context {K : FStringKeyFuncs}.

Definition GetConfigValue (C : FServiceContext) (Key DefaultValue : string) : string :=
  match ConfigValues C !! KeyOf Key with
  | Some Value => Value
  | None => DefaultValue
  end.

Definition SetConfigValue (Key Value : string) (C : FServiceContext) : FServiceContext :=
  {| ConfigValues := <[KeyOf Key := Value]> (ConfigValues C);
     CachedAssetRegistry := CachedAssetRegistry C |}.

End WithKeys.
End ServiceContext.

(** ** Vocabulary for the properties *)

(** A response object built by one of the two constructors. *)
Inductive BuiltResponse {E : Engine} : FJsonObject -> Prop :=
| Built_error (ErrorCode ErrorMessage : string) :
    BuiltResponse (CreateErrorResponse ErrorCode ErrorMessage)
| Built_success (Data : option FJsonObject) :
    BuiltResponse (CreateSuccessResponse Data).

(** What a built operation answers: a success, or an error code of its own. *)
Definition BuiltOperationAnswer {E : Engine} (Response : FJsonObject) : Prop :=
  BuiltResponse Response
  /\ ErrorCodeOf Response <> Some "NOT_IMPLEMENTED"
  /\ ErrorCodeOf Response <> Some "UNKNOWN_COMMAND".

(** The payload of the liveness probe. *)
Definition ConnectionPayload : FJsonObject :=
  [("connected", FJsonValueBoolean true);
   ("engine_version", FJsonValueString "5.5");
   ("plugin_version", FJsonValueString "1.0.0")].

(** The thread cannot be created; everything before it succeeds. *)
Definition ThreadCreationFails (AssignedPort : Z) : FPlatformAnswers :=
  {| SocketSubsystem_Get := true; CreateSocket_ok := true; Bind_ok := true;
     BoundAddr_GetPort := AssignedPort; Listen_ok := true; CreateThread_ok := false |}.

(** [Bind] succeeds, [Listen] does not. *)
Definition ListenFails (AssignedPort : Z) : FPlatformAnswers :=
  {| SocketSubsystem_Get := true; CreateSocket_ok := true; Bind_ok := true;
     BoundAddr_GetPort := AssignedPort; Listen_ok := false; CreateThread_ok := true |}.

(** A call during which thread creation does not fail and the system
    hands out a proper port. *)
Definition ThreadStarts (Call : FBridgeCall) : Prop :=
  match Call with
  | Call_Initialize Answers =>
      CreateThread_ok Answers = true /\ BoundAddr_GetPort Answers <> 0
  | Call_Shutdown _ => True
  end.

(** What holds of the bridge between calls as long as threads start. *)
Definition Published (Dir : string) (State : FGRIDBridge * FPlatform) : Prop :=
  ProjectDir (snd State) = Dir
  /\ (bIsRunning (fst State) = true ->
        Port (fst State) <> 0
        /\ PortFilePath (fst State) = DiscoveryFile Dir
        /\ is_Some (Files (snd State) !! DiscoveryFile Dir))
  /\ (bIsRunning (fst State) = false -> Files (snd State) !! DiscoveryFile Dir = None).

(** The runnable a started bridge hands to its thread. *)
Definition ExampleRunnable : FGRIDServerRunnable :=
  {| Runnable_Bridge := true; Runnable_ListenerSocket := Some 0%nat;
     StopTaskCounter := 0 |}.

(** A peer that sends its request six seconds after connecting. *)
Definition LateClient : FClient :=
  Client_Sends 6000 (TEXT "{`command`:`check_connection`}").

(** Memory that still holds an earlier, longer request. *)
Definition StaleMemory : string :=
  TEXT "{`command`:`asset_search`,`params`:{`query`:`Rock`}}".

(** One turn of the accept loop in which that peer's connection is accepted. *)
Definition LatePoll : FPoll :=
  {| Poll_StopTaskCounter := 0; Poll_WaitForPendingConnection := true;
     Poll_bHasPendingConnection := true; Poll_Accept := Some LateClient;
     Poll_Memory := StaleMemory; Poll_Schedule := BriskSchedule |}.

(** The request text [HandleClientConnection] makes of the received
    bytes, the buffer being placed in the given memory. *)
Definition RequestText {E : Engine} (Received Memory : string) : string :=
  Left (UTF8_TO_TCHAR (CString (Overwrite Received Memory))) (String.length Received).

(** What [ExecuteCommand] answers for a command named [true]. *)
Definition UnknownCommandTrueAnswer : string :=
  Eval cbv in
    TEXT "{`success`:false,`error_code`:`UNKNOWN_COMMAND`,`error`:`Unknown command: true`}".

(** The request texts and response texts of the examples. *)
Definition CheckConnectionAnswer : string :=
  Eval cbv in
    TEXT "{`success`:true,`data`:{`connected`:true,`engine_version`:`5.5`,`plugin_version`:`1.0.0`}}".

Definition TimeoutAnswer : string :=
  Eval cbv in
    TEXT "{`success`:false,`error_code`:`TIMEOUT`,`error`:`Command execution timed out`}".

(** ** Vocabulary for the properties of the server loop *)

(** The calls every handled connection starts with. *)
Definition ReadCalls : list FSocketCall :=
  [Sock_SetNonBlocking false; Sock_Wait_WaitForRead (FromSeconds 5); Sock_Recv 65536].

Definition IsSend (Call : FSocketCall) : bool :=
  match Call with Sock_Send _ => true | _ => false end.

Definition IsRelease (Call : FSocketCall) : bool :=
  match Call with Sock_Close | Sock_DestroySocket => true | _ => false end.

(** A connection the thread came back from: closed and destroyed at the
    end of its calls, and nowhere before. *)
Definition ClosedOnce (Trace : FConnectionTrace) : Prop :=
  bReturned Trace = true
  /\ exists Calls,
       SocketCalls Trace = (Calls ++ [Sock_Close; Sock_DestroySocket])%list
       /\ forallb (fun Call => negb (IsRelease Call)) Calls = true.

(** A connection on which the thread is still inside [Recv]. *)
Definition StuckInRecv (Trace : FConnectionTrace) : Prop :=
  bReturned Trace = false /\ SocketCalls Trace = ReadCalls.

(** A turn of the accept loop that finds the stop counter raised. *)
Definition StopPoll : FPoll :=
  {| Poll_StopTaskCounter := 1; Poll_WaitForPendingConnection := true;
     Poll_bHasPendingConnection := true; Poll_Accept := Some LateClient;
     Poll_Memory := StaleMemory; Poll_Schedule := BriskSchedule |}.

(** ** Vocabulary for the properties of the game thread *)

(** Requests served one after another, each by [ExecuteCommand]. *)
Fixpoint ExecuteCommands {E : Engine} (Commands : list (string * FJsonObject))
  (Schedule : FGameThreadSchedule) (G : FGameThread) : list string * FGameThread :=
  match Commands with
  | [] => ([], G)
  | (CommandType, Params) :: Commands =>
      let '(Response, G) := ExecuteCommand CommandType Params Schedule G in
      let '(Responses, G) := ExecuteCommands Commands Schedule G in
      (Response :: Responses, G)
  end.

(** The same commands routed one after another over the editor. *)
Fixpoint RouteCommands {E : Engine} (Commands : list (string * FJsonObject)) (h : Host)
  : list FJsonObject * Host :=
  match Commands with
  | [] => ([], h)
  | (CommandType, Params) :: Commands =>
      let '(Response, h) := RouteCommand CommandType Params h in
      let '(Responses, h) := RouteCommands Commands h in
      (Response :: Responses, h)
  end.

(** ** Vocabulary for the properties of the handlers *)

(** The commands whose handlers call into the engine with a changed
    editor as a possible outcome. *)
Definition EditingCommands : list string :=
  ["blueprint_create"; "blueprint_compile"; "blueprint_get_info";
   "actor_spawn"; "material_create"; "asset_search"].

(** The error codes found in the routing and in the six handler classes. *)
Definition RoutedErrorCodes : list string :=
  ["UNKNOWN_COMMAND"; "NOT_IMPLEMENTED"; "NO_WORLD"; "SPAWN_FAILED";
   "MISSING_PATH"; "CREATE_FAILED"; "NOT_FOUND"].

Inductive RoutedAnswer {E : Engine} : FJsonObject -> Prop :=
| Routed_success (Data : option FJsonObject) : RoutedAnswer (CreateSuccessResponse Data)
| Routed_error (ErrorCode ErrorMessage : string) :
    In ErrorCode RoutedErrorCodes ->
    RoutedAnswer (CreateErrorResponse ErrorCode ErrorMessage).

(** The entry [FindActors] writes for an actor. *)
Definition ActorSummary (Actor : AActor) : FJsonValue :=
  FJsonValueObject
    [("name", FJsonValueString (GetActorLabel Actor));
     ("class", FJsonValueString (UClass_GetName (GetClass Actor)))].

(** An actor passes an empty filter, a label filter it contains and a
    class filter it equals. *)
Definition ActorMatches {E : Engine} (Pattern ClassName : string) (Actor : AActor) : bool :=
  (IsEmpty Pattern || FString_Contains (GetActorLabel Actor) Pattern)
  && (IsEmpty ClassName || FString_Equals (UClass_GetName (GetClass Actor)) ClassName).

(** The entry [Search] writes for an asset. *)
Definition AssetSummary (Asset : FAssetData) : FJsonValue :=
  FJsonValueObject
    [("name", FJsonValueString (AssetName Asset));
     ("path", FJsonValueString (GetObjectPathString Asset));
     ("class", FJsonValueString (AssetClassPath_GetAssetName Asset))].

Definition AssetMatches {E : Engine} (Query : string) (Asset : FAssetData) : bool :=
  IsEmpty Query || FString_Contains (AssetName Asset) Query.

(** A payload that lists entries under a field and counts them. *)
Definition Listing (Field : string) (Entries : list FJsonValue) : FJsonObject :=
  [(Field, FJsonValueArray Entries);
   ("count", FJsonValueNumber (int32_to_double (Z.of_nat (length Entries))))].

(** A world with two actors. *)
Definition CrowdedEditor : FExampleEditor :=
  {| Example_World :=
       Some [{| GetActorLabel := "Lamp_1"; GetClass := {| UClass_GetName := "PointLight" |};
                GetActorLocation :=
                  {| FVector_X := 0%float; FVector_Y := 0%float; FVector_Z := 0%float |} |};
             {| GetActorLabel := "Cube_1";
                GetClass := {| UClass_GetName := "StaticMeshActor" |};
                GetActorLocation :=
                  {| FVector_X := 0%float; FVector_Y := 0%float; FVector_Z := 0%float |} |}];
     Example_Assets := [] |}.

(** ** Vocabulary for the properties of the lifecycle *)

(** Every platform call of a start succeeds. *)
Definition AllSucceed (Answers : FPlatformAnswers) : bool :=
  SocketSubsystem_Get Answers && CreateSocket_ok Answers && Bind_ok Answers
  && Listen_ok Answers && CreateThread_ok Answers.

(** The handles in use lie below the next ones the platform hands out. *)
Definition FreshHandles (P : FPlatform) : Prop :=
  (forall Socket, is_Some (Sockets P !! Socket) -> (Socket < NextSocket P)%nat)
  /\ (forall Thread, Thread ∈ Threads P -> (Thread < NextThread P)%nat).

(** What holds of the bridge and its platform between calls, whatever
    the platform answers. *)
Definition BridgeCoherent (Dir : string) (State : FGRIDBridge * FPlatform) : Prop :=
  let '(B, P) := State in
  ProjectDir P = Dir
  /\ FreshHandles P
  /\ (if bIsRunning B then
        PortFilePath B = DiscoveryFile Dir
        /\ Files P !! DiscoveryFile Dir = Some (FromInt (Port B))
        /\ exists Socket Thread,
             ListenerSocket B = Some Socket
             /\ Sockets P !! Socket = Some SocketListening
             /\ ServerThread B = Some Thread
             /\ Threads P = {[Thread]}
             /\ ServerRunnable B
                = Some {| Runnable_Bridge := true;
                          Runnable_ListenerSocket := Some Socket;
                          StopTaskCounter := 0 |}
      else ServerThread B = None /\ Threads P = ∅).

(** The bridge runs, reports the port, and the discovery file holds it. *)
Definition ServingOn (AssignedPort : Z) (State : FGRIDBridge * FPlatform) : Prop :=
  IsRunning (fst State) = true
  /\ GetPort (fst State) = AssignedPort
  /\ Files (snd State) !! DiscoveryFile (ProjectDir (snd State))
     = Some (FromInt AssignedPort).

(** Whether the bridge the module holds is running. *)
Definition BridgeIsRunning (M : GRIDEditorModule.FGRIDEditorModule) : bool :=
  match GRIDEditorModule.Bridge M with
  | Some B => IsRunning B
  | None => false
  end.

(** ** Vocabulary for the properties of the tool registry *)

(** The metadata [RegisterTool] files for a registration. *)
Definition MetadataOf (Registration : ToolRegistry.FGRIDToolRegistration)
  : ToolRegistry.FGRIDToolMetadata :=
  {| ToolRegistry.Name := ToolRegistry.Reg_Name Registration;
     ToolRegistry.Description := ToolRegistry.Reg_Description Registration;
     ToolRegistry.Category := ToolRegistry.Reg_Category Registration;
     ToolRegistry.Examples := [];
     ToolRegistry.Parameters := ToolRegistry.Reg_Parameters Registration |}.

(** The index and the function table name the same tools, and every
    index points at a tool filed under the key it is found by. *)
Definition RegistryConsistent {K : FStringKeyFuncs} (R : ToolRegistry.FGRIDToolRegistry)
  : Prop :=
  (forall Key Index,
     ToolRegistry.ToolNameToIndex R !! Key = Some Index ->
     ToolRegistry.IsValidIndex R Index = true
     /\ is_Some (ToolRegistry.ToolExecuteFuncs R !! Key)
     /\ exists Tool,
          ToolRegistry.Tools R !! Z.to_nat Index = Some Tool
          /\ KeyOf (ToolRegistry.Name Tool) = Key)
  /\ (forall Key,
        is_Some (ToolRegistry.ToolExecuteFuncs R !! Key) ->
        is_Some (ToolRegistry.ToolNameToIndex R !! Key)).

(** Keys that ignore the case of ASCII letters. *)
Definition ToLowerAscii (c : ascii) : ascii :=
  let n := nat_of_ascii c in
  if (65 <=? n)%nat && (n <=? 90)%nat then ascii_of_nat (n + 32) else c.

Fixpoint ToLower (s : string) : string :=
  match s with
  | EmptyString => EmptyString
  | String c Rest => String (ToLowerAscii c) (ToLower Rest)
  end.

Definition CaseInsensitiveKeys : FStringKeyFuncs := {| KeyOf := ToLower |}.

(** Two registrations whose names differ in case only, and a third. *)
Definition SpawnTool : ToolRegistry.FGRIDToolRegistration :=
  {| ToolRegistry.Reg_Name := "Spawn"; ToolRegistry.Reg_Description := "Spawns an actor";
     ToolRegistry.Reg_Category := "Actor"; ToolRegistry.Reg_Parameters := [];
     ToolRegistry.ExecuteFunc := fun _ => "first" |}.

Definition SpawnToolAgain : ToolRegistry.FGRIDToolRegistration :=
  {| ToolRegistry.Reg_Name := "spawn"; ToolRegistry.Reg_Description := "Spawns an actor";
     ToolRegistry.Reg_Category := "Actor"; ToolRegistry.Reg_Parameters := [];
     ToolRegistry.ExecuteFunc := fun _ => "second" |}.

(** * Properties *)

(** ** The definitions at work *)

Example ProcessRequest_actor_list :
  fst (ProcessRequest (E := ExampleEngine) (TEXT "{`command`:`actor_list`,`params`:{}}")
         BriskSchedule ExampleGameThread)
  = TEXT "{`success`:true,`data`:{`actors`:[],`count`:0}}".
Proof. vm_compute. reflexivity. Qed.

Example ProcessRequest_unbuilt_operation :
  fst (ProcessRequest (E := ExampleEngine) (TEXT "{`command`:`widget_create`}")
         BriskSchedule ExampleGameThread)
  = TEXT "{`success`:false,`error_code`:`NOT_IMPLEMENTED`,`error`:`Not implemented`}".
Proof. vm_compute. reflexivity. Qed.

Example ProcessRequest_unknown_in_group :
  fst (ProcessRequest (E := ExampleEngine) (TEXT "{`command`:`actor_get_property`}")
         BriskSchedule ExampleGameThread)
  = TEXT "{`success`:false,`error_code`:`UNKNOWN_COMMAND`,`error`:`Unknown actor command: actor_get_property`}".
Proof. vm_compute. reflexivity. Qed.

Example ProcessRequest_unknown_prefix :
  fst (ProcessRequest (E := ExampleEngine) (TEXT "{`command`:`level_load`}")
         BriskSchedule ExampleGameThread)
  = TEXT "{`success`:false,`error_code`:`UNKNOWN_COMMAND`,`error`:`Unknown command: level_load`}".
Proof. vm_compute. reflexivity. Qed.

Example ProcessRequest_not_json :
  ProcessRequest (E := ExampleEngine) "actor_list" BriskSchedule ExampleGameThread
  = (INVALID_JSON_Response, ExampleGameThread).
Proof. reflexivity. Qed.

Example DiscoveryFile_of_project :
  DiscoveryFile "C:/Projects/Demo/" = "C:/Projects/Demo/Saved/Config/GRID/Port.txt"
  /\ DiscoveryFile "/home/dev/Demo" = "/home/dev/Demo/Saved/Config/GRID/Port.txt".
Proof. split; reflexivity. Qed.

Example FromInt_port : FromInt 54321 = "54321" /\ Atoi "54321" = Some 54321.
Proof. split; reflexivity. Qed.

(** ** The envelope *)

Lemma CreateErrorResponse_fields {E : Engine} (ErrorCode ErrorMessage : string) :
  CreateErrorResponse ErrorCode ErrorMessage =
  [("success", FJsonValueBoolean false);
   ("error_code", FJsonValueString ErrorCode);
   ("error", FJsonValueString ErrorMessage)].
Proof. reflexivity. Qed.

Lemma CreateSuccessResponse_fields {E : Engine} (Data : option FJsonObject) :
  CreateSuccessResponse Data =
  match Data with
  | Some Data => [("success", FJsonValueBoolean true); ("data", FJsonValueObject Data)]
  | None => [("success", FJsonValueBoolean true)]
  end.
Proof. destruct Data; reflexivity. Qed.

Lemma BuiltResponse_failure {E : Engine} (ErrorCode ErrorMessage : string) :
  IsFailureEnvelope (CreateErrorResponse ErrorCode ErrorMessage) = true
  /\ IsSuccessEnvelope (CreateErrorResponse ErrorCode ErrorMessage) = false.
Proof. split; reflexivity. Qed.

Lemma BuiltResponse_success {E : Engine} (Data : option FJsonObject) :
  IsSuccessEnvelope (CreateSuccessResponse Data) = true
  /\ IsFailureEnvelope (CreateSuccessResponse Data) = false.
Proof. destruct Data; split; reflexivity. Qed.

Lemma BuiltResponse_IsEnvelope {E : Engine} (Response : FJsonObject) :
  BuiltResponse Response -> IsEnvelope Response = true.
Proof.
  intros [ErrorCode ErrorMessage | Data]; unfold IsEnvelope.
  - destruct (BuiltResponse_failure ErrorCode ErrorMessage) as [-> ->]. reflexivity.
  - destruct (BuiltResponse_success Data) as [-> ->]. reflexivity.
Qed.

(** The six handler classes carry their own copies of the two
    constructors; they are the bridge's. *)
Ltac fold_constructors :=
  change (@FActorCommands.CreateError) with (@CreateErrorResponse) in *;
  change (@FActorCommands.CreateSuccess) with (@CreateSuccessResponse) in *;
  change (@FBlueprintCommands.CreateError) with (@CreateErrorResponse) in *;
  change (@FBlueprintCommands.CreateSuccess) with (@CreateSuccessResponse) in *;
  change (@FMaterialCommands.CreateError) with (@CreateErrorResponse) in *;
  change (@FMaterialCommands.CreateSuccess) with (@CreateSuccessResponse) in *;
  change (@FWidgetCommands.CreateError) with (@CreateErrorResponse) in *;
  change (@FWidgetCommands.CreateSuccess) with (@CreateSuccessResponse) in *;
  change (@FAssetCommands.CreateError) with (@CreateErrorResponse) in *;
  change (@FAssetCommands.CreateSuccess) with (@CreateSuccessResponse) in *;
  change (@FInputCommands.CreateError) with (@CreateErrorResponse) in *;
  change (@FInputCommands.CreateSuccess) with (@CreateSuccessResponse) in *.

(** Peel one layer off a game-thread computation whose result is being
    inspected: a sequenced engine call, or a branch on engine data. *)
Ltac peel :=
  first
    [ progress cbv beta iota delta [ret query effect bind]
    | progress cbn [fst]
    | match goal with
      | |- context [match ?x with _ => _ end] => destruct x
      end ].

Ltac in_groups HG :=
  repeat (destruct HG as [<- | HG]; [ | ]); try contradiction.

Ltac in_operations HOp HB :=
  cbn in HOp;
  repeat (destruct HOp as [<- | HOp]; [ try discriminate HB | ]); try contradiction.

Section HandlerResponses.
Context {E : Engine}.

Ltac answer :=
  fold_constructors;
  repeat first
    [ solve [ split;
              [ first [ exact (Built_error _ _) | exact (Built_success _) ]
              | split; rewrite ?CreateSuccessResponse_fields; cbn;
                try match goal with
                    | |- context [match ?d with _ => _ end] => destruct d
                    end; cbn; congruence ] ]
    | peel ].

Lemma Operation_built_answer (Group : FHandlerGroup) (Op : FOperation)
  (Params : FJsonObject) (h : Host) :
  In Group HandlerGroups -> In Op (Group_Operations Group) -> Op_bBuilt Op = true ->
  BuiltOperationAnswer (fst (Op_Run Op Params h)).
Proof.
  intros HG HOp HB. in_groups HG; in_operations HOp HB; cbn [Op_Run Built].
  all: unfold FBlueprintCommands.CreateBlueprint, FBlueprintCommands.CompileBlueprint,
         FBlueprintCommands.GetBlueprintInfo, FBlueprintCommands.LoadBlueprint,
         FActorCommands.ListActors, FActorCommands.FindActors, FActorCommands.SpawnActor,
         FMaterialCommands.CreateMaterial, FAssetCommands.Search.
  all: answer.
Qed.

Lemma Operation_unbuilt_answer (Group : FHandlerGroup) (Op : FOperation) :
  In Group HandlerGroups -> In Op (Group_Operations Group) -> Op_bBuilt Op = false ->
  exists Message, forall Params h,
    Op_Run Op Params h = (CreateErrorResponse "NOT_IMPLEMENTED" Message, h).
Proof.
  intros HG HOp HB. in_groups HG; in_operations HOp HB.
  all: eexists; intros; reflexivity.
Qed.

(** Each class's if-chain is the exact-name lookup in its operation list. *)
Lemma Group_HandleCommand_Handle (Group : FHandlerGroup) (CommandType : string)
  (Params : FJsonObject) (h : Host) :
  In Group HandlerGroups ->
  Group_HandleCommand Group CommandType Params h = Handle Group CommandType Params h.
Proof.
  intros HG. in_groups HG.
  all: cbv beta iota delta
         [Group_HandleCommand BlueprintGroup ActorGroup MaterialGroup WidgetGroup
          AssetGroup InputGroup
          FBlueprintCommands.HandleCommand FActorCommands.HandleCommand
          FMaterialCommands.HandleCommand FWidgetCommands.HandleCommand
          FAssetCommands.HandleCommand FInputCommands.HandleCommand
          Handle RecognizedOperation Group_Operations Group_Name find
          Built Unbuilt Op_Command Op_Run].
  all: repeat match goal with
         | |- context [if FString_Equals ?a ?b then _ else _] =>
             destruct (FString_Equals a b); [ reflexivity | ]
         end; reflexivity.
Qed.

Lemma RecognizedOperation_In (Group : FHandlerGroup) (CommandType : string)
  (Op : FOperation) :
  RecognizedOperation Group CommandType = Some Op -> In Op (Group_Operations Group).
Proof. intros HOp. apply find_some in HOp. tauto. Qed.

Lemma Group_HandleCommand_built (Group : FHandlerGroup) (CommandType : string)
  (Params : FJsonObject) (h : Host) :
  In Group HandlerGroups ->
  BuiltResponse (fst (Group_HandleCommand Group CommandType Params h)).
Proof.
  intros HG. rewrite Group_HandleCommand_Handle by exact HG.
  unfold Handle. destruct (RecognizedOperation Group CommandType) as [Op|] eqn:HOp.
  - apply RecognizedOperation_In in HOp.
    destruct (Op_bBuilt Op) eqn:HB.
    + apply (Operation_built_answer Group Op Params h HG HOp HB).
    + destruct (Operation_unbuilt_answer Group Op HG HOp HB) as [Message HM].
      rewrite HM. apply Built_error.
  - apply Built_error.
Qed.

Lemma RouteCommand_MatchingGroup (CommandType : string) (Params : FJsonObject)
  (h : Host) :
  FString_Equals CommandType "check_connection" = false ->
  RouteCommand CommandType Params h =
  match MatchingGroup CommandType with
  | Some Group => Group_HandleCommand Group CommandType Params h
  | None => (CreateErrorResponse "UNKNOWN_COMMAND" ("Unknown command: " +:+ CommandType), h)
  end.
Proof.
  intros HSys. unfold RouteCommand, MatchingGroup. rewrite HSys.
  cbv beta iota delta [HandlerGroups find Group_Prefix BlueprintGroup ActorGroup
                       MaterialGroup WidgetGroup AssetGroup InputGroup].
  repeat match goal with
    | |- context [if FString_StartsWith ?a ?b then _ else _] =>
        destruct (FString_StartsWith a b); [ reflexivity | ]
    end.
  reflexivity.
Qed.

Lemma MatchingGroup_In (CommandType : string) (Group : FHandlerGroup) :
  MatchingGroup CommandType = Some Group -> In Group HandlerGroups.
Proof. intros HG. apply find_some in HG. tauto. Qed.

Lemma RouteCommand_built (CommandType : string) (Params : FJsonObject) (h : Host) :
  BuiltResponse (fst (RouteCommand CommandType Params h)).
Proof.
  destruct (FString_Equals CommandType "check_connection") eqn:HSys.
  - unfold RouteCommand. rewrite HSys. apply Built_success.
  - rewrite RouteCommand_MatchingGroup by exact HSys.
    destruct (MatchingGroup CommandType) as [Group|] eqn:HG.
    + apply Group_HandleCommand_built, (MatchingGroup_In CommandType), HG.
    + apply Built_error.
Qed.

End HandlerResponses.

(** C9. Every response object produced by the bridge's routing, by the
    timeout path and by every handler group, and both texts of the
    request parser, populate exactly one of the two envelope shapes: a
    boolean ["success"]; if true, at most a ["data"] object and no error
    field; if false, an ["error_code"] string and an ["error"] string
    and no ["data"]. *)
Theorem every_response_is_one_envelope {E : Engine}
  (CommandType : string) (Params : FJsonObject) (h : Host) :
  IsEnvelope (fst (RouteCommand CommandType Params h)) = true
  /\ (forall Group, In Group HandlerGroups ->
        IsEnvelope (fst (Group_HandleCommand Group CommandType Params h)) = true)
  /\ (IsFailureEnvelope (CreateErrorResponse "TIMEOUT" "Command execution timed out") = true
      /\ IsSuccessEnvelope (CreateErrorResponse "TIMEOUT" "Command execution timed out")
         = false)
  /\ (exists Response,
        ReadCondensed INVALID_JSON_Response = Some Response
        /\ IsFailureEnvelope Response = true /\ IsSuccessEnvelope Response = false)
  /\ (exists Response,
        ReadCondensed MISSING_COMMAND_Response = Some Response
        /\ IsFailureEnvelope Response = true /\ IsSuccessEnvelope Response = false)
  /\ (forall ErrorCode ErrorMessage,
        IsFailureEnvelope (CreateErrorResponse ErrorCode ErrorMessage) = true
        /\ IsSuccessEnvelope (CreateErrorResponse ErrorCode ErrorMessage) = false)
  /\ (forall Data,
        IsSuccessEnvelope (CreateSuccessResponse Data) = true
        /\ IsFailureEnvelope (CreateSuccessResponse Data) = false)
  /\ (FActorCommands.CreateError = CreateErrorResponse
      /\ FBlueprintCommands.CreateError = CreateErrorResponse
      /\ FMaterialCommands.CreateError = CreateErrorResponse
      /\ FWidgetCommands.CreateError = CreateErrorResponse
      /\ FAssetCommands.CreateError = CreateErrorResponse
      /\ FInputCommands.CreateError = CreateErrorResponse)
  /\ (FActorCommands.CreateSuccess = CreateSuccessResponse
      /\ FBlueprintCommands.CreateSuccess = CreateSuccessResponse
      /\ FMaterialCommands.CreateSuccess = CreateSuccessResponse
      /\ FWidgetCommands.CreateSuccess = CreateSuccessResponse
      /\ FAssetCommands.CreateSuccess = CreateSuccessResponse
      /\ FInputCommands.CreateSuccess = CreateSuccessResponse).
Proof.
  split; [ apply BuiltResponse_IsEnvelope, RouteCommand_built | ].
  split; [ intros Group HG; apply BuiltResponse_IsEnvelope, Group_HandleCommand_built, HG | ].
  split; [ apply BuiltResponse_failure | ].
  split; [ eexists; repeat split; reflexivity | ].
  split; [ eexists; repeat split; reflexivity | ].
  split; [ apply BuiltResponse_failure | ].
  split; [ apply BuiltResponse_success | ].
  split; repeat split; reflexivity.
Qed.

(** C2. For a command other than [check_connection], [RouteCommand]
    scans the prefixes [blueprint_], [actor_], [material_], [widget_],
    [asset_], [input_] in this order and the first one the command
    starts with decides; with no match the answer is [UNKNOWN_COMMAND];
    with a match the group's [HandleCommand] decides, which looks the
    command up by exact name among its operations and answers a
    group-scoped [UNKNOWN_COMMAND] for an unrecognised name and
    [NOT_IMPLEMENTED] for a recognised operation that is not built. *)
Theorem RouteCommand_prefix_then_exact_dispatch {E : Engine}
  (CommandType : string) (Params : FJsonObject) (h : Host) :
  FString_Equals CommandType "check_connection" = false ->
  map Group_Prefix HandlerGroups
  = ["blueprint_"; "actor_"; "material_"; "widget_"; "asset_"; "input_"]
  /\ RouteCommand CommandType Params h = Route CommandType Params h
  /\ RouteCommand CommandType Params h =
     match MatchingGroup CommandType with
     | Some Group => Group_HandleCommand Group CommandType Params h
     | None =>
         (CreateErrorResponse "UNKNOWN_COMMAND" ("Unknown command: " +:+ CommandType), h)
     end
  /\ ((forall Group, In Group HandlerGroups ->
         FString_StartsWith CommandType (Group_Prefix Group) = false) ->
      RouteCommand CommandType Params h =
      (CreateErrorResponse "UNKNOWN_COMMAND" ("Unknown command: " +:+ CommandType), h))
  /\ forall Group, In Group HandlerGroups ->
       Group_HandleCommand Group CommandType Params h =
       match RecognizedOperation Group CommandType with
       | Some Op => Op_Run Op Params h
       | None =>
           (CreateErrorResponse "UNKNOWN_COMMAND"
              ("Unknown " +:+ Group_Name Group +:+ " command: " +:+ CommandType), h)
       end
       /\ forall Op, RecognizedOperation Group CommandType = Some Op ->
            if Op_bBuilt Op
            then ErrorCodeOf (fst (Op_Run Op Params h)) <> Some "NOT_IMPLEMENTED"
            else exists Message,
                Op_Run Op Params h = (CreateErrorResponse "NOT_IMPLEMENTED" Message, h).
Proof.
  intros HSys.
  assert (HRoute := RouteCommand_MatchingGroup CommandType Params h HSys).
  split; [ reflexivity | ].
  split.
  { rewrite HRoute. unfold Route.
    destruct (MatchingGroup CommandType) as [Group|] eqn:HG; [ | reflexivity ].
    apply Group_HandleCommand_Handle, (MatchingGroup_In CommandType), HG. }
  split; [ exact HRoute | ].
  split.
  { intros HNone. rewrite HRoute.
    destruct (MatchingGroup CommandType) as [Group|] eqn:HG; [ | reflexivity ].
    apply find_some in HG. destruct HG as [HIn HStarts].
    rewrite (HNone Group HIn) in HStarts. discriminate HStarts. }
  intros Group HG. split.
  { rewrite Group_HandleCommand_Handle by exact HG. unfold Handle.
    destruct (RecognizedOperation Group CommandType); reflexivity. }
  intros Op HOp. apply RecognizedOperation_In in HOp.
  destruct (Op_bBuilt Op) eqn:HB.
  - apply (Operation_built_answer Group Op Params h HG HOp HB).
  - destruct (Operation_unbuilt_answer Group Op HG HOp HB) as [Message HM].
    exists Message. apply HM.
Qed.

(** The dispatch on the example engine: [actor_delete] is recognised by
    the actor group and not built. *)
Lemma RouteCommand_prefix_then_exact_dispatch_witness :
  FString_Equals (Engine := ExampleEngine) "actor_delete" "check_connection" = false
  /\ RouteCommand (E := ExampleEngine) "actor_delete" [] ExampleEditor
     = Route (E := ExampleEngine) "actor_delete" [] ExampleEditor.
Proof.
  split; [ reflexivity | ].
  apply (RouteCommand_prefix_then_exact_dispatch (E := ExampleEngine)
           "actor_delete" [] ExampleEditor).
  reflexivity.
Defined.

(** ** The game thread and [ExecuteCommand] *)

Section GameThreadFacts.
Context {E : Engine}.

Lemma RunTask_fields (Task : FAsyncTask) (G : FGameThread) :
  TaskQueue (RunTask Task G) = TaskQueue G
  /\ NextPromise (RunTask Task G) = NextPromise G
  /\ Promises (RunTask Task G) =
     <[Task_Promise Task :=
         FJsonSerializer_Serialize
           (fst (RouteCommand (Task_CommandType Task) (Task_Params Task) (Editor G)))]>
       (Promises G)
  /\ Editor (RunTask Task G)
     = snd (RouteCommand (Task_CommandType Task) (Task_Params Task) (Editor G)).
Proof.
  unfold RunTask.
  destruct (RouteCommand (Task_CommandType Task) (Task_Params Task) (Editor G)).
  repeat split.
Qed.

Lemma GameThreadTicks_add (a b : nat) (G : FGameThread) :
  GameThreadTicks (a + b) G = GameThreadTicks b (GameThreadTicks a G).
Proof. revert G. induction a as [|a IH]; intros G; [ reflexivity | apply IH ]. Qed.

(** Running as many turns as a prefix of the queue is long takes up
    exactly that prefix, and fulfils no promise but those of the prefix. *)
Lemma GameThreadTicks_prefix (Ahead : list FAsyncTask) :
  forall (G : FGameThread) (Behind : list FAsyncTask),
    TaskQueue G = (Ahead ++ Behind)%list ->
    TaskQueue (GameThreadTicks (length Ahead) G) = Behind
    /\ NextPromise (GameThreadTicks (length Ahead) G) = NextPromise G
    /\ forall Promise,
         (forall Task, In Task Ahead -> Task_Promise Task <> Promise) ->
         Promises (GameThreadTicks (length Ahead) G) !! Promise = Promises G !! Promise.
Proof.
  induction Ahead as [|Task Ahead IH]; intros G Behind HQ.
  - repeat split; [ exact HQ ].
  - cbn [length GameThreadTicks]. unfold GameThreadTick at 1 2 3. rewrite HQ. cbn [app].
    set (G0 := {| TaskQueue := (Ahead ++ Behind)%list; Promises := Promises G;
                  NextPromise := NextPromise G; Editor := Editor G |}).
    destruct (RunTask_fields Task G0) as (HQ1 & HN1 & HP1 & _).
    destruct (IH (RunTask Task G0) Behind HQ1) as (IHQ & IHN & IHP).
    split; [ exact IHQ | ]. split; [ rewrite IHN; exact HN1 | ].
    intros Promise HFresh. rewrite IHP.
    + rewrite HP1. apply lookup_insert_ne. apply HFresh. left. reflexivity.
    + intros Task' HIn. apply HFresh. right. exact HIn.
Qed.

Lemma WaitLoop_pending (Turns : nat) :
  forall (G : FGameThread) (Promise : nat),
    (forall k, (k <= Turns)%nat -> Promises (GameThreadTicks k G) !! Promise = None) ->
    WaitLoop Turns Promise G = (false, GameThreadTicks Turns G).
Proof.
  induction Turns as [|Turns IH]; intros G Promise HNone; cbn [WaitLoop].
  - assert (H0 := HNone 0%nat (Nat.le_refl _)). cbn [GameThreadTicks] in H0.
    rewrite H0. reflexivity.
  - assert (H0 := HNone 0%nat (Nat.le_0_l _)). cbn [GameThreadTicks] in H0.
    rewrite H0. apply IH.
    intros k Hk. apply (HNone (S k)). lia.
Qed.

Lemma WaitLoop_fulfilled (Needed : nat) :
  forall (Turns : nat) (G : FGameThread) (Promise : nat),
    (forall k, (k < Needed)%nat -> Promises (GameThreadTicks k G) !! Promise = None) ->
    is_Some (Promises (GameThreadTicks Needed G) !! Promise) ->
    (Needed <= Turns)%nat ->
    WaitLoop Turns Promise G = (true, GameThreadTicks Needed G).
Proof.
  induction Needed as [|Needed IH]; intros Turns G Promise HNone [Value HSome] HLe.
  - cbn [GameThreadTicks] in *. destruct Turns; cbn [WaitLoop]; rewrite HSome; reflexivity.
  - destruct Turns as [|Turns]; [ lia | ]. cbn [WaitLoop].
    assert (H0 := HNone 0%nat (Nat.lt_0_succ _)). cbn [GameThreadTicks] in H0.
    rewrite H0. cbn [GameThreadTicks] in HSome. apply IH.
    + intros k Hk. apply (HNone (S k)). lia.
    + exists Value. exact HSome.
    + lia.
Qed.

(** A task behind a queue of others: it stays pending while the others
    are taken up, and the next turn fulfils its promise with the
    serialised result of routing it. *)
Lemma GameThreadTicks_through (Ahead : list FAsyncTask) (Task : FAsyncTask)
  (G : FGameThread) :
  TaskQueue G = (Ahead ++ [Task])%list ->
  (forall Other, In Other Ahead -> Task_Promise Other <> Task_Promise Task) ->
  Promises G !! Task_Promise Task = None ->
  (forall k, (k <= length Ahead)%nat ->
     Promises (GameThreadTicks k G) !! Task_Promise Task = None
     /\ TaskQueue (GameThreadTicks k G) = (drop k Ahead ++ [Task])%list)
  /\ Promises (GameThreadTicks (S (length Ahead)) G) !! Task_Promise Task =
     Some (FJsonSerializer_Serialize
             (fst (RouteCommand (Task_CommandType Task) (Task_Params Task)
                     (Editor (GameThreadTicks (length Ahead) G)))))
  /\ TaskQueue (GameThreadTicks (S (length Ahead)) G) = [].
Proof.
  intros HQ HOther HNone.
  assert (HBefore : forall k, (k <= length Ahead)%nat ->
     Promises (GameThreadTicks k G) !! Task_Promise Task = None
     /\ TaskQueue (GameThreadTicks k G) = (drop k Ahead ++ [Task])%list).
  { intros k Hk.
    assert (HSplit : TaskQueue G = (take k Ahead ++ (drop k Ahead ++ [Task]))%list).
    { rewrite HQ, app_assoc, take_drop. reflexivity. }
    destruct (GameThreadTicks_prefix (take k Ahead) G _ HSplit) as (HQk & _ & HPk).
    rewrite length_take, Nat.min_l in HQk, HPk by exact Hk.
    split; [ | exact HQk ].
    rewrite HPk; [ exact HNone | ].
    intros Other HIn. apply HOther. rewrite <- (take_drop k Ahead).
    apply in_or_app. left. exact HIn. }
  split; [ exact HBefore | ].
  destruct (HBefore (length Ahead) (Nat.le_refl _)) as [_ HLast].
  rewrite drop_all in HLast. cbn [app] in HLast.
  replace (S (length Ahead)) with (length Ahead + 1)%nat by lia.
  rewrite GameThreadTicks_add. cbn [GameThreadTicks].
  unfold GameThreadTick. rewrite HLast.
  set (G0 := {| TaskQueue := []; Promises := _; NextPromise := _; Editor := _ |}).
  destruct (RunTask_fields Task G0) as (HQ1 & _ & HP1 & _).
  split; [ | exact HQ1 ].
  rewrite HP1. apply lookup_insert_eq.
Qed.

Lemma GameThreadTicks_NextPromise (n : nat) (G : FGameThread) :
  NextPromise (GameThreadTicks n G) = NextPromise G.
Proof.
  revert G. induction n as [|n IH]; intros G; [ reflexivity | ].
  cbn [GameThreadTicks]. rewrite IH. unfold GameThreadTick.
  destruct (TaskQueue G) as [|Task Rest]; [ reflexivity | ].
  set (G0 := {| TaskQueue := Rest; Promises := _; NextPromise := _; Editor := _ |}).
  destruct (RunTask_fields Task G0) as (_ & HNext & _). exact HNext.
Qed.

Lemma GameThreadWF_idle (h : Host) : GameThreadWF (IdleGameThread h).
Proof. split; [ intros Task [] | intros Promise _; apply lookup_empty ]. Qed.

Lemma GameThreadWF_AsyncTask (CommandType : string) (Params : FJsonObject)
  (G : FGameThread) :
  GameThreadWF G -> GameThreadWF (snd (AsyncTask CommandType Params G)).
Proof.
  intros [HQueue HFresh]. split; cbn.
  - intros Task HIn. apply in_app_or in HIn. destruct HIn as [HIn | [<- | []]].
    + specialize (HQueue Task HIn). lia.
    + cbn. lia.
  - intros Promise HLe. apply HFresh. lia.
Qed.

Lemma GameThreadWF_Tick (G : FGameThread) :
  GameThreadWF G -> GameThreadWF (GameThreadTick G).
Proof.
  intros [HQueue HFresh]. unfold GameThreadTick.
  destruct (TaskQueue G) as [|Task Rest] eqn:HQ; [ split; [ rewrite HQ | ]; assumption | ].
  set (G0 := {| TaskQueue := Rest; Promises := _; NextPromise := _; Editor := _ |}).
  destruct (RunTask_fields Task G0) as (HQ1 & HN1 & HP1 & _).
  split.
  - rewrite HQ1, HN1. intros Other HIn. apply HQueue. right. exact HIn.
  - rewrite HN1, HP1. intros Promise HLe. cbn in HLe |- *.
    rewrite lookup_insert_ne; [ apply HFresh, HLe | ].
    specialize (HQueue Task (or_introl eq_refl)). lia.
Qed.

Lemma GameThreadWF_Ticks (n : nat) (G : FGameThread) :
  GameThreadWF G -> GameThreadWF (GameThreadTicks n G).
Proof.
  revert G. induction n as [|n IH]; intros G HWF; [ exact HWF | ].
  apply IH, GameThreadWF_Tick, HWF.
Qed.

(** The two ways [ExecuteCommand] comes back, by what the schedule grants
    the game thread during the thirty seconds. *)
Lemma ExecuteCommand_cases (CommandType : string) (Params : FJsonObject)
  (Schedule : FGameThreadSchedule) (G : FGameThread) :
  GameThreadWF G ->
  let Submitted := snd (AsyncTask CommandType Params G) in
  let Ahead := length (TaskQueue G) in
  let Granted := Schedule (FromSeconds 30) in
  ((Granted <= Ahead)%nat ->
     ExecuteCommand CommandType Params Schedule G =
     (FJsonSerializer_Serialize
        (CreateErrorResponse "TIMEOUT" "Command execution timed out"),
      GameThreadTicks Granted Submitted))
  /\ ((Ahead < Granted)%nat ->
     ExecuteCommand CommandType Params Schedule G =
     (FJsonSerializer_Serialize
        (fst (RouteCommand CommandType Params
                (Editor (GameThreadTicks Ahead Submitted)))),
      GameThreadTicks (S Ahead) Submitted)).
Proof.
  intros [HQueue HFresh] Submitted Ahead Granted.
  set (Task := {| Task_CommandType := CommandType; Task_Params := Params;
                  Task_Promise := NextPromise G |}).
  destruct (GameThreadTicks_through (TaskQueue G) Task Submitted) as (HBefore & HThen & _).
  { reflexivity. }
  { intros Other HIn. specialize (HQueue Other HIn). cbn. lia. }
  { apply HFresh. cbn. lia. }
  fold Ahead in HBefore, HThen. cbn [Task_Promise Task_CommandType Task_Params Task] in *.
  unfold ExecuteCommand, Future_WaitFor.
  change (AsyncTask CommandType Params G) with (NextPromise G, Submitted).
  fold Granted. split; intros HGranted.
  - rewrite (WaitLoop_pending Granted Submitted (NextPromise G)); [ reflexivity | ].
    intros k Hk. apply HBefore. lia.
  - rewrite (WaitLoop_fulfilled (S Ahead) Granted Submitted (NextPromise G)).
    + cbn [negb]. unfold Future_Get. rewrite HThen. reflexivity.
    + intros k Hk. apply HBefore. lia.
    + rewrite HThen. eexists. reflexivity.
    + lia.
Qed.

Lemma GameThreadWF_ExecuteCommand (CommandType : string) (Params : FJsonObject)
  (Schedule : FGameThreadSchedule) (G : FGameThread) :
  GameThreadWF G -> GameThreadWF (snd (ExecuteCommand CommandType Params Schedule G)).
Proof.
  intros HWF.
  destruct (ExecuteCommand_cases CommandType Params Schedule G HWF) as [HLate HReady].
  destruct (Nat.le_gt_cases (Schedule (FromSeconds 30)) (length (TaskQueue G)))
    as [HLe | HLt].
  - rewrite (HLate HLe). apply GameThreadWF_Ticks, GameThreadWF_AsyncTask, HWF.
  - rewrite (HReady HLt). apply GameThreadWF_Ticks, GameThreadWF_AsyncTask, HWF.
Qed.

End GameThreadFacts.


(** C3. When the game thread does not get to the submitted task within
    the 30 seconds [ExecuteCommand] waits, the answer is the [TIMEOUT]
    failure; the task is not withdrawn: it is still queued, and once the
    game thread has worked the queue off its promise holds the routed
    result, with nobody left to read it.  When the game thread gets to
    the task in time, the answer is the serialised routed result as it
    stands. *)
Theorem ExecuteCommand_result_or_timeout {E : Engine}
  (CommandType : string) (Params : FJsonObject)
  (Schedule : FGameThreadSchedule) (G : FGameThread) :
  GameThreadWF G ->
  let Task := {| Task_CommandType := CommandType; Task_Params := Params;
                 Task_Promise := NextPromise G |} in
  let Submitted := snd (AsyncTask CommandType Params G) in
  let Ahead := length (TaskQueue G) in
  let Granted := Schedule (FromSeconds 30) in
  let Response := fst (ExecuteCommand CommandType Params Schedule G) in
  let After := snd (ExecuteCommand CommandType Params Schedule G) in
  ((Granted <= Ahead)%nat ->
     Response
     = FJsonSerializer_Serialize
         (CreateErrorResponse "TIMEOUT" "Command execution timed out")
     /\ In Task (TaskQueue After)
     /\ Promises After !! Task_Promise Task = None
     /\ TaskQueue (GameThreadTicks (length (TaskQueue After)) After) = []
     /\ exists h,
         Promises (GameThreadTicks (length (TaskQueue After)) After) !! Task_Promise Task
         = Some (FJsonSerializer_Serialize (fst (RouteCommand CommandType Params h))))
  /\ ((Ahead < Granted)%nat ->
      Response
      = FJsonSerializer_Serialize
          (fst (RouteCommand CommandType Params
                  (Editor (GameThreadTicks Ahead Submitted))))
      /\ Promises After !! Task_Promise Task = Some Response
      /\ TaskQueue After = []).
Proof.
  intros HWF Task Submitted Ahead Granted Response After.
  destruct (ExecuteCommand_cases CommandType Params Schedule G HWF) as [HLate HReady].
  fold Submitted Ahead Granted in HLate, HReady.
  destruct HWF as [HQueue HFresh].
  destruct (GameThreadTicks_through (TaskQueue G) Task Submitted)
    as (HBefore & HThen & HEmpty).
  { reflexivity. }
  { intros Other HIn. specialize (HQueue Other HIn). cbn. lia. }
  { apply HFresh. cbn. lia. }
  fold Ahead in HBefore, HThen, HEmpty.
  split; intros HGranted.
  - unfold Response, After. rewrite (HLate HGranted). cbn [fst snd].
    destruct (HBefore Granted HGranted) as [HPending HQueueAfter].
    split; [ reflexivity | ].
    split; [ rewrite HQueueAfter; apply in_or_app; right; left; reflexivity | ].
    split; [ exact HPending | ].
    assert (HTurns : (Granted + length (TaskQueue (GameThreadTicks Granted Submitted))
                      = S Ahead)%nat).
    { rewrite HQueueAfter, length_app, length_drop. cbn [length]. lia. }
    rewrite <- GameThreadTicks_add, HTurns.
    split; [ exact HEmpty | ].
    eexists. exact HThen.
  - unfold Response, After. rewrite (HReady HGranted). cbn [fst snd].
    split; [ reflexivity | ]. split; [ exact HThen | exact HEmpty ].
Qed.

(** On the example engine: [actor_list] behind a blocked game thread. *)
Lemma ExecuteCommand_result_or_timeout_witness :
  GameThreadWF ExampleGameThread
  /\ fst (ExecuteCommand "actor_list" [] BlockedSchedule ExampleGameThread)
     = FJsonSerializer_Serialize (Engine := ExampleEngine)
         (CreateErrorResponse "TIMEOUT" "Command execution timed out").
Proof.
  split; [ apply GameThreadWF_idle | ].
  apply (ExecuteCommand_result_or_timeout (E := ExampleEngine) "actor_list" []
           BlockedSchedule ExampleGameThread (GameThreadWF_idle _)).
  vm_compute. lia.
Defined.

(** ** [check_connection] *)

(** C1, as the code has it.  [check_connection] is the first case of
    [RouteCommand]: whatever the params, it answers the success envelope
    with the fixed payload, consults no handler group and leaves the
    editor alone.  [ExecuteCommand] submits it to the game thread like
    every other command: the caller gets that envelope when the game
    thread reaches the task within the 30 seconds, and [TIMEOUT]
    otherwise. *)
Theorem check_connection_routed_on_game_thread {E : Engine}
  (CommandType : string) (Params : FJsonObject)
  (Schedule : FGameThreadSchedule) (G : FGameThread) :
  FString_Equals CommandType "check_connection" = true ->
  GameThreadWF G ->
  (forall h,
     RouteCommand CommandType Params h
     = (CreateSuccessResponse (Some ConnectionPayload), h))
  /\ CreateSuccessResponse (Some ConnectionPayload)
     = [("success", FJsonValueBoolean true); ("data", FJsonValueObject ConnectionPayload)]
  /\ TaskQueue (snd (AsyncTask CommandType Params G))
     = (TaskQueue G ++
        [{| Task_CommandType := CommandType; Task_Params := Params;
            Task_Promise := NextPromise G |}])%list
  /\ ((length (TaskQueue G) < Schedule (FromSeconds 30))%nat ->
      fst (ExecuteCommand CommandType Params Schedule G)
      = FJsonSerializer_Serialize (CreateSuccessResponse (Some ConnectionPayload)))
  /\ ((Schedule (FromSeconds 30) <= length (TaskQueue G))%nat ->
      fst (ExecuteCommand CommandType Params Schedule G)
      = FJsonSerializer_Serialize
          (CreateErrorResponse "TIMEOUT" "Command execution timed out")).
Proof.
  intros HSys HWF.
  assert (HRoute : forall h,
             RouteCommand CommandType Params h
             = (CreateSuccessResponse (Some ConnectionPayload), h)).
  { intros h. unfold RouteCommand. rewrite HSys. reflexivity. }
  destruct (ExecuteCommand_cases CommandType Params Schedule G HWF) as [HLate HReady].
  split; [ exact HRoute | ].
  split; [ reflexivity | ].
  split; [ reflexivity | ].
  split; intros HGranted.
  - rewrite (HReady HGranted). cbn [fst]. rewrite HRoute. reflexivity.
  - rewrite (HLate HGranted). reflexivity.
Qed.

(** On the example engine, with a game thread that takes the task up. *)
Lemma check_connection_routed_on_game_thread_witness :
  FString_Equals (Engine := ExampleEngine) "check_connection" "check_connection" = true
  /\ GameThreadWF ExampleGameThread
  /\ fst (ExecuteCommand "check_connection" [] BriskSchedule ExampleGameThread)
     = FJsonSerializer_Serialize (Engine := ExampleEngine)
         (CreateSuccessResponse (Some ConnectionPayload)).
Proof.
  split; [ reflexivity | ]. split; [ apply GameThreadWF_idle | ].
  apply (check_connection_routed_on_game_thread (E := ExampleEngine)
           "check_connection" [] BriskSchedule ExampleGameThread
           eq_refl (GameThreadWF_idle _)).
  vm_compute. lia.
Defined.

(** C1, as stated, fails: with the game thread blocked, [ExecuteCommand]
    on [check_connection] has queued a task for the game thread and
    answers [TIMEOUT], not the success envelope. *)
Lemma check_connection_blocked_game_thread_times_out :
  fst (ExecuteCommand (E := ExampleEngine) "check_connection" []
         BlockedSchedule ExampleGameThread)
  = TimeoutAnswer
  /\ fst (ExecuteCommand (E := ExampleEngine) "check_connection" []
            BlockedSchedule ExampleGameThread)
     <> FJsonSerializer_Serialize (Engine := ExampleEngine)
          (CreateSuccessResponse (Some ConnectionPayload))
  /\ TaskQueue (snd (ExecuteCommand (E := ExampleEngine) "check_connection" []
                       BlockedSchedule ExampleGameThread))
     = [{| Task_CommandType := "check_connection"; Task_Params := [];
           Task_Promise := 0%nat |}].
Proof.
  split; [ vm_compute; reflexivity | ].
  split; [ vm_compute; discriminate | vm_compute; reflexivity ].
Qed.

(** ** [ProcessRequest] *)

(** What was received, decoded, is what [ProcessRequest] gets, and its
    answer is what is sent. *)
Lemma HandleClientConnection_sends_answer {E : Engine}
  (Runnable : FGRIDServerRunnable) (Delay : Z) (Bytes Memory : string)
  (Schedule : FGameThreadSchedule) (G : FGameThread) :
  Runnable_Bridge Runnable = true ->
  Left Bytes (Z.to_nat 65536) <> "" ->
  HandleClientConnection Runnable (Some (Client_Sends Delay Bytes)) Memory Schedule G
  = ({| SocketCalls :=
          [Sock_SetNonBlocking false; Sock_Wait_WaitForRead (FromSeconds 5);
           Sock_Recv 65536;
           Sock_Send (fst (ProcessRequest
                             (RequestText (Left Bytes (Z.to_nat 65536)) Memory)
                             Schedule G))];
        bReturned := true |},
     snd (ProcessRequest (RequestText (Left Bytes (Z.to_nat 65536)) Memory) Schedule G)).
Proof.
  intros HBridge HSome. unfold HandleClientConnection. rewrite HBridge.
  cbn [negb ClientSocket_Recv].
  set (Received := Left Bytes (Z.to_nat 65536)) in *.
  rewrite Nat2Z.id.
  change (Left (UTF8_TO_TCHAR (CString (Overwrite Received Memory)))
            (String.length Received))
    with (RequestText Received Memory).
  replace (0 <? Z.of_nat (String.length Received)) with true.
  2:{ symmetry. apply Z.ltb_lt.
      destruct Received; [ congruence | cbn [String.length]; lia ]. }
  destruct (ProcessRequest (RequestText Received Memory) Schedule G). reflexivity.
Qed.

(** C4, as stated, fails on an engine whose [TryGetStringField] gives
    the text of a boolean, as the engine's [FJsonValue::TryGetString]
    does.  The request parses, its ["command"] is the boolean [true] and
    no string; it is handed to [ExecuteCommand] as the command [true]:
    a task is submitted to the game thread, and the answer is that of
    an unknown command, not the protocol error. *)
Lemma boolean_command_reaches_ExecuteCommand :
  FJsonSerializer_Deserialize (Engine := ExampleEngine) (TEXT "{`command`:true}")
  = Some [("command", FJsonValueBoolean true)]
  /\ ProcessRequest (E := ExampleEngine) (TEXT "{`command`:true}") BriskSchedule
       ExampleGameThread
     = ExecuteCommand (E := ExampleEngine) "true" [] BriskSchedule ExampleGameThread
  /\ fst (ProcessRequest (E := ExampleEngine) (TEXT "{`command`:true}") BriskSchedule
            ExampleGameThread)
     = UnknownCommandTrueAnswer
  /\ fst (ProcessRequest (E := ExampleEngine) (TEXT "{`command`:true}") BriskSchedule
            ExampleGameThread)
     <> MISSING_COMMAND_Response
  /\ NextPromise (snd (ProcessRequest (E := ExampleEngine) (TEXT "{`command`:true}")
                         BriskSchedule ExampleGameThread))
     = 1%nat.
Proof.
  split; [ vm_compute; reflexivity | ].
  split; [ reflexivity | ].
  split; [ vm_compute; reflexivity | ].
  split; [ vm_compute; discriminate | vm_compute; reflexivity ].
Qed.

(** C4, as the code has it.  A request text that does not parse, or
    that parses and from which the engine's [TryGetStringField] gets no
    string under ["command"], is answered with the matching
    protocol-error text, a failure envelope with code and message, and
    the bridge is not called: the game thread is as it was.  A request
    from which [TryGetStringField] gets a command, be it a string or a
    value the engine turns into one, is handed to [ExecuteCommand] with
    that command (one task is submitted), and what comes back is its
    structured response, serialised.  Either way the text is what the
    connection handler sends to the peer, the request text being the
    one it made of the received bytes. *)
Theorem ProcessRequest_protocol_errors_before_bridge {E : Engine}
  (RequestData : string) (Schedule : FGameThreadSchedule) (G : FGameThread) :
  GameThreadWF G ->
  ReadCondensed INVALID_JSON_Response
  = Some (CreateErrorResponse "INVALID_JSON" "Failed to parse request JSON")
  /\ ReadCondensed MISSING_COMMAND_Response
     = Some (CreateErrorResponse "MISSING_COMMAND" "Request missing 'command' field")
  /\ match FJsonSerializer_Deserialize RequestData with
     | None => ProcessRequest RequestData Schedule G = (INVALID_JSON_Response, G)
     | Some RequestJson =>
         match TryGetStringField RequestJson "command" with
         | None => ProcessRequest RequestData Schedule G = (MISSING_COMMAND_Response, G)
         | Some CommandType =>
             let Params :=
               match GetObjectField RequestJson "params" with
               | Some Params => Params
               | None => []
               end in
             ProcessRequest RequestData Schedule G
             = ExecuteCommand CommandType Params Schedule G
             /\ NextPromise (snd (ProcessRequest RequestData Schedule G))
                = S (NextPromise G)
             /\ exists Response,
                 BuiltResponse Response
                 /\ IsEnvelope Response = true
                 /\ fst (ProcessRequest RequestData Schedule G)
                    = FJsonSerializer_Serialize Response
         end
     end
  /\ forall Runnable Delay Bytes Memory,
       Runnable_Bridge Runnable = true ->
       Left Bytes (Z.to_nat 65536) <> "" ->
       RequestText (Left Bytes (Z.to_nat 65536)) Memory = RequestData ->
       SocketCalls
         (fst (HandleClientConnection Runnable (Some (Client_Sends Delay Bytes)) Memory
                 Schedule G))
       = [Sock_SetNonBlocking false; Sock_Wait_WaitForRead (FromSeconds 5);
          Sock_Recv 65536; Sock_Send (fst (ProcessRequest RequestData Schedule G))].
Proof.
  intros HWF. split; [ reflexivity | ]. split; [ reflexivity | ].
  split; cycle 1.
  { intros Runnable Delay Bytes Memory HBridge HSome <-.
    rewrite (HandleClientConnection_sends_answer Runnable Delay Bytes Memory Schedule G
               HBridge HSome). reflexivity. }
  unfold ProcessRequest.
  destruct (FJsonSerializer_Deserialize RequestData) as [RequestJson|]; [ | reflexivity ].
  destruct (TryGetStringField RequestJson "command") as [CommandType|]; [ | reflexivity ].
  set (Params := match GetObjectField RequestJson "params" with
                 | Some Params => Params
                 | None => MakeShared_FJsonObject
                 end).
  cbv zeta. split; [ reflexivity | ].
  destruct (ExecuteCommand_cases CommandType Params Schedule G HWF) as [HLate HReady].
  destruct (Nat.le_gt_cases (Schedule (FromSeconds 30)) (length (TaskQueue G)))
    as [HLe | HLt].
  - rewrite (HLate HLe). cbn [fst snd]. split.
    + rewrite GameThreadTicks_NextPromise. reflexivity.
    + eexists. split; [ apply Built_error | ].
      split; [ apply BuiltResponse_IsEnvelope, Built_error | reflexivity ].
  - rewrite (HReady HLt). cbn [fst snd]. split.
    + rewrite GameThreadTicks_NextPromise. reflexivity.
    + eexists. split; [ apply RouteCommand_built | ].
      split; [ apply BuiltResponse_IsEnvelope, RouteCommand_built | reflexivity ].
Qed.

(** On the example engine: a request whose command is [null], which is
    no string and is turned into none. *)
Lemma ProcessRequest_protocol_errors_before_bridge_witness :
  GameThreadWF ExampleGameThread
  /\ ProcessRequest (TEXT "{`command`:null}") BriskSchedule ExampleGameThread
     = (MISSING_COMMAND_Response, ExampleGameThread).
Proof.
  split; [ apply GameThreadWF_idle | ].
  apply (ProcessRequest_protocol_errors_before_bridge (E := ExampleEngine)
           (TEXT "{`command`:null}") BriskSchedule ExampleGameThread
           (GameThreadWF_idle _)).
Defined.

(** ** Paths and decimal text *)

Lemma append_cons (x : ascii) (a b : string) : String x a +:+ b = String x (a +:+ b).
Proof. reflexivity. Qed.

Lemma append_assoc (a b c : string) : (a +:+ b) +:+ c = a +:+ (b +:+ c).
Proof.
  induction a as [|x a IH]; [ reflexivity | ].
  rewrite !append_cons, IH. reflexivity.
Qed.

Lemma EndsWithSlash_append (a : string) (c : ascii) (b : string) :
  EndsWithSlash (a +:+ String c b) = EndsWithSlash (String c b).
Proof.
  induction a as [|x a IH]; [ reflexivity | ].
  rewrite append_cons. destruct a as [|y a]; exact IH.
Qed.

Lemma IsEmpty_append_String (a : string) (c : ascii) (b : string) :
  IsEmpty (a +:+ String c b) = false.
Proof. destruct a; reflexivity. Qed.

Lemma PathAppend_literal (Root : string) (c : ascii) (s : string) (d : ascii) (t : string) :
  PathAppend (Root +:+ String c s) (String d t)
  = Root +:+ (String c s +:+
              (if EndsWithSlash (String c s) then String d t
               else String "/" (String d t))).
Proof.
  unfold PathAppend. rewrite IsEmpty_append_String, EndsWithSlash_append.
  destruct (EndsWithSlash (String c s)); rewrite append_assoc; reflexivity.
Qed.

Lemma DiscoveryFile_suffix (Dir : string) :
  exists Root, DiscoveryFile Dir = Root +:+ "Saved/Config/GRID/Port.txt".
Proof.
  unfold DiscoveryFile, FPaths_Combine. cbn [fold_left].
  assert (H1 : exists Root, PathAppend Dir "Saved" = Root +:+ "Saved").
  { unfold PathAppend. destruct (IsEmpty Dir); [ exists ""; reflexivity | ].
    destruct (EndsWithSlash Dir); [ exists Dir; reflexivity | ].
    exists (Dir +:+ "/"). rewrite append_assoc. reflexivity. }
  destruct H1 as [Root ->]. exists Root.
  assert (H2 : PathAppend (Root +:+ "Saved") "Config" = Root +:+ "Saved/Config")
    by (rewrite PathAppend_literal; reflexivity).
  assert (H3 : PathAppend (Root +:+ "Saved/Config") "GRID" = Root +:+ "Saved/Config/GRID")
    by (rewrite PathAppend_literal; reflexivity).
  assert (H4 : PathAppend (Root +:+ "Saved/Config/GRID") "Port.txt"
               = Root +:+ "Saved/Config/GRID/Port.txt")
    by (rewrite PathAppend_literal; reflexivity).
  rewrite H2, H3, H4. reflexivity.
Qed.

Lemma DiscoveryFile_nonempty (Dir : string) : IsEmpty (DiscoveryFile Dir) = false.
Proof.
  destruct (DiscoveryFile_suffix Dir) as [Root ->]. apply IsEmpty_append_String.
Qed.

Lemma Atoi_FromInt (Num : Z) : Atoi (FromInt Num) = Some Num.
Proof.
  unfold Atoi, FromInt. rewrite NilZero.isi.
  - cbn [option_map]. rewrite DecimalZ.of_to. reflexivity.
  - destruct Num as [|p|p]; cbn; try discriminate.
    intros HNil. injection HNil as HNil.
    exact (DecimalPos.Unsigned.to_uint_nonnil p HNil).
  - destruct Num as [|p|p]; cbn; try discriminate.
    intros HNil. injection HNil as HNil.
    exact (DecimalPos.Unsigned.to_uint_nonnil p HNil).
Qed.

(** ** Lifecycle *)

Lemma Shutdown_not_running (Answers : FPlatformAnswers) (B : FGRIDBridge) (P : FPlatform) :
  bIsRunning B = false -> Shutdown Answers B P = (B, P).
Proof. intros HStopped. unfold Shutdown. rewrite HStopped. reflexivity. Qed.

Lemma Initialize_running (Answers : FPlatformAnswers) (B : FGRIDBridge) (P : FPlatform) :
  bIsRunning B = true -> Initialize Answers B P = (B, P).
Proof. intros HRunning. unfold Initialize. rewrite HRunning. reflexivity. Qed.

(** What [Shutdown] leaves behind when the bridge was running. *)
Lemma Shutdown_running (Answers : FPlatformAnswers) (B : FGRIDBridge) (P : FPlatform) :
  bIsRunning B = true ->
  bIsRunning (fst (Shutdown Answers B P)) = false
  /\ ListenerSocket (fst (Shutdown Answers B P)) = None
  /\ ServerThread (fst (Shutdown Answers B P)) = None
  /\ Port (fst (Shutdown Answers B P)) = Port B
  /\ PortFilePath (fst (Shutdown Answers B P)) = PortFilePath B
  /\ ProjectDir (snd (Shutdown Answers B P)) = ProjectDir P
  /\ BindCalls (snd (Shutdown Answers B P)) = BindCalls P
  /\ Files (snd (Shutdown Answers B P))
     = if IsEmpty (PortFilePath B) then Files P else delete (PortFilePath B) (Files P).
Proof.
  intros HRunning. unfold Shutdown, DeletePortFile, IsEmpty. rewrite HRunning.
  destruct B as [Listener Thread Runnable Running BPort Path]. cbn in HRunning |- *.
  destruct Runnable, Listener, Thread, (SocketSubsystem_Get Answers); cbn.
  all: destruct (String.eqb Path ""); cbn; repeat split; reflexivity.
Qed.

Lemma Shutdown_stops (Answers : FPlatformAnswers) (B : FGRIDBridge) (P : FPlatform) :
  bIsRunning (fst (Shutdown Answers B P)) = false.
Proof.
  destruct (bIsRunning B) eqn:HRunning.
  - apply Shutdown_running, HRunning.
  - rewrite Shutdown_not_running by exact HRunning. exact HRunning.
Qed.

Lemma Shutdown_twice (Answers Answers' : FPlatformAnswers) (B : FGRIDBridge)
  (P : FPlatform) :
  Shutdown Answers' (fst (Shutdown Answers B P)) (snd (Shutdown Answers B P))
  = Shutdown Answers B P.
Proof.
  rewrite Shutdown_not_running by apply Shutdown_stops.
  destruct (Shutdown Answers B P). reflexivity.
Qed.

(** The state a start leaves behind when every platform call succeeds. *)
Lemma Initialize_started (Answers : FPlatformAnswers) (B : FGRIDBridge) (P : FPlatform) :
  bIsRunning B = false ->
  SocketSubsystem_Get Answers = true -> CreateSocket_ok Answers = true ->
  Bind_ok Answers = true -> Listen_ok Answers = true -> CreateThread_ok Answers = true ->
  Initialize Answers B P =
  ({| ListenerSocket := Some (NextSocket P);
      ServerThread := Some (NextThread P);
      ServerRunnable :=
        Some {| Runnable_Bridge := true;
                Runnable_ListenerSocket := Some (NextSocket P);
                StopTaskCounter := 0 |};
      bIsRunning := true;
      Port := BoundAddr_GetPort Answers;
      PortFilePath := DiscoveryFile (ProjectDir P) |},
   {| ProjectDir := ProjectDir P;
      Files := <[DiscoveryFile (ProjectDir P) := FromInt (BoundAddr_GetPort Answers)]>
                 (Files P);
      Sockets := <[NextSocket P := SocketListening]>
                   (<[NextSocket P := SocketBound]>
                      (<[NextSocket P := SocketCreated]> (ReleasedSockets B P)));
      NextSocket := S (NextSocket P);
      Threads := {[NextThread P]} ∪ Threads P;
      NextThread := S (NextThread P);
      BindCalls := S (BindCalls P) |}).
Proof.
  intros HStopped HSubsystem HCreate HBind HListen HThread.
  unfold Initialize, CreateSocket, Socket_Bind, Socket_Listen, WritePortFile,
    FRunnableThread_Create.
  rewrite HStopped, HSubsystem, HCreate, HBind, HListen, HThread. reflexivity.
Qed.

(** The state a start leaves behind when only the thread cannot be created. *)
Lemma Initialize_without_thread (Answers : FPlatformAnswers) (B : FGRIDBridge)
  (P : FPlatform) :
  bIsRunning B = false ->
  SocketSubsystem_Get Answers = true -> CreateSocket_ok Answers = true ->
  Bind_ok Answers = true -> Listen_ok Answers = true -> CreateThread_ok Answers = false ->
  Initialize Answers B P =
  ({| ListenerSocket := Some (NextSocket P);
      ServerThread := None;
      ServerRunnable :=
        Some {| Runnable_Bridge := true;
                Runnable_ListenerSocket := Some (NextSocket P);
                StopTaskCounter := 0 |};
      bIsRunning := false;
      Port := BoundAddr_GetPort Answers;
      PortFilePath := DiscoveryFile (ProjectDir P) |},
   {| ProjectDir := ProjectDir P;
      Files := <[DiscoveryFile (ProjectDir P) := FromInt (BoundAddr_GetPort Answers)]>
                 (Files P);
      Sockets := <[NextSocket P := SocketListening]>
                   (<[NextSocket P := SocketBound]>
                      (<[NextSocket P := SocketCreated]> (ReleasedSockets B P)));
      NextSocket := S (NextSocket P);
      Threads := Threads P;
      NextThread := NextThread P;
      BindCalls := S (BindCalls P) |}).
Proof.
  intros HStopped HSubsystem HCreate HBind HListen HThread.
  unfold Initialize, CreateSocket, Socket_Bind, Socket_Listen, WritePortFile,
    FRunnableThread_Create.
  rewrite HStopped, HSubsystem, HCreate, HBind, HListen, HThread.
  cbn. rewrite Shutdown_not_running by (cbn; exact HStopped).
  unfold set_ServerThread, set_ServerRunnable, set_PortFilePath, set_Port,
    set_ListenerSocket, set_Files, set_Sockets. cbn.
  rewrite HStopped. reflexivity.
Qed.

(** C10. When [Initialize] gets through bind and listen and has written
    the discovery file, and the server thread then cannot be created,
    the [Shutdown] it calls returns at once, [bIsRunning] being still
    false: the bridge ends not running, with the discovery file on disk
    and the listener socket open. *)
Theorem thread_creation_failure_leaves_file_and_socket
  (Answers : FPlatformAnswers) (B : FGRIDBridge) (P : FPlatform) :
  bIsRunning B = false ->
  SocketSubsystem_Get Answers = true -> CreateSocket_ok Answers = true ->
  Bind_ok Answers = true -> Listen_ok Answers = true ->
  CreateThread_ok Answers = false ->
  let B' := fst (Initialize Answers B P) in
  let P' := snd (Initialize Answers B P) in
  IsRunning B' = false
  /\ Shutdown Answers B' P' = (B', P')
  /\ Files P' !! DiscoveryFile (ProjectDir P) = Some (FromInt (BoundAddr_GetPort Answers))
  /\ ListenerSocket B' = Some (NextSocket P)
  /\ Sockets P' !! NextSocket P = Some SocketListening.
Proof.
  intros HStopped HSubsystem HCreate HBind HListen HThread B' P'.
  unfold B', P'.
  rewrite (Initialize_without_thread Answers B P HStopped HSubsystem HCreate HBind
             HListen HThread).
  cbn [fst snd IsRunning bIsRunning Files ListenerSocket Sockets].
  split; [ reflexivity | ].
  split; [ apply Shutdown_not_running; reflexivity | ].
  split; [ apply lookup_insert_eq | ].
  split; [ reflexivity | apply lookup_insert_eq ].
Qed.

(** A fresh bridge on which only the thread creation fails. *)
Lemma thread_creation_failure_leaves_file_and_socket_witness :
  Files (snd (Initialize (ThreadCreationFails 54321) FGRIDBridge_new
                (FreshPlatform "/Project/")))
    !! DiscoveryFile "/Project/" = Some "54321".
Proof.
  apply (thread_creation_failure_leaves_file_and_socket (ThreadCreationFails 54321)
           FGRIDBridge_new (FreshPlatform "/Project/")); reflexivity.
Defined.

Lemma Published_Initialize (Dir : string) (Answers : FPlatformAnswers)
  (B : FGRIDBridge) (P : FPlatform) :
  CreateThread_ok Answers = true -> BoundAddr_GetPort Answers <> 0 ->
  Published Dir (B, P) -> Published Dir (Initialize Answers B P).
Proof.
  intros HThread HPort (HDir & HOn & HOff). cbn [fst snd] in *.
  destruct (bIsRunning B) eqn:HRunning.
  { rewrite Initialize_running by exact HRunning. unfold Published. cbn [fst snd].
    split; [ exact HDir | ].
    split; [ intros _; apply HOn; reflexivity | rewrite HRunning; discriminate ]. }
  specialize (HOff eq_refl).
  unfold Published, Initialize, CreateSocket, Socket_Bind, Socket_Listen, WritePortFile,
    FRunnableThread_Create.
  rewrite HRunning, HThread.
  destruct (SocketSubsystem_Get Answers); cbn;
    [ | split; [ exact HDir | split; [ congruence | intros _; exact HOff ] ] ].
  destruct (CreateSocket_ok Answers); cbn;
    [ | split; [ exact HDir | split; [ congruence | intros _; exact HOff ] ] ].
  destruct (Bind_ok Answers); cbn;
    [ | split; [ exact HDir | split; [ congruence | intros _; exact HOff ] ] ].
  destruct (Listen_ok Answers); cbn;
    [ | split; [ exact HDir | split; [ congruence | intros _; exact HOff ] ] ].
  rewrite HDir. split; [ reflexivity | ]. split; [ | congruence ].
  intros _. split; [ exact HPort | ]. split; [ reflexivity | ].
  rewrite lookup_insert_eq. eexists. reflexivity.
Qed.

Lemma Published_Shutdown (Dir : string) (Answers : FPlatformAnswers)
  (B : FGRIDBridge) (P : FPlatform) :
  Published Dir (B, P) -> Published Dir (Shutdown Answers B P).
Proof.
  intros (HDir & HOn & HOff). cbn [fst snd] in *.
  destruct (bIsRunning B) eqn:HRunning.
  - destruct (HOn eq_refl) as (_ & HPath & _).
    destruct (Shutdown_running Answers B P HRunning)
      as (HStopped & _ & _ & _ & _ & HDir' & _ & HFiles).
    split; [ rewrite HDir'; exact HDir | ].
    split; [ congruence | ]. intros _.
    rewrite HFiles, HPath, DiscoveryFile_nonempty. apply lookup_delete_eq.
  - rewrite Shutdown_not_running by exact HRunning.
    split; [ exact HDir | ]. split; [ cbn; congruence | intros _; apply HOff; reflexivity ].
Qed.

Lemma Published_BridgeRun (Dir : string) (Calls : list FBridgeCall) :
  forall State, Published Dir State -> Forall ThreadStarts Calls ->
                Published Dir (BridgeRun Calls State).
Proof.
  induction Calls as [|Call Calls IH]; intros [B P] HState HCalls; [ exact HState | ].
  inversion HCalls as [|? ? HCall HRest]; subst.
  cbn [BridgeRun fold_left]. apply IH; [ | exact HRest ].
  destruct Call as [Answers | Answers]; cbn [BridgeStep fst snd].
  - destruct HCall as [HThread HPort]. apply Published_Initialize; assumption.
  - apply Published_Shutdown; assumption.
Qed.

(** As long as no thread creation fails, the invariant holds in every
    state the bridge reaches. *)
Lemma BridgeStateInvariant_while_threads_start (Dir : string) (Calls : list FBridgeCall) :
  Forall ThreadStarts Calls ->
  BridgeStateInvariant (BridgeRun Calls (FGRIDBridge_new, FreshPlatform Dir)).
Proof.
  intros HCalls.
  assert (HStart : Published Dir (FGRIDBridge_new, FreshPlatform Dir)).
  { split; [ reflexivity | ]. split; [ cbn; congruence | intros _; apply lookup_empty ]. }
  destruct (Published_BridgeRun Dir Calls _ HStart HCalls) as (HDir & HOn & HOff).
  destruct (BridgeRun Calls (FGRIDBridge_new, FreshPlatform Dir)) as [B P].
  cbn [fst snd] in *. unfold BridgeStateInvariant. rewrite HDir. split.
  - intros [_ [Text HFile]]. destruct (bIsRunning B); [ reflexivity | ].
    rewrite HOff in HFile by reflexivity. discriminate HFile.
  - intros HRunning. destruct (HOn HRunning) as (HPort & _ & HFile). split; assumption.
Qed.

(** C5, evaluated where it fails.  One [Initialize] on a fresh bridge
    in which only the thread creation fails: the bridge is not running,
    while its port is set and the discovery file is on disk, so the
    invariant of [BridgeState] does not hold in this reachable state. *)
Theorem invariant_broken_when_thread_creation_fails :
  bIsRunning (fst (BridgeRun [Call_Initialize (ThreadCreationFails 54321)]
                     (FGRIDBridge_new, FreshPlatform "/Project/"))) = false
  /\ Port (fst (BridgeRun [Call_Initialize (ThreadCreationFails 54321)]
                  (FGRIDBridge_new, FreshPlatform "/Project/"))) = 54321
  /\ Files (snd (BridgeRun [Call_Initialize (ThreadCreationFails 54321)]
                   (FGRIDBridge_new, FreshPlatform "/Project/")))
       !! DiscoveryFile "/Project/" = Some "54321"
  /\ ~ BridgeStateInvariant
         (BridgeRun [Call_Initialize (ThreadCreationFails 54321)]
            (FGRIDBridge_new, FreshPlatform "/Project/")).
Proof.
  cbn [BridgeRun fold_left BridgeStep fst snd].
  rewrite (Initialize_without_thread (ThreadCreationFails 54321) FGRIDBridge_new
             (FreshPlatform "/Project/")) by reflexivity.
  cbn [fst snd bIsRunning Port Files ProjectDir FreshPlatform BoundAddr_GetPort
       ThreadCreationFails].
  split; [ reflexivity | ]. split; [ reflexivity | ].
  split; [ apply lookup_insert_eq | ].
  unfold BridgeStateInvariant. cbn [bIsRunning Port Files ProjectDir].
  intros [HRunning _].
  assert (HFalse : false = true); [ | discriminate HFalse ].
  apply HRunning. split; [ discriminate | ].
  rewrite lookup_insert_eq. eexists. reflexivity.
Qed.

(** C7. [Initialize] on a running bridge and [Shutdown] on a stopped one
    change nothing.  So, from a bridge that is not running and with a
    platform that lets the first [Initialize] through, a second
    [Initialize] in a row is a no-op: one [Bind] in all, the bridge
    running, the port the same; and of two [Shutdown]s in a row the
    second is a no-op: the bridge is stopped and the discovery file
    absent after each. *)
Theorem Initialize_and_Shutdown_idempotent
  (First Second Third Fourth : FPlatformAnswers) (B : FGRIDBridge) (P : FPlatform) :
  bIsRunning B = false ->
  SocketSubsystem_Get First = true -> CreateSocket_ok First = true ->
  Bind_ok First = true -> Listen_ok First = true -> CreateThread_ok First = true ->
  let Once := Initialize First B P in
  let Twice := Initialize Second (fst Once) (snd Once) in
  let Down := Shutdown Third (fst Twice) (snd Twice) in
  let DownAgain := Shutdown Fourth (fst Down) (snd Down) in
  (forall Answers B0 P0, bIsRunning B0 = true -> Initialize Answers B0 P0 = (B0, P0))
  /\ (forall Answers B0 P0, bIsRunning B0 = false -> Shutdown Answers B0 P0 = (B0, P0))
  /\ (Twice = Once
   /\ BindCalls (snd Twice) = S (BindCalls P)
   /\ IsRunning (fst Twice) = true
   /\ GetPort (fst Twice) = GetPort (fst Once)
   /\ GetPort (fst Once) = BoundAddr_GetPort First)
  /\ (DownAgain = Down
      /\ IsRunning (fst Down) = false
      /\ IsRunning (fst DownAgain) = false
      /\ Files (snd Down) !! DiscoveryFile (ProjectDir P) = None
      /\ Files (snd DownAgain) !! DiscoveryFile (ProjectDir P) = None
      /\ BindCalls (snd DownAgain) = S (BindCalls P)).
Proof.
  intros HStopped HSubsystem HCreate HBind HListen HThread Once Twice Down DownAgain.
  assert (HOnce := Initialize_started First B P HStopped HSubsystem HCreate HBind
                     HListen HThread).
  fold Once in HOnce.
  assert (HTwice : Twice = Once).
  { unfold Twice. rewrite Initialize_running by (rewrite HOnce; reflexivity).
    destruct Once. reflexivity. }
  assert (HDownAgain : DownAgain = Down) by apply Shutdown_twice.
  assert (HRunning : bIsRunning (fst Twice) = true) by (rewrite HTwice, HOnce; reflexivity).
  destruct (Shutdown_running Third (fst Twice) (snd Twice) HRunning)
    as (HD1 & _ & _ & _ & _ & _ & HD7 & HD8).
  fold Down in HD1, HD7, HD8.
  assert (HFiles : Files (snd Down) !! DiscoveryFile (ProjectDir P) = None).
  { rewrite HD8, HTwice, HOnce. cbn [fst snd PortFilePath Files].
    rewrite DiscoveryFile_nonempty. apply lookup_delete_eq. }
  assert (HBinds : BindCalls (snd Down) = S (BindCalls P)).
  { rewrite HD7, HTwice, HOnce. reflexivity. }
  split; [ exact Initialize_running | ].
  split; [ exact Shutdown_not_running | ].
  split.
  - rewrite HTwice, HOnce. repeat split; reflexivity.
  - rewrite HDownAgain. unfold IsRunning. repeat split; assumption.
Qed.

(** Two starts in a row on a fresh bridge, the platform cooperating. *)
Lemma Initialize_and_Shutdown_idempotent_witness :
  Initialize (Cooperative 54322)
    (fst (Initialize (Cooperative 54321) FGRIDBridge_new (FreshPlatform "/Project/")))
    (snd (Initialize (Cooperative 54321) FGRIDBridge_new (FreshPlatform "/Project/")))
  = Initialize (Cooperative 54321) FGRIDBridge_new (FreshPlatform "/Project/").
Proof.
  apply (Initialize_and_Shutdown_idempotent (Cooperative 54321) (Cooperative 54322)
           (Cooperative 0) (Cooperative 0) FGRIDBridge_new (FreshPlatform "/Project/"));
    reflexivity.
Defined.

(** C8, as stated, fails: [Bind] succeeds and [Listen] does not.
    [Initialize] has bound once and [GetPort] reports the bound port,
    and there is no discovery file. *)
Lemma bind_without_listen_publishes_nothing :
  Bind_ok (ListenFails 54321) = true
  /\ GetPort (fst (Initialize (ListenFails 54321) FGRIDBridge_new
                     (FreshPlatform "/Project/"))) = 54321
  /\ BindCalls (snd (Initialize (ListenFails 54321) FGRIDBridge_new
                       (FreshPlatform "/Project/"))) = 1%nat
  /\ Files (snd (Initialize (ListenFails 54321) FGRIDBridge_new
                   (FreshPlatform "/Project/")))
       !! DiscoveryFile "/Project/" = None.
Proof.
  split; [ reflexivity | ]. split; [ reflexivity | ]. split; [ reflexivity | ].
  cbn. apply lookup_empty.
Qed.

(** C8, as the code has it.  After an [Initialize] that starts the
    bridge (bind and listen succeeded and the bridge is running), the
    discovery file
    [<ProjectDir>/Saved/Config/GRID/Port.txt] exists and holds exactly
    the decimal text of the bound port, the number [GetPort] returns and
    the one read back from the text; after [Shutdown] from that running
    state the file is gone. *)
Theorem discovery_file_published_while_running
  (Answers Later : FPlatformAnswers) (B : FGRIDBridge) (P : FPlatform) :
  bIsRunning B = false ->
  bIsRunning (fst (Initialize Answers B P)) = true ->
  let B' := fst (Initialize Answers B P) in
  let P' := snd (Initialize Answers B P) in
  (Bind_ok Answers = true /\ Listen_ok Answers = true)
  /\ PortFilePath B' = DiscoveryFile (ProjectDir P)
  /\ (exists Root, DiscoveryFile (ProjectDir P) = Root +:+ "Saved/Config/GRID/Port.txt")
  /\ Files P' !! DiscoveryFile (ProjectDir P) = Some (FromInt (GetPort B'))
  /\ Atoi (FromInt (GetPort B')) = Some (GetPort B')
  /\ GetPort B' = BoundAddr_GetPort Answers
  /\ Files (snd (Shutdown Later B' P')) !! DiscoveryFile (ProjectDir P) = None.
Proof.
  intros HStopped HRunning B' P'.
  assert (HAnswers : SocketSubsystem_Get Answers = true /\ CreateSocket_ok Answers = true
                     /\ Bind_ok Answers = true /\ Listen_ok Answers = true
                     /\ CreateThread_ok Answers = true).
  { revert HRunning.
    unfold Initialize, CreateSocket, Socket_Bind, Socket_Listen, WritePortFile,
      FRunnableThread_Create.
    rewrite HStopped.
    destruct (SocketSubsystem_Get Answers); cbn; [ | congruence ].
    destruct (CreateSocket_ok Answers); cbn; [ | congruence ].
    destruct (Bind_ok Answers); cbn; [ | congruence ].
    destruct (Listen_ok Answers); cbn; [ | congruence ].
    destruct (CreateThread_ok Answers); cbn; [ tauto | ].
    rewrite Shutdown_not_running by (cbn; exact HStopped). cbn. congruence. }
  destruct HAnswers as (HSubsystem & HCreate & HBind & HListen & HThread).
  assert (HInit := Initialize_started Answers B P HStopped HSubsystem HCreate HBind
                     HListen HThread).
  destruct (Shutdown_running Later B' P' HRunning) as (_ & _ & _ & _ & _ & _ & _ & HFiles).
  unfold B', P' in *. rewrite HInit in HFiles |- *.
  cbn [fst snd PortFilePath Files GetPort Port] in HFiles |- *.
  split; [ split; assumption | ].
  split; [ reflexivity | ].
  split; [ apply DiscoveryFile_suffix | ].
  split; [ apply lookup_insert_eq | ].
  split; [ apply Atoi_FromInt | ].
  split; [ reflexivity | ].
  rewrite HFiles, DiscoveryFile_nonempty. apply lookup_delete_eq.
Qed.

(** A fresh bridge started on a cooperating platform. *)
Lemma discovery_file_published_while_running_witness :
  Files (snd (Initialize (Cooperative 54321) FGRIDBridge_new (FreshPlatform "/Project/")))
    !! DiscoveryFile "/Project/" = Some "54321".
Proof.
  apply (discovery_file_published_while_running (Cooperative 54321) (Cooperative 0)
           FGRIDBridge_new (FreshPlatform "/Project/")); reflexivity.
Defined.

(** Whatever the wait reports, the handler goes on to [Recv]. *)
Lemma HandleClientConnection_reads_after_any_wait {E : Engine}
  (Runnable : FGRIDServerRunnable) (Client : FClient) (Memory : string)
  (Schedule : FGameThreadSchedule) (G : FGameThread) :
  Runnable_Bridge Runnable = true ->
  exists More,
    SocketCalls (fst (HandleClientConnection Runnable (Some Client) Memory Schedule G))
    = ([Sock_SetNonBlocking false; Sock_Wait_WaitForRead (FromSeconds 5);
        Sock_Recv 65536] ++ More)%list.
Proof.
  intros HBridge. unfold HandleClientConnection. rewrite HBridge. cbn [negb].
  destruct (ClientSocket_Recv Client 65536) as [[|] Received|].
  - destruct (0 <? Z.of_nat (String.length Received)).
    + destruct (ProcessRequest _ Schedule G) as [ResponseData G'].
      exists [Sock_Send ResponseData]. reflexivity.
    + exists []. reflexivity.
  - exists []. reflexivity.
  - exists []. reflexivity.
Qed.

(** C6, evaluated where it fails.  A peer whose request arrives six
    seconds after connecting: the five-second wait ends without the
    socket being readable, and still the handler calls [Recv], handles
    the request and sends the response before [Run] closes the socket.
    A peer that stays silent: the handler is held in [Recv] and does
    not return. *)
Theorem late_client_is_read_and_answered :
  ClientSocket_Wait LateClient (FromSeconds 5) = false
  /\ fst (HandleClientConnection (E := ExampleEngine) ExampleRunnable (Some LateClient)
            StaleMemory BriskSchedule ExampleGameThread)
     = {| SocketCalls :=
            [Sock_SetNonBlocking false;
             Sock_Wait_WaitForRead (FromSeconds 5);
             Sock_Recv 65536;
             Sock_Send CheckConnectionAnswer];
          bReturned := true |}
  /\ fst (Run (E := ExampleEngine) ExampleRunnable [LatePoll] ExampleGameThread)
     = [{| SocketCalls :=
             [Sock_SetNonBlocking false;
              Sock_Wait_WaitForRead (FromSeconds 5);
              Sock_Recv 65536;
              Sock_Send CheckConnectionAnswer;
              Sock_Close;
              Sock_DestroySocket];
           bReturned := true |}]
  /\ ClientSocket_Wait Client_Silent (FromSeconds 5) = false
  /\ fst (HandleClientConnection (E := ExampleEngine) ExampleRunnable (Some Client_Silent)
            StaleMemory BriskSchedule ExampleGameThread)
     = {| SocketCalls :=
            [Sock_SetNonBlocking false;
             Sock_Wait_WaitForRead (FromSeconds 5);
             Sock_Recv 65536];
          bReturned := false |}.
Proof.
  split; [ reflexivity | ]. split; [ vm_compute; reflexivity | ].
  split; [ vm_compute; reflexivity | ].
  split; [ reflexivity | vm_compute; reflexivity ].
Qed.

(** * Further properties *)

(** ** The accept loop and the connection handler *)

(** The ways [HandleClientConnection] can end: a request was read and
    its answer sent; the thread is inside [Recv]; or it came back with
    nothing sent and the game thread as it was. *)
Lemma HandleClientConnection_outcomes {E : Engine}
  (Runnable : FGRIDServerRunnable) (ClientSocket : option FClient) (Memory : string)
  (Schedule : FGameThreadSchedule) (G : FGameThread) :
  (exists Delay Bytes,
      ClientSocket = Some (Client_Sends Delay Bytes)
      /\ Runnable_Bridge Runnable = true
      /\ Left Bytes (Z.to_nat 65536) <> ""
      /\ HandleClientConnection Runnable ClientSocket Memory Schedule G
         = ({| SocketCalls :=
                 (ReadCalls ++
                  [Sock_Send (fst (ProcessRequest
                                     (RequestText (Left Bytes (Z.to_nat 65536)) Memory)
                                     Schedule G))])%list;
               bReturned := true |},
            snd (ProcessRequest (RequestText (Left Bytes (Z.to_nat 65536)) Memory)
                   Schedule G)))
  \/ (ClientSocket = Some Client_Silent
      /\ Runnable_Bridge Runnable = true
      /\ HandleClientConnection Runnable ClientSocket Memory Schedule G
         = ({| SocketCalls := ReadCalls; bReturned := false |}, G))
  \/ (exists Calls,
        (Calls = [] \/ Calls = ReadCalls)
        /\ HandleClientConnection Runnable ClientSocket Memory Schedule G
           = ({| SocketCalls := Calls; bReturned := true |}, G)).
Proof.
  destruct ClientSocket as [Client|]; cbn [HandleClientConnection].
  2:{ right; right. exists []. split; [now left | reflexivity]. }
  destruct (Runnable_Bridge Runnable) eqn:HBridge; cbn [negb].
  2:{ right; right. exists []. split; [now left | reflexivity]. }
  destruct Client as [Delay Bytes | Delay | ]; cbn [ClientSocket_Recv].
  - destruct (0 <? Z.of_nat (String.length (Left Bytes (Z.to_nat 65536)))) eqn:HRead.
    + left. exists Delay, Bytes. repeat split; try reflexivity.
      * intros HEmpty. rewrite HEmpty in HRead. cbn in HRead. discriminate.
      * rewrite Nat2Z.id. unfold RequestText.
        destruct (ProcessRequest _ Schedule G).
        reflexivity.
    + right; right. exists ReadCalls. split; [now right | reflexivity].
  - right; right. exists ReadCalls. split; [now right | reflexivity].
  - right; left. repeat split; reflexivity.
Qed.

(** X1. Of the connections [Run] accepts, every one the handling thread
    comes back from is closed and destroyed, once, after all other calls
    on it; a connection whose peer stays silent keeps the thread inside
    [Recv], is never closed, and is the last one [Run] gets to. *)
Theorem Run_releases_every_served_connection {E : Engine}
  (Runnable : FGRIDServerRunnable) (Polls : list FPoll) (G : FGameThread) :
  exists Served Last,
    fst (Run Runnable Polls G) = (Served ++ Last)%list
    /\ Forall ClosedOnce Served
    /\ (Last = [] \/ exists Trace, Last = [Trace] /\ StuckInRecv Trace).
Proof.
  revert G. induction Polls as [|Poll Polls IH]; intros G; cbn [Run].
  { exists [], []. repeat split; auto. }
  destruct (negb (Poll_StopTaskCounter Poll =? 0)).
  { exists [], []. repeat split; auto. }
  destruct (Runnable_ListenerSocket Runnable).
  2:{ exists [], []. repeat split; auto. }
  destruct (Poll_WaitForPendingConnection Poll && Poll_bHasPendingConnection Poll);
    [|apply IH].
  destruct (Poll_Accept Poll) as [Client|]; [|apply IH].
  destruct (HandleClientConnection_outcomes Runnable (Some Client) (Poll_Memory Poll)
              (Poll_Schedule Poll) G)
    as [(Delay & Bytes & HClient & HBridge & HBytes & HRun)
       | [(HClient & HBridge & HRun) | (Calls & HCalls & HRun)]];
    rewrite HRun; cbn [bReturned SocketCalls].
  - destruct (IH (snd (ProcessRequest
                         (RequestText (Left Bytes (Z.to_nat 65536)) (Poll_Memory Poll))
                         (Poll_Schedule Poll) G)))
      as (Served & Last & HEq & HServed & HLast).
    destruct (Run Runnable Polls _) as [Traces G']. cbn [fst] in *. subst Traces.
    eexists (_ :: Served), Last. split; [reflexivity|]. split; [|exact HLast].
    constructor; [|exact HServed]. split; [reflexivity|].
    eexists. split; [reflexivity|]. reflexivity.
  - exists [], [{| SocketCalls := ReadCalls; bReturned := false |}].
    split; [reflexivity|]. split; [constructor|]. right. eexists. split; [reflexivity|].
    split; reflexivity.
  - destruct (IH G) as (Served & Last & HEq & HServed & HLast).
    destruct (Run Runnable Polls G) as [Traces G']. cbn [fst] in *. subst Traces.
    eexists (_ :: Served), Last. split; [reflexivity|]. split; [|exact HLast].
    constructor; [|exact HServed]. split; [reflexivity|].
    exists Calls. split; [reflexivity|]. destruct HCalls as [-> | ->]; reflexivity.
Qed.

(** X2. [Run] ends at the first turn that finds the stop counter
    raised: what that turn and the later ones would have accepted is
    not served, and the connections and the game thread are those of
    the turns before. *)
Theorem Run_ends_at_stop_request {E : Engine}
  (Runnable : FGRIDServerRunnable) (Before : list FPoll) (Stop : FPoll)
  (After : list FPoll) (G : FGameThread) :
  Poll_StopTaskCounter Stop <> 0 ->
  Run Runnable (Before ++ Stop :: After) G = Run Runnable Before G.
Proof.
  intros HStop. revert G. induction Before as [|Poll Before IH]; intros G.
  - cbn [app Run]. destruct (Z.eqb_spec (Poll_StopTaskCounter Stop) 0); [contradiction|].
    reflexivity.
  - cbn [app Run].
    destruct (negb (Poll_StopTaskCounter Poll =? 0)); [reflexivity|].
    destruct (Runnable_ListenerSocket Runnable); [|reflexivity].
    destruct (Poll_WaitForPendingConnection Poll && Poll_bHasPendingConnection Poll);
      [|apply IH].
    destruct (Poll_Accept Poll); [|apply IH].
    destruct (HandleClientConnection _ _ _ _ _) as [Trace G'].
    destruct (bReturned Trace); [|reflexivity].
    rewrite IH. reflexivity.
Qed.

(** A stop request between two connections: the second is not served. *)
Lemma Run_ends_at_stop_request_witness :
  Poll_StopTaskCounter StopPoll <> 0
  /\ Run (E := ExampleEngine) ExampleRunnable [LatePoll; StopPoll; LatePoll]
       ExampleGameThread
     = Run (E := ExampleEngine) ExampleRunnable [LatePoll] ExampleGameThread.
Proof.
  assert (HStop : Poll_StopTaskCounter StopPoll <> 0) by (vm_compute; discriminate).
  split; [exact HStop|].
  exact (Run_ends_at_stop_request (E := ExampleEngine) ExampleRunnable [LatePoll] StopPoll
           [LatePoll] ExampleGameThread HStop).
Defined.

(** X3. [HandleClientConnection] sends at most one response, and sends
    one exactly when the peer sent a non-empty request and the runnable
    has its bridge; when nothing is sent the game thread is untouched.
    It never closes or destroys the socket itself. *)
Theorem HandleClientConnection_one_answer_per_request {E : Engine}
  (Runnable : FGRIDServerRunnable) (ClientSocket : option FClient) (Memory : string)
  (Schedule : FGameThreadSchedule) (G : FGameThread) :
  let Trace := fst (HandleClientConnection Runnable ClientSocket Memory Schedule G) in
  let After := snd (HandleClientConnection Runnable ClientSocket Memory Schedule G) in
  (length (List.filter IsSend (SocketCalls Trace)) <= 1)%nat
  /\ (existsb IsSend (SocketCalls Trace) = false -> After = G)
  /\ (existsb IsSend (SocketCalls Trace) = true <->
      exists Delay Bytes,
        ClientSocket = Some (Client_Sends Delay Bytes)
        /\ Runnable_Bridge Runnable = true
        /\ Bytes <> "")
  /\ forallb (fun Call => negb (IsRelease Call)) (SocketCalls Trace) = true.
Proof.
  intros Trace After. subst Trace After.
  destruct (HandleClientConnection_outcomes Runnable ClientSocket Memory Schedule G)
    as [(Delay & Bytes & HClient & HBridge & HBytes & HRun)
       | [(HClient & HBridge & HRun) | (Calls & HCalls & HRun)]];
    rewrite HRun; cbn [fst snd SocketCalls].
  - split; [cbn; lia|]. split; [cbn; discriminate|]. split; [|reflexivity].
    split; [|reflexivity].
    intros _. exists Delay, Bytes. repeat split; try assumption.
    intros ->. apply HBytes. reflexivity.
  - split; [cbn; lia|]. split; [reflexivity|]. split; [|reflexivity].
    split; [cbn; discriminate|].
    intros (Delay & Bytes & HC & _). rewrite HClient in HC. discriminate.
  - assert (HNo : existsb IsSend Calls = false) by (destruct HCalls as [-> | ->]; reflexivity).
    split; [destruct HCalls as [-> | ->]; cbn; lia|].
    split; [reflexivity|].
    split; [|destruct HCalls as [-> | ->]; reflexivity].
    rewrite HNo. split; [discriminate|].
    intros (Delay & Bytes & HC & HB & HNE). exfalso.
    subst ClientSocket. cbn [HandleClientConnection] in HRun. rewrite HB in HRun.
    cbn [negb ClientSocket_Recv] in HRun.
    destruct Bytes as [|c Bytes]; [now apply HNE|].
    cbn in HRun.
    destruct (ProcessRequest _ _ _) in HRun. inversion HRun. subst Calls.
    destruct HCalls as [HC | HC]; discriminate HC.
Qed.

(** ** Commands on the game thread *)

(** One turn of the game thread on a queue with a task at its head. *)
Lemma GameThreadTick_head {E : Engine} (Task : FAsyncTask) (Rest : list FAsyncTask)
  (G : FGameThread) :
  TaskQueue G = Task :: Rest ->
  GameThreadTick G
  = {| TaskQueue := Rest;
       Promises :=
         <[Task_Promise Task :=
             FJsonSerializer_Serialize
               (fst (RouteCommand (Task_CommandType Task) (Task_Params Task) (Editor G)))]>
           (Promises G);
       NextPromise := NextPromise G;
       Editor := snd (RouteCommand (Task_CommandType Task) (Task_Params Task) (Editor G)) |}.
Proof.
  intros HQ. unfold GameThreadTick, RunTask. rewrite HQ.
  cbn [TaskQueue Promises NextPromise Editor].
  destruct (RouteCommand (Task_CommandType Task) (Task_Params Task) (Editor G)).
  reflexivity.
Qed.

(** [ExecuteCommand] on a game thread with nothing queued that takes up
    at least one task within the thirty seconds. *)
Lemma ExecuteCommand_idle {E : Engine}
  (CommandType : string) (Params : FJsonObject)
  (Schedule : FGameThreadSchedule) (G : FGameThread) :
  TaskQueue G = [] ->
  GameThreadWF G ->
  (0 < Schedule (FromSeconds 30))%nat ->
  ExecuteCommand CommandType Params Schedule G
  = (FJsonSerializer_Serialize (fst (RouteCommand CommandType Params (Editor G))),
     {| TaskQueue := [];
        Promises :=
          <[NextPromise G :=
              FJsonSerializer_Serialize (fst (RouteCommand CommandType Params (Editor G)))]>
            (Promises G);
        NextPromise := S (NextPromise G);
        Editor := snd (RouteCommand CommandType Params (Editor G)) |}).
Proof.
  intros HQ [_ HFresh] HGranted.
  specialize (HFresh (NextPromise G) (Nat.le_refl _)).
  unfold ExecuteCommand, Future_WaitFor, AsyncTask. rewrite HQ. cbn [app].
  destruct (Schedule (FromSeconds 30)) as [|Turns]; [lia|].
  cbn [WaitLoop Promises]. rewrite HFresh.
  unfold GameThreadTick, RunTask.
  cbn [TaskQueue Promises NextPromise Editor Task_Promise Task_CommandType Task_Params].
  destruct (RouteCommand CommandType Params (Editor G)) as [Result Editor'].
  cbn [fst snd].
  destruct Turns; cbn [WaitLoop Promises]; rewrite lookup_insert_eq;
    cbn [negb]; unfold Future_Get; cbn [Promises]; rewrite lookup_insert_eq; reflexivity.
Qed.

(** X5. Requests served one after another on a game thread that has
    nothing queued and takes up at least one task while a caller waits:
    the responses are the serialised results of routing the commands in
    the same order over the editor, each on the editor the one before
    it left; the editor ends as that routing leaves it, nothing stays
    queued, and one promise is used per command. *)
Theorem commands_on_an_idle_game_thread_run_one_after_another {E : Engine}
  (Commands : list (string * FJsonObject)) (Schedule : FGameThreadSchedule) :
  (0 < Schedule (FromSeconds 30))%nat ->
  forall G : FGameThread,
    TaskQueue G = [] ->
    GameThreadWF G ->
    fst (ExecuteCommands Commands Schedule G)
    = map FJsonSerializer_Serialize (fst (RouteCommands Commands (Editor G)))
    /\ Editor (snd (ExecuteCommands Commands Schedule G))
       = snd (RouteCommands Commands (Editor G))
    /\ TaskQueue (snd (ExecuteCommands Commands Schedule G)) = []
    /\ NextPromise (snd (ExecuteCommands Commands Schedule G))
       = (NextPromise G + length Commands)%nat.
Proof.
  intros HGranted.
  induction Commands as [|[CommandType Params] Commands IH]; intros G HQ HWF.
  - cbn [ExecuteCommands RouteCommands fst snd map length].
    repeat split; try assumption. lia.
  - cbn [ExecuteCommands RouteCommands].
    pose proof (GameThreadWF_ExecuteCommand CommandType Params Schedule G HWF) as HWF'.
    rewrite (ExecuteCommand_idle CommandType Params Schedule G HQ HWF HGranted) in *.
    cbn [snd] in HWF'.
    destruct (RouteCommand CommandType Params (Editor G)) as [Result Editor'].
    cbn [fst snd] in *.
    match type of HWF' with GameThreadWF ?G' => specialize (IH G' eq_refl HWF') end.
    cbn [Editor NextPromise] in IH.
    destruct (ExecuteCommands Commands Schedule _) as [Responses G''].
    destruct (RouteCommands Commands Editor') as [Results Editor''].
    cbn [fst snd map length] in *.
    destruct IH as (HResponses & HEditor & HQueue & HNext).
    rewrite HResponses. repeat split; try assumption. lia.
Qed.

(** On the example engine: an actor is spawned, then the actors listed. *)
Lemma commands_on_an_idle_game_thread_run_one_after_another_witness :
  (0 < BriskSchedule (FromSeconds 30))%nat
  /\ TaskQueue ExampleGameThread = []
  /\ GameThreadWF ExampleGameThread
  /\ fst (ExecuteCommands (E := ExampleEngine)
            [("actor_spawn", []); ("actor_list", [])] BriskSchedule ExampleGameThread)
     = map (FJsonSerializer_Serialize (Engine := ExampleEngine))
         (fst (RouteCommands (E := ExampleEngine)
                 [("actor_spawn", []); ("actor_list", [])] ExampleEditor)).
Proof.
  assert (HGranted : (0 < BriskSchedule (FromSeconds 30))%nat) by (vm_compute; lia).
  split; [exact HGranted|]. split; [reflexivity|]. split; [apply GameThreadWF_idle|].
  apply (commands_on_an_idle_game_thread_run_one_after_another (E := ExampleEngine)
           [("actor_spawn", []); ("actor_list", [])] BriskSchedule HGranted
           ExampleGameThread eq_refl (GameThreadWF_idle _)).
Defined.

(** X6. A command that timed out is not withdrawn: its task is still
    queued when [ExecuteCommand] returns, and once the game thread has
    worked the queue off, the editor is the one routing the command
    leaves, on the editor the tasks ahead of it left, and the promise
    nobody waits for holds the serialised result. *)
Theorem timed_out_command_still_runs_later {E : Engine}
  (CommandType : string) (Params : FJsonObject)
  (Schedule : FGameThreadSchedule) (G : FGameThread) :
  GameThreadWF G ->
  (Schedule (FromSeconds 30) <= length (TaskQueue G))%nat ->
  let After := snd (ExecuteCommand CommandType Params Schedule G) in
  let Pending := length (TaskQueue After) in
  let Reached := Editor (GameThreadTicks (Pending - 1) After) in
  (0 < Pending)%nat
  /\ Editor (GameThreadTicks Pending After) = snd (RouteCommand CommandType Params Reached)
  /\ Promises (GameThreadTicks Pending After) !! NextPromise G
     = Some (FJsonSerializer_Serialize (fst (RouteCommand CommandType Params Reached))).
Proof.
  intros HWF HGranted After Pending Reached. subst Reached Pending After.
  destruct (ExecuteCommand_cases CommandType Params Schedule G HWF) as [HLate _].
  rewrite (HLate HGranted). cbn [snd].
  set (Task := {| Task_CommandType := CommandType; Task_Params := Params;
                  Task_Promise := NextPromise G |}).
  set (Submitted := snd (AsyncTask CommandType Params G)).
  set (Granted := Schedule (FromSeconds 30)) in *.
  destruct HWF as [HQueue HFresh].
  destruct (GameThreadTicks_through (TaskQueue G) Task Submitted) as (HBefore & _ & _).
  { reflexivity. }
  { intros Other HIn. specialize (HQueue Other HIn). cbn. lia. }
  { apply HFresh. cbn. lia. }
  destruct (HBefore Granted HGranted) as [_ HQueueAfter].
  destruct (HBefore (length (TaskQueue G)) (Nat.le_refl _)) as [_ HQueueLast].
  rewrite drop_all in HQueueLast. cbn [app] in HQueueLast.
  assert (HLen : length (TaskQueue (GameThreadTicks Granted Submitted))
                 = (length (TaskQueue G) - Granted + 1)%nat).
  { rewrite HQueueAfter, length_app, length_drop. cbn [length]. lia. }
  rewrite HLen. split; [lia|].
  replace (length (TaskQueue G) - Granted + 1 - 1)%nat
    with (length (TaskQueue G) - Granted)%nat by lia.
  replace (length (TaskQueue G) - Granted + 1)%nat
    with (S (length (TaskQueue G) - Granted))%nat by lia.
  rewrite <- !GameThreadTicks_add.
  replace (Granted + (length (TaskQueue G) - Granted))%nat
    with (length (TaskQueue G)) by lia.
  replace (Granted + S (length (TaskQueue G) - Granted))%nat
    with (length (TaskQueue G) + 1)%nat by lia.
  rewrite GameThreadTicks_add. cbn [GameThreadTicks].
  rewrite (GameThreadTick_head Task [] _ HQueueLast).
  cbn [Editor Promises Task Task_Promise Task_CommandType Task_Params].
  split; [reflexivity|]. apply lookup_insert_eq.
Qed.

(** On the example engine: [actor_spawn] behind a blocked game thread. *)
Lemma timed_out_command_still_runs_later_witness :
  GameThreadWF ExampleGameThread
  /\ (BlockedSchedule (FromSeconds 30) <= length (TaskQueue ExampleGameThread))%nat
  /\ (0 < length (TaskQueue (snd (ExecuteCommand (E := ExampleEngine) "actor_spawn" []
                                     BlockedSchedule ExampleGameThread))))%nat.
Proof.
  assert (HGranted : (BlockedSchedule (FromSeconds 30)
                      <= length (TaskQueue ExampleGameThread))%nat) by (vm_compute; lia).
  split; [apply GameThreadWF_idle|]. split; [exact HGranted|].
  apply (timed_out_command_still_runs_later (E := ExampleEngine) "actor_spawn" []
           BlockedSchedule ExampleGameThread (GameThreadWF_idle _) HGranted).
Defined.

(** ** Routing and the built handlers *)

Ltac next_case :=
  match goal with
  | H : ?b = false |- context [if ?b then _ else _] => rewrite H
  | |- context [if ?b then _ else _] => destruct b; [reflexivity|]
  end.

(** X7. Only six commands can change the editor: [blueprint_create],
    [blueprint_compile], [blueprint_get_info], [actor_spawn],
    [material_create] and [asset_search].  Routing any command the
    engine's string comparison takes for none of these leaves the editor
    as it was, whatever the prefix and whatever is answered. *)
Theorem RouteCommand_leaves_editor_outside_six_commands {E : Engine}
  (CommandType : string) (Params : FJsonObject) (h : Host) :
  existsb (FString_Equals CommandType) EditingCommands = false ->
  snd (RouteCommand CommandType Params h) = h.
Proof.
  intros HNone. cbn [existsb EditingCommands] in HNone.
  repeat (apply orb_false_elim in HNone; destruct HNone as [? HNone]). clear HNone.
  unfold RouteCommand.
  destruct (FString_Equals CommandType "check_connection"); [reflexivity|].
  destruct (FString_StartsWith CommandType "blueprint_").
  { unfold FBlueprintCommands.HandleCommand. repeat next_case. reflexivity. }
  destruct (FString_StartsWith CommandType "actor_").
  { unfold FActorCommands.HandleCommand.
    destruct (FString_Equals CommandType "actor_list").
    { unfold FActorCommands.ListActors, bind, query, ret.
      destruct (EditorWorld h); reflexivity. }
    destruct (FString_Equals CommandType "actor_find").
    { unfold FActorCommands.FindActors, bind, query, ret.
      destruct (EditorWorld h); reflexivity. }
    repeat next_case. reflexivity. }
  destruct (FString_StartsWith CommandType "material_").
  { unfold FMaterialCommands.HandleCommand. repeat next_case. reflexivity. }
  destruct (FString_StartsWith CommandType "widget_").
  { unfold FWidgetCommands.HandleCommand. repeat next_case. reflexivity. }
  destruct (FString_StartsWith CommandType "asset_").
  { unfold FAssetCommands.HandleCommand. repeat next_case. reflexivity. }
  destruct (FString_StartsWith CommandType "input_").
  { unfold FInputCommands.HandleCommand. repeat next_case. reflexivity. }
  reflexivity.
Qed.

(** On the example engine: listing the actors of a world with two. *)
Lemma RouteCommand_leaves_editor_outside_six_commands_witness :
  existsb (FString_Equals (Engine := ExampleEngine) "actor_list") EditingCommands = false
  /\ snd (RouteCommand (E := ExampleEngine) "actor_list" [] CrowdedEditor) = CrowdedEditor.
Proof.
  split; [reflexivity|].
  apply (RouteCommand_leaves_editor_outside_six_commands (E := ExampleEngine)).
  reflexivity.
Defined.

Lemma RouteCommand_RoutedAnswer {E : Engine}
  (CommandType : string) (Params : FJsonObject) (h : Host) :
  RoutedAnswer (fst (RouteCommand CommandType Params h)).
Proof.
  unfold RouteCommand,
    FBlueprintCommands.HandleCommand, FActorCommands.HandleCommand,
    FMaterialCommands.HandleCommand, FWidgetCommands.HandleCommand,
    FAssetCommands.HandleCommand, FInputCommands.HandleCommand,
    FBlueprintCommands.CreateBlueprint, FBlueprintCommands.CompileBlueprint,
    FBlueprintCommands.GetBlueprintInfo, FBlueprintCommands.LoadBlueprint,
    FActorCommands.ListActors, FActorCommands.FindActors, FActorCommands.SpawnActor,
    FMaterialCommands.CreateMaterial, FAssetCommands.Search.
  fold_constructors.
  repeat first
    [ solve [ cbn [fst];
              first [ apply Routed_success
                    | apply Routed_error; unfold RoutedErrorCodes; cbn [In];
                      repeat first [ left; reflexivity | right ] ] ]
    | peel ].
Qed.

(** X8. The error codes of routing form a closed set: whatever the
    command, the params and the editor, the response of [RouteCommand]
    either carries no error code and is a success envelope, or is a
    failure envelope whose code is one of [UNKNOWN_COMMAND],
    [NOT_IMPLEMENTED], [NO_WORLD], [SPAWN_FAILED], [MISSING_PATH],
    [CREATE_FAILED] and [NOT_FOUND]. *)
Theorem RouteCommand_answers_a_closed_set_of_error_codes {E : Engine}
  (CommandType : string) (Params : FJsonObject) (h : Host) :
  match ErrorCodeOf (fst (RouteCommand CommandType Params h)) with
  | Some ErrorCode =>
      In ErrorCode RoutedErrorCodes
      /\ IsFailureEnvelope (fst (RouteCommand CommandType Params h)) = true
  | None => IsSuccessEnvelope (fst (RouteCommand CommandType Params h)) = true
  end.
Proof.
  destruct (RouteCommand_RoutedAnswer CommandType Params h) as [Data | Code Message HIn].
  - rewrite CreateSuccessResponse_fields. destruct Data; reflexivity.
  - split; [exact HIn | reflexivity].
Qed.

(** X9. With a world, [FindActors] answers a success whose payload
    lists, in the world's order, exactly the actors that pass both
    filters (label contains the pattern, class equals the class name; an
    empty filter lets every actor pass), each with its label and class,
    and counts them; the editor is untouched.  With both filters empty
    every actor of the world is listed. *)
Theorem FindActors_lists_the_matching_actors {E : Engine}
  (Params : FJsonObject) (h : Host) (Actors : list AActor) :
  EditorWorld h = Some Actors ->
  let Pattern := GetStringField Params "pattern" in
  let ClassName := GetStringField Params "class" in
  let Listed := List.filter (ActorMatches Pattern ClassName) Actors in
  FActorCommands.FindActors Params h
  = (CreateSuccessResponse (Some (Listing "actors" (map ActorSummary Listed))), h)
  /\ (length (map ActorSummary Listed) <= length Actors)%nat
  /\ (IsEmpty Pattern = true -> IsEmpty ClassName = true -> Listed = Actors).
Proof.
  intros HWorld Pattern ClassName Listed. subst Listed.
  split; [|split].
  - unfold FActorCommands.FindActors, bind, query, ret. rewrite HWorld.
    fold Pattern ClassName.
    erewrite (List.filter_ext _ (ActorMatches Pattern ClassName)).
    + reflexivity.
    + intros Actor. unfold ActorMatches.
      destruct (IsEmpty Pattern), (IsEmpty ClassName),
        (FString_Contains _ _), (FString_Equals _ _); reflexivity.
  - rewrite length_map. apply List.filter_length_le.
  - intros HP HC. unfold ActorMatches. rewrite HP, HC. cbn [orb andb].
    clear. induction Actors as [|Actor Actors IH]; [reflexivity|].
    cbn [List.filter]. rewrite IH. reflexivity.
Qed.

(** On the example engine: of a lamp and a cube, the actors whose label
    contains [Lamp]. *)
Lemma FindActors_lists_the_matching_actors_witness :
  EditorWorld (Engine := ExampleEngine) CrowdedEditor = Example_World CrowdedEditor
  /\ FActorCommands.FindActors (E := ExampleEngine)
       [("pattern", FJsonValueString "Lamp")] CrowdedEditor
     = (CreateSuccessResponse
          (Some (Listing "actors"
                   [FJsonValueObject [("name", FJsonValueString "Lamp_1");
                                      ("class", FJsonValueString "PointLight")]])),
        CrowdedEditor).
Proof.
  split; [reflexivity|].
  exact (proj1 (FindActors_lists_the_matching_actors (E := ExampleEngine)
                  [("pattern", FJsonValueString "Lamp")] CrowdedEditor _ eq_refl)).
Defined.

Lemma SearchLoop_step {E : Engine} (Query : string) (Assets : list FAssetData)
  (Asset : FAssetData) (ResultArray : list FJsonValue) :
  (length ResultArray < 100)%nat ->
  (forall Longer : list FJsonValue,
     (length Longer < 100)%nat ->
     FAssetCommands.SearchLoop Query Assets Longer
     = firstn 100 (Longer
                   ++ map AssetSummary (List.filter (AssetMatches Query) Assets))%list) ->
  (if 100 <=? Z.of_nat (length (ResultArray ++ [AssetSummary Asset]))
   then (ResultArray ++ [AssetSummary Asset])%list
   else FAssetCommands.SearchLoop Query Assets (ResultArray ++ [AssetSummary Asset])%list)
  = firstn 100 (ResultArray
                ++ AssetSummary Asset
                   :: map AssetSummary (List.filter (AssetMatches Query) Assets))%list.
Proof.
  intros HLen IH.
  assert (HSplit : forall Rest : list FJsonValue,
             (ResultArray ++ AssetSummary Asset :: Rest
              = (ResultArray ++ [AssetSummary Asset]) ++ Rest)%list).
  { intros Rest. rewrite <- app_assoc. reflexivity. }
  rewrite (HSplit (map AssetSummary (List.filter (AssetMatches Query) Assets))).
  assert (HOne : length (ResultArray ++ [AssetSummary Asset]) = S (length ResultArray)).
  { rewrite length_app. cbn [length]. lia. }
  destruct (Z.leb_spec 100 (Z.of_nat (length (ResultArray ++ [AssetSummary Asset]))))
    as [HFull|HRoom].
  - assert (HExact : length (ResultArray ++ [AssetSummary Asset]) = 100%nat) by lia.
    rewrite <- HExact, take_app_length. reflexivity.
  - apply IH. lia.
Qed.

(** The loop of [Search] from any point short of a hundred results. *)
Lemma SearchLoop_take {E : Engine} (Query : string) (Assets : list FAssetData) :
  forall ResultArray : list FJsonValue,
    (length ResultArray < 100)%nat ->
    FAssetCommands.SearchLoop Query Assets ResultArray
    = firstn 100 (ResultArray
                  ++ map AssetSummary (List.filter (AssetMatches Query) Assets))%list.
Proof.
  induction Assets as [|Asset Assets IH]; intros ResultArray HLen.
  - cbn [FAssetCommands.SearchLoop List.filter map]. rewrite app_nil_r.
    symmetry. apply firstn_all2. lia.
  - cbn [FAssetCommands.SearchLoop List.filter]. unfold AssetMatches at 1.
    change (FJsonValueObject _) with (AssetSummary Asset).
    destruct (IsEmpty Query); cbn [negb andb orb].
    + cbn [map]. apply SearchLoop_step; assumption.
    + destruct (FString_Contains (AssetName Asset) Query); cbn [negb].
      * cbn [map]. apply SearchLoop_step; assumption.
      * apply IH, HLen.
Qed.

(** X10. [Search] asks the asset registry once (by class when a type is
    given) and answers a success that lists the first hundred assets
    whose name contains the query, in the registry's order, each with
    name, path and class, and counts them: never more than a hundred,
    and all matches when there are at most a hundred. *)
Theorem asset_search_returns_the_first_hundred_matches {E : Engine}
  (Params : FJsonObject) (h : Host) :
  let Query := GetStringField Params "query" in
  let Type_ := GetStringField Params "type" in
  let Assets :=
    fst (AssetRegistry_GetAssets (if IsEmpty Type_ then None else Some Type_) h) in
  let Found := firstn 100 (map AssetSummary (List.filter (AssetMatches Query) Assets)) in
  FAssetCommands.Search Params h
  = (CreateSuccessResponse (Some (Listing "assets" Found)),
     snd (AssetRegistry_GetAssets (if IsEmpty Type_ then None else Some Type_) h))
  /\ (length Found <= 100)%nat
  /\ ((length (List.filter (AssetMatches Query) Assets) <= 100)%nat ->
      Found = map AssetSummary (List.filter (AssetMatches Query) Assets)).
Proof.
  intros Query Type_ Assets Found. subst Found Assets.
  split; [|split].
  - unfold FAssetCommands.Search, bind, ret. fold Query Type_.
    replace (if negb (IsEmpty Type_) then Some Type_ else None)
      with (if IsEmpty Type_ then None else Some Type_)
      by (destruct (IsEmpty Type_); reflexivity).
    destruct (AssetRegistry_GetAssets _ h) as [Assets h']. cbn [fst snd].
    rewrite SearchLoop_take by (cbn; lia). reflexivity.
  - apply firstn_le_length.
  - intros HFew. apply firstn_all2. rewrite length_map. exact HFew.
Qed.

(** ** Lifecycle of the bridge *)

Ltac setters_unfold :=
  unfold set_ServerThread, set_ServerRunnable, set_PortFilePath, set_Port,
    set_ListenerSocket, set_bIsRunning, set_Files, set_Sockets, IsRunning, GetPort.

Ltac lifecycle_fields :=
  cbn [negb fst snd bIsRunning ListenerSocket ServerThread ServerRunnable Port
       PortFilePath ProjectDir Files Sockets NextSocket Threads NextThread BindCalls].

(** [Initialize] on a bridge that is not running, one case for each way
    the platform can answer. *)
Ltac initialize_cases Answers HStopped :=
  unfold Initialize, ListenerSocket_Release, CreateSocket, Socket_Bind, Socket_Listen,
    WritePortFile, FRunnableThread_Create;
  rewrite HStopped;
  destruct (SocketSubsystem_Get Answers), (CreateSocket_ok Answers), (Bind_ok Answers),
    (Listen_ok Answers), (CreateThread_ok Answers);
  cbn [negb fst snd];
  try (rewrite Shutdown_not_running by exact HStopped);
  setters_unfold; lifecycle_fields;
  repeat match goal with
    | |- context [FPaths_Combine [?d; "Saved"; "Config"; "GRID"; "Port.txt"]] =>
        change (FPaths_Combine [d; "Saved"; "Config"; "GRID"; "Port.txt"])
          with (DiscoveryFile d)
    end.

(** The same with the outcome of the one [Initialize] of the goal named
    first, so that it is taken apart once. *)
Ltac initialize_outcomes Answers B P HStopped :=
  let Outcome := fresh "Outcome" in
  let HOutcome := fresh "HOutcome" in
  remember (Initialize Answers B P) as Outcome eqn:HOutcome;
  revert HOutcome;
  initialize_cases Answers HStopped;
  intros ->; lifecycle_fields.

Ltac shutdown_unfold :=
  unfold Shutdown, DeletePortFile, Socket_Close, DestroySocket,
    FRunnableThread_Join, FGRIDServerRunnable_Stop; setters_unfold.

(** A start ends running exactly when every platform call succeeded. *)
Lemma Initialize_running_iff (Answers : FPlatformAnswers) (B : FGRIDBridge) (P : FPlatform) :
  bIsRunning B = false ->
  bIsRunning (fst (Initialize Answers B P)) = AllSucceed Answers.
Proof.
  intros HStopped. unfold AllSucceed.
  initialize_cases Answers HStopped; try reflexivity; exact HStopped.
Qed.

Lemma Initialize_ProjectDir (Answers : FPlatformAnswers) (B : FGRIDBridge) (P : FPlatform) :
  ProjectDir (snd (Initialize Answers B P)) = ProjectDir P.
Proof.
  destruct (bIsRunning B) eqn:HRunning.
  { rewrite Initialize_running by exact HRunning. reflexivity. }
  initialize_cases Answers HRunning; reflexivity.
Qed.

Lemma AllSucceed_true (Answers : FPlatformAnswers) :
  AllSucceed Answers = true ->
  SocketSubsystem_Get Answers = true /\ CreateSocket_ok Answers = true
  /\ Bind_ok Answers = true /\ Listen_ok Answers = true /\ CreateThread_ok Answers = true.
Proof.
  unfold AllSucceed. intros H.
  repeat (apply andb_prop in H; destruct H as [H ?]). repeat split; assumption.
Qed.

Lemma Initialize_ServingOn (Answers : FPlatformAnswers) (B : FGRIDBridge) (P : FPlatform) :
  bIsRunning B = false -> AllSucceed Answers = true ->
  ServingOn (BoundAddr_GetPort Answers) (Initialize Answers B P).
Proof.
  intros HStopped HAll. apply AllSucceed_true in HAll.
  destruct HAll as (? & ? & ? & ? & ?).
  rewrite Initialize_started by assumption.
  split; [reflexivity|]. split; [reflexivity|].
  cbn [fst snd Files ProjectDir]. apply lookup_insert_eq.
Qed.

Lemma FreshHandles_FreshPlatform (Dir : string) : FreshHandles (FreshPlatform Dir).
Proof.
  split.
  - intros Socket [State HSocket]. cbn [FreshPlatform Sockets] in HSocket.
    rewrite lookup_empty in HSocket. discriminate.
  - intros Thread HThread. cbn [FreshPlatform Threads] in HThread.
    apply not_elem_of_empty in HThread. contradiction.
Qed.

(** What is left of a socket when the bridge lets go of its own. *)
Lemma ReleasedSockets_lookup (B : FGRIDBridge) (P : FPlatform) (Socket : nat) :
  ReleasedSockets B P !! Socket
  = if bool_decide (ListenerSocket B = Some Socket) && negb (HeldByRunnable B Socket)
    then None else Sockets P !! Socket.
Proof.
  unfold ReleasedSockets. destruct (ListenerSocket B) as [Own|].
  - destruct (decide (Own = Socket)) as [->|Hne].
    + rewrite bool_decide_eq_true_2 by reflexivity.
      destruct (HeldByRunnable B Socket); cbn [andb negb]; [reflexivity|].
      apply lookup_delete_eq.
    + rewrite bool_decide_eq_false_2 by congruence. cbn [andb].
      destruct (HeldByRunnable B Own); [reflexivity|].
      apply lookup_delete_ne. exact Hne.
  - rewrite bool_decide_eq_false_2 by discriminate. reflexivity.
Qed.

(** The release of the earlier socket and the creation of the new one
    do not bear on each other: with the earlier socket not the one
    handed out next, either order gives the same. *)
Lemma ListenerSocket_Release_CreateSocket (Answers : FPlatformAnswers) (B : FGRIDBridge)
  (P : FPlatform) :
  ListenerSocket B <> Some (NextSocket P) ->
  CreateSocket Answers (ListenerSocket_Release B P)
  = (fst (CreateSocket Answers P),
     ListenerSocket_Release B (snd (CreateSocket Answers P))).
Proof.
  intros HOther. unfold CreateSocket, ListenerSocket_Release, ReleasedSockets, set_Sockets.
  destruct (CreateSocket_ok Answers); cbn [fst snd ProjectDir Files Sockets NextSocket
                                             Threads NextThread BindCalls];
    [|reflexivity].
  f_equal. f_equal.
  destruct (ListenerSocket B) as [Own|]; [|reflexivity].
  destruct (HeldByRunnable B Own); [reflexivity|].
  symmetry. apply delete_insert_ne. congruence.
Qed.

(** X12. [Initialize] touches nothing but what it creates and the
    socket the bridge held: whatever the platform answers and whether
    or not the bridge was running, every socket but the one handed out
    next and the bridge's own, every file but the discovery file of the
    project, and every thread but the one handed out next are as
    before.  The socket the bridge held is destroyed when the start gets
    as far as asking for a new one, unless the runnable the bridge
    points to holds it as well; before that point it is as before.
    [Initialize] binds at most once and takes at most one socket handle
    and one thread handle. *)
Theorem Initialize_touches_only_new_handles_and_the_discovery_file
  (Answers : FPlatformAnswers) (B : FGRIDBridge) (P : FPlatform) :
  let P' := snd (Initialize Answers B P) in
  ProjectDir P' = ProjectDir P
  /\ (forall Socket,
        Socket <> NextSocket P -> ListenerSocket B <> Some Socket ->
        Sockets P' !! Socket = Sockets P !! Socket)
  /\ (forall Socket,
        Socket <> NextSocket P -> ListenerSocket B = Some Socket ->
        Sockets P' !! Socket
        = if bIsRunning B || negb (SocketSubsystem_Get Answers) || HeldByRunnable B Socket
          then Sockets P !! Socket else None)
  /\ (forall Path, Path <> DiscoveryFile (ProjectDir P) ->
                   Files P' !! Path = Files P !! Path)
  /\ (forall Thread, Thread <> NextThread P -> Thread ∈ Threads P' <-> Thread ∈ Threads P)
  /\ (NextSocket P <= NextSocket P' <= S (NextSocket P))%nat
  /\ (NextThread P <= NextThread P' <= S (NextThread P))%nat
  /\ (BindCalls P <= BindCalls P' <= S (BindCalls P))%nat.
Proof.
  intros P'. subst P'.
  destruct (bIsRunning B) eqn:HRunning.
  { rewrite Initialize_running by exact HRunning. cbn [snd orb].
    repeat split; intros; try reflexivity; try lia; assumption. }
  cbn [orb].
  initialize_outcomes Answers B P HRunning.
  all: split; [reflexivity|].
  all: split;
    [ intros Socket HNext HOther;
      repeat (rewrite lookup_insert_ne by congruence);
      rewrite ?ReleasedSockets_lookup;
      rewrite ?bool_decide_eq_false_2 by exact HOther; reflexivity |].
  all: split;
    [ intros Socket HNext HOwn;
      repeat (rewrite lookup_insert_ne by congruence);
      rewrite ?ReleasedSockets_lookup;
      rewrite ?bool_decide_eq_true_2 by exact HOwn;
      destruct (HeldByRunnable B Socket); reflexivity |].
  all: split; [intros; repeat (rewrite lookup_insert_ne by congruence); reflexivity|].
  all: split; [intros Thread HThread; rewrite ?elem_of_union, ?elem_of_singleton; tauto|].
  all: repeat split; lia.
Qed.

(** X13. [Shutdown] on a running bridge releases what the bridge holds
    and nothing else: the listener socket is closed, and destroyed when
    the socket subsystem is there; the server thread is joined; the
    file at the recorded path is deleted when that path is not empty;
    all other sockets, threads and files are as before.  The bridge is
    stopped, and [GetPort] still reports the old port. *)
Theorem Shutdown_releases_what_the_bridge_holds
  (Answers : FPlatformAnswers) (B : FGRIDBridge) (P : FPlatform) :
  bIsRunning B = true ->
  let B' := fst (Shutdown Answers B P) in
  let P' := snd (Shutdown Answers B P) in
  IsRunning B' = false
  /\ GetPort B' = GetPort B
  /\ (forall Socket,
        Sockets P' !! Socket
        = if bool_decide (ListenerSocket B = Some Socket)
          then (if SocketSubsystem_Get Answers then None else Some SocketClosed)
          else Sockets P !! Socket)
  /\ (forall Thread,
        Thread ∈ Threads P' <-> Thread ∈ Threads P /\ ServerThread B <> Some Thread)
  /\ (forall Path,
        Files P' !! Path
        = if bool_decide (Path = PortFilePath B /\ Path <> "") then None
          else Files P !! Path)
  /\ NextSocket P' = NextSocket P /\ NextThread P' = NextThread P
  /\ BindCalls P' = BindCalls P.
Proof.
  intros HRunning B' P'. subst B' P'.
  destruct B as [Listener Thread Runnable Running BPort Path].
  cbn [bIsRunning] in HRunning. subst Running.
  shutdown_unfold. unfold IsEmpty.
  destruct Runnable, Listener as [Socket|], Thread as [Thread|],
    (SocketSubsystem_Get Answers); lifecycle_fields.
  all: destruct (String.eqb_spec Path "") as [HPath|HPath]; lifecycle_fields.
  all: split; [reflexivity|]; split; [reflexivity|].
  all: split; [intros s; case_bool_decide as Hs;
               [ try discriminate Hs; try (injection Hs as <-);
                 rewrite ?lookup_delete_eq, ?lookup_insert_eq; reflexivity
               | try (rewrite lookup_delete_ne by congruence);
                 try (rewrite lookup_insert_ne by congruence); reflexivity ] |].
  all: split; [intros t; rewrite ?elem_of_difference, ?elem_of_singleton;
               split; [ intros Ht; split; [tauto | intros [= ->]; tauto]
                      | intros [Ht Hne]; try split; try exact Ht;
                        try (intros ->; apply Hne; reflexivity) ] |].
  all: split; [intros p; case_bool_decide as Hp;
               [ destruct Hp as [-> Hp]; try contradiction;
                 rewrite ?lookup_delete_eq; reflexivity
               | try (rewrite lookup_delete_ne
                        by (intros <-; apply Hp; split; [reflexivity|assumption]));
                 reflexivity ] |].
  all: repeat split; reflexivity.
Qed.

(** A bridge started on a fresh platform, then stopped. *)
Lemma Shutdown_releases_what_the_bridge_holds_witness :
  bIsRunning (fst (Initialize (Cooperative 54321) FGRIDBridge_new
                     (FreshPlatform "/Project/"))) = true
  /\ IsRunning
       (fst (Shutdown (Cooperative 54322)
               (fst (Initialize (Cooperative 54321) FGRIDBridge_new
                       (FreshPlatform "/Project/")))
               (snd (Initialize (Cooperative 54321) FGRIDBridge_new
                       (FreshPlatform "/Project/"))))) = false.
Proof.
  assert (HRunning : bIsRunning (fst (Initialize (Cooperative 54321) FGRIDBridge_new
                                        (FreshPlatform "/Project/"))) = true)
    by (vm_compute; reflexivity).
  split; [exact HRunning|].
  apply (Shutdown_releases_what_the_bridge_holds (Cooperative 54322) _ _ HRunning).
Defined.

Lemma ReleasedSockets_is_Some (B : FGRIDBridge) (P : FPlatform) (Socket : nat) :
  is_Some (ReleasedSockets B P !! Socket) -> is_Some (Sockets P !! Socket).
Proof.
  rewrite ReleasedSockets_lookup.
  destruct (_ && _); [intros [State HNone]; discriminate HNone | trivial].
Qed.

Lemma FreshHandles_socket (P : FPlatform) (Sockets' : gmap nat ESocketState) :
  FreshHandles P ->
  (forall Socket, Socket <> NextSocket P ->
                  is_Some (Sockets' !! Socket) -> is_Some (Sockets P !! Socket)) ->
  forall Socket, is_Some (Sockets' !! Socket) -> (Socket < S (NextSocket P))%nat.
Proof.
  intros [HS _] HSame Socket HSome.
  destruct (decide (Socket = NextSocket P)) as [->|Hne]; [lia|].
  apply HSame in HSome; [|exact Hne]. apply HS in HSome. lia.
Qed.

Lemma BridgeCoherent_Initialize (Dir : string) (Answers : FPlatformAnswers)
  (B : FGRIDBridge) (P : FPlatform) :
  BridgeCoherent Dir (B, P) -> BridgeCoherent Dir (Initialize Answers B P).
Proof.
  intros (HDir & HFresh & HState).
  destruct (bIsRunning B) eqn:HRunning.
  { rewrite Initialize_running by exact HRunning. unfold BridgeCoherent.
    rewrite HRunning. split; [exact HDir | split; [exact HFresh | exact HState]]. }
  destruct HState as [HThread HThreads].
  assert (HS := FreshHandles_socket P).
  destruct HFresh as [HS0 HT0].
  initialize_cases Answers HRunning.
  all: unfold BridgeCoherent;
    cbn [bIsRunning ProjectDir ServerThread Threads Files Sockets PortFilePath Port
         ListenerSocket ServerRunnable];
    try rewrite HRunning.
  all: split; [exact HDir|].
  all: split;
    [ split; cbn [Sockets NextSocket Threads NextThread];
      [ try exact HS0;
        try (intros s Hs; apply HS0, (ReleasedSockets_is_Some B), Hs);
        try (apply HS; [split; assumption|];
             intros s Hne Hs; repeat (rewrite lookup_insert_ne in Hs by congruence);
             apply (ReleasedSockets_is_Some B), Hs)
      | try exact HT0;
        try (intros t Ht; apply elem_of_union in Ht; destruct Ht as [Ht | Ht];
             [apply elem_of_singleton in Ht; lia | apply HT0 in Ht; lia]) ]
    | ].
  all: try (split; [first [assumption | reflexivity] | assumption]).
  rewrite HDir. split; [reflexivity|]. split; [apply lookup_insert_eq|].
  exists (NextSocket P), (NextThread P). split; [reflexivity|].
  split; [apply lookup_insert_eq|]. split; [reflexivity|].
  split; [|reflexivity]. rewrite HThreads. apply union_empty_r_L.
Qed.

Lemma BridgeCoherent_Shutdown (Dir : string) (Answers : FPlatformAnswers)
  (B : FGRIDBridge) (P : FPlatform) :
  BridgeCoherent Dir (B, P) -> BridgeCoherent Dir (Shutdown Answers B P).
Proof.
  intros (HDir & [HS HT] & HState).
  destruct (bIsRunning B) eqn:HRunning.
  2:{ rewrite Shutdown_not_running by exact HRunning. unfold BridgeCoherent.
      rewrite HRunning. split; [exact HDir | split; [split; assumption | exact HState]]. }
  destruct HState as (HPath & HFile & Socket & Thread & HL & HSock & HT' & HThreads & HR).
  destruct B as [BListener BThread BRunnable BRunning BPort BPath].
  cbn [bIsRunning ListenerSocket ServerThread ServerRunnable Port PortFilePath] in *.
  subst BListener BThread BRunnable BRunning BPath.
  shutdown_unfold.
  cbn [negb fst snd bIsRunning ListenerSocket ServerThread ServerRunnable Port PortFilePath].
  rewrite DiscoveryFile_nonempty.
  destruct (SocketSubsystem_Get Answers); lifecycle_fields.
  all: split; [exact HDir|]; split; [split|].
  - intros s Hs. cbn [Sockets] in Hs. apply HS.
    apply lookup_delete_is_Some in Hs. destruct Hs as [Hne Hs].
    rewrite lookup_insert_ne in Hs by congruence. exact Hs.
  - intros t Ht. cbn [Threads] in Ht. apply HT.
    apply elem_of_difference in Ht. tauto.
  - split; [reflexivity|]. rewrite HThreads. apply difference_diag_L.
  - intros s Hs. cbn [Sockets] in Hs. apply HS.
    destruct (decide (s = Socket)) as [->|Hne]; [rewrite HSock; eauto|].
    rewrite lookup_insert_ne in Hs by congruence. exact Hs.
  - intros t Ht. cbn [Threads] in Ht. apply HT.
    apply elem_of_difference in Ht. tauto.
  - split; [reflexivity|]. rewrite HThreads. apply difference_diag_L.
Qed.

(** X14. In every state the bridge reaches from its construction on a
    fresh platform, through any calls of [Initialize] and [Shutdown]
    with any answers of the platform: while it runs, the discovery file
    of the project holds the decimal text of its port, its listener
    socket is listening, its runnable has that socket and a stop counter
    of zero, and its server thread is the only thread; while it does
    not run, it holds no thread and none exists.  The handles in use are
    below the next ones. *)
Theorem reachable_bridge_states_are_coherent (Dir : string) (Calls : list FBridgeCall) :
  BridgeCoherent Dir (BridgeRun Calls (FGRIDBridge_new, FreshPlatform Dir)).
Proof.
  assert (HStart : BridgeCoherent Dir (FGRIDBridge_new, FreshPlatform Dir)).
  { split; [reflexivity|]. split; [apply FreshHandles_FreshPlatform|].
    cbn [FGRIDBridge_new bIsRunning ServerThread FreshPlatform Threads].
    split; reflexivity. }
  revert HStart. generalize (FGRIDBridge_new, FreshPlatform Dir).
  induction Calls as [|Call Calls IH]; intros [B P] HState; [exact HState|].
  cbn [BridgeRun fold_left]. apply IH.
  destruct Call as [Answers | Answers]; cbn [BridgeStep fst snd].
  - apply BridgeCoherent_Initialize, HState.
  - apply BridgeCoherent_Shutdown, HState.
Qed.




(** X16. The bridge can always be started again: after a [Shutdown], in
    whatever state it was called, and after an [Initialize] that
    failed, a later [Initialize] to which the platform answers with
    success leaves the bridge running on the newly assigned port, with
    the discovery file holding that port. *)
Theorem bridge_restarts_after_stop_or_failed_start
  (Earlier Retry : FPlatformAnswers) (B : FGRIDBridge) (P : FPlatform) :
  AllSucceed Retry = true ->
  let Stopped := Shutdown Earlier B P in
  let Failed := Initialize Earlier B P in
  ServingOn (BoundAddr_GetPort Retry) (Initialize Retry (fst Stopped) (snd Stopped))
  /\ (bIsRunning B = false -> AllSucceed Earlier = false ->
      IsRunning (fst Failed) = false
      /\ ServingOn (BoundAddr_GetPort Retry)
           (Initialize Retry (fst Failed) (snd Failed))).
Proof.
  intros HRetry Stopped Failed. subst Stopped Failed. split.
  - apply Initialize_ServingOn; [apply Shutdown_stops | exact HRetry].
  - intros HStopped HEarlier.
    assert (HFailed : bIsRunning (fst (Initialize Earlier B P)) = false).
    { rewrite Initialize_running_iff by exact HStopped. exact HEarlier. }
    split; [exact HFailed|].
    apply Initialize_ServingOn; [exact HFailed | exact HRetry].
Qed.

(** A stop on a bridge that was never started, and a start after it. *)
Lemma bridge_restarts_after_stop_or_failed_start_witness :
  AllSucceed (Cooperative 54322) = true
  /\ ServingOn 54322
       (Initialize (Cooperative 54322)
          (fst (Shutdown (ListenFails 54321) FGRIDBridge_new (FreshPlatform "/Project/")))
          (snd (Shutdown (ListenFails 54321) FGRIDBridge_new (FreshPlatform "/Project/")))).
Proof.
  split; [reflexivity|].
  exact (proj1 (bridge_restarts_after_stop_or_failed_start (ListenFails 54321)
                  (Cooperative 54322) FGRIDBridge_new (FreshPlatform "/Project/") eq_refl)).
Defined.

(** X17. A start that fails after its socket was created leaves the
    socket with the bridge: the bridge is not running and still holds
    the socket, which is open in the state the start got it to (created,
    bound or listening), and no later [Shutdown] changes anything.  The
    files are as before unless both [Bind] and [Listen] succeeded, in
    which case the discovery file has been written. *)
Theorem failed_start_keeps_its_socket_open
  (Answers : FPlatformAnswers) (B : FGRIDBridge) (P : FPlatform) :
  bIsRunning B = false ->
  SocketSubsystem_Get Answers = true -> CreateSocket_ok Answers = true ->
  AllSucceed Answers = false ->
  let B' := fst (Initialize Answers B P) in
  let P' := snd (Initialize Answers B P) in
  IsRunning B' = false
  /\ ListenerSocket B' = Some (NextSocket P)
  /\ Sockets P' !! NextSocket P
     = Some (if Bind_ok Answers
             then if Listen_ok Answers then SocketListening else SocketBound
             else SocketCreated)
  /\ (forall Later, Shutdown Later B' P' = (B', P'))
  /\ (Bind_ok Answers && Listen_ok Answers = false -> Files P' = Files P)
  /\ (Bind_ok Answers && Listen_ok Answers = true ->
      Files P' !! DiscoveryFile (ProjectDir P) = Some (FromInt (BoundAddr_GetPort Answers))).
Proof.
  intros HStopped HSub HCreate HAll B' P'. subst B' P'.
  assert (HFailed : bIsRunning (fst (Initialize Answers B P)) = false).
  { rewrite Initialize_running_iff by exact HStopped. exact HAll. }
  split; [exact HFailed|].
  assert (HLater : forall Later,
             Shutdown Later (fst (Initialize Answers B P)) (snd (Initialize Answers B P))
             = (fst (Initialize Answers B P), snd (Initialize Answers B P))).
  { intros Later. apply Shutdown_not_running, HFailed. }
  split; [|split; [|split; [intros Later; rewrite HLater; reflexivity|]]].
  all: clear HFailed HLater; unfold AllSucceed in HAll;
    initialize_cases Answers HStopped;
    try discriminate HSub; try discriminate HCreate; try discriminate HAll.
  all: try reflexivity.
  all: try apply lookup_insert_eq.
  all: split; intros; try discriminate; try reflexivity; try apply lookup_insert_eq.
Qed.

(** A start in which [Listen] fails: the socket stays bound. *)
Lemma failed_start_keeps_its_socket_open_witness :
  bIsRunning FGRIDBridge_new = false
  /\ SocketSubsystem_Get (ListenFails 54321) = true
  /\ CreateSocket_ok (ListenFails 54321) = true
  /\ AllSucceed (ListenFails 54321) = false
  /\ IsRunning (fst (Initialize (ListenFails 54321) FGRIDBridge_new
                       (FreshPlatform "/Project/"))) = false.
Proof.
  split; [reflexivity|]. split; [reflexivity|]. split; [reflexivity|].
  split; [reflexivity|].
  apply (failed_start_keeps_its_socket_open (ListenFails 54321) FGRIDBridge_new
           (FreshPlatform "/Project/") eq_refl eq_refl eq_refl eq_refl).
Defined.

(** ** The editor module *)

Ltac module_fields :=
  cbn [fst snd negb GRIDEditorModule.Bridge GRIDEditorModule.bIsRunning
       GRIDEditorModule.ServerThread BridgeIsRunning].

(** X18. After [StartupModule] the module's own flag says running
    whatever became of the bridge: the bridge runs exactly when every
    platform call of its start succeeded.  The flag makes a further
    [StartServer] return at once, so a failed start is not retried. *)
Theorem StartupModule_reports_running_whatever_the_bridge_does
  (Answers Again : FPlatformAnswers) (P : FPlatform) :
  let M := fst (GRIDEditorModule.StartupModule Answers P) in
  let P' := snd (GRIDEditorModule.StartupModule Answers P) in
  GRIDEditorModule.bIsRunning M = true
  /\ BridgeIsRunning M = AllSucceed Answers
  /\ GRIDEditorModule.StartServer Again M P' = (M, P').
Proof.
  intros M P'. subst M P'.
  unfold GRIDEditorModule.StartupModule, GRIDEditorModule.StartServer. module_fields.
  pose proof (Initialize_running_iff Answers FGRIDBridge_new P eq_refl) as HRun.
  destruct (Initialize Answers FGRIDBridge_new P) as [B P'].
  module_fields. cbn [fst] in HRun.
  split; [reflexivity|]. split; [exact HRun|]. reflexivity.
Qed.

(** X19. After a start that failed, [StopServer] changes nothing on the
    platform and clears the module's flag, and a [StartServer] to which
    the platform then answers with success starts the bridge and
    publishes the new port. *)
Theorem StopServer_then_StartServer_retries_a_failed_start
  (Answers Stop Retry : FPlatformAnswers) (P : FPlatform) :
  AllSucceed Answers = false ->
  AllSucceed Retry = true ->
  let Started := GRIDEditorModule.StartupModule Answers P in
  let Stopped := GRIDEditorModule.StopServer Stop (fst Started) (snd Started) in
  let Restarted := GRIDEditorModule.StartServer Retry (fst Stopped) (snd Stopped) in
  snd Stopped = snd Started
  /\ GRIDEditorModule.bIsRunning (fst Stopped) = false
  /\ GRIDEditorModule.bIsRunning (fst Restarted) = true
  /\ BridgeIsRunning (fst Restarted) = true
  /\ Files (snd Restarted) !! DiscoveryFile (ProjectDir P)
     = Some (FromInt (BoundAddr_GetPort Retry)).
Proof.
  intros HFail HRetry Started Stopped Restarted. subst Restarted Stopped Started.
  unfold GRIDEditorModule.StartupModule, GRIDEditorModule.StartServer,
    GRIDEditorModule.StopServer. module_fields.
  pose proof (Initialize_running_iff Answers FGRIDBridge_new P eq_refl) as HRun.
  pose proof (Initialize_ProjectDir Answers FGRIDBridge_new P) as HDir.
  rewrite HFail in HRun.
  destruct (Initialize Answers FGRIDBridge_new P) as [B P'].
  module_fields. cbn [fst snd] in HRun, HDir.
  rewrite Shutdown_not_running by exact HRun. module_fields.
  destruct (Initialize_ServingOn Retry B P' HRun HRetry) as (HOn & _ & HFile).
  pose proof (Initialize_ProjectDir Retry B P') as HDir2.
  destruct (Initialize Retry B P') as [B2 P2].
  module_fields. cbn [fst snd] in HOn, HFile, HDir2.
  repeat split; try reflexivity; try assumption.
  rewrite <- HDir, <- HDir2. exact HFile.
Qed.

(** A start without a server thread, a stop, and a start that succeeds. *)
Lemma StopServer_then_StartServer_retries_a_failed_start_witness :
  AllSucceed (ThreadCreationFails 54321) = false
  /\ AllSucceed (Cooperative 54322) = true
  /\ snd (GRIDEditorModule.StopServer (Cooperative 0)
            (fst (GRIDEditorModule.StartupModule (ThreadCreationFails 54321)
                    (FreshPlatform "/Project/")))
            (snd (GRIDEditorModule.StartupModule (ThreadCreationFails 54321)
                    (FreshPlatform "/Project/"))))
     = snd (GRIDEditorModule.StartupModule (ThreadCreationFails 54321)
              (FreshPlatform "/Project/")).
Proof.
  split; [reflexivity|]. split; [reflexivity|].
  apply (StopServer_then_StartServer_retries_a_failed_start (ThreadCreationFails 54321)
           (Cooperative 0) (Cooperative 54322) (FreshPlatform "/Project/")
           eq_refl eq_refl).
Defined.



(** What becomes of the platform when a bridge whose first start
    failed lets go of its socket. *)
Lemma Release_after_failed_first_start (Start : FPlatformAnswers) (P : FPlatform) :
  AllSucceed Start = false ->
  let Failed := Initialize Start FGRIDBridge_new P in
  let Ended := ListenerSocket_Release (fst Failed) (snd Failed) in
  Ended = set_Sockets (Sockets Ended) (snd Failed)
  /\ (SocketSubsystem_Get Start && CreateSocket_ok Start = false -> Ended = P)
  /\ (SocketSubsystem_Get Start && CreateSocket_ok Start = true ->
      Bind_ok Start && Listen_ok Start = false ->
      Sockets (snd Failed) !! NextSocket P
      = Some (if Bind_ok Start then SocketBound else SocketCreated)
      /\ Sockets Ended = delete (NextSocket P) (Sockets P))
  /\ (SocketSubsystem_Get Start && CreateSocket_ok Start = true ->
      Bind_ok Start && Listen_ok Start = true ->
      Ended = snd Failed
      /\ Sockets Ended !! NextSocket P = Some SocketListening
      /\ Files Ended !! DiscoveryFile (ProjectDir P)
         = Some (FromInt (BoundAddr_GetPort Start))).
Proof.
  intros HStart Failed Ended. subst Ended Failed.
  assert (HNew : bIsRunning FGRIDBridge_new = false) by reflexivity.
  unfold AllSucceed in HStart.
  initialize_outcomes Start FGRIDBridge_new P HNew; try discriminate HStart.
  all: unfold ListenerSocket_Release, ReleasedSockets, HeldByRunnable, set_Sockets;
    lifecycle_fields;
    cbn [FGRIDBridge_new ListenerSocket ServerRunnable Runnable_ListenerSocket andb];
    rewrite ?Nat.eqb_refl.
  all: split; [reflexivity|].
  all: split; [intros HNo; first [discriminate HNo | destruct P; reflexivity]|].
  all: split;
    [ intros HYes HNo;
      first [ discriminate HYes | discriminate HNo
            | split; [rewrite ?lookup_insert_eq; reflexivity|];
              cbn [Sockets]; rewrite ?delete_insert_eq; reflexivity ] |].
  all: intros HYes HBoth;
    first [ discriminate HYes | discriminate HBoth
          | split; [reflexivity|]; split; apply lookup_insert_eq ].
Qed.

(** X21. After a start that failed, [ShutdownModule] stops nothing:
    both the [Shutdown] it calls and the one of the bridge's destructor
    return at once, so files, threads and handles stay as the failed
    start left them, while the module lets go of the bridge and its
    flag goes down.  The deleted bridge lets go of its socket.  When
    the start failed at [Bind] or [Listen], no runnable was made for
    the socket and it is destroyed; when only the thread could not be
    created, the runnable made for the socket keeps it: the socket stays
    listening and the discovery file stays on disk. *)
Theorem ShutdownModule_after_failed_start_releases_the_unshared_socket
  (Start Stop : FPlatformAnswers) (P : FPlatform) :
  AllSucceed Start = false ->
  let Started := GRIDEditorModule.StartupModule Start P in
  let Ended := snd (GRIDEditorModule.ShutdownModule Stop (fst Started) (snd Started)) in
  let Failed := snd (Initialize Start FGRIDBridge_new P) in
  GRIDEditorModule.bIsRunning (fst Started) = true
  /\ BridgeIsRunning (fst Started) = false
  /\ snd Started = Failed
  /\ GRIDEditorModule.Bridge
       (fst (GRIDEditorModule.ShutdownModule Stop (fst Started) (snd Started))) = None
  /\ GRIDEditorModule.bIsRunning
       (fst (GRIDEditorModule.ShutdownModule Stop (fst Started) (snd Started))) = false
  /\ Ended = set_Sockets (Sockets Ended) Failed
  /\ (SocketSubsystem_Get Start && CreateSocket_ok Start = false -> Ended = P)
  /\ (SocketSubsystem_Get Start && CreateSocket_ok Start = true ->
      Bind_ok Start && Listen_ok Start = false ->
      Sockets Failed !! NextSocket P
      = Some (if Bind_ok Start then SocketBound else SocketCreated)
      /\ Sockets Ended = delete (NextSocket P) (Sockets P))
  /\ (SocketSubsystem_Get Start && CreateSocket_ok Start = true ->
      Bind_ok Start && Listen_ok Start = true ->
      Ended = Failed
      /\ Sockets Ended !! NextSocket P = Some SocketListening
      /\ Files Ended !! DiscoveryFile (ProjectDir P)
         = Some (FromInt (BoundAddr_GetPort Start))).
Proof.
  intros HStart Started Ended Failed. subst Ended Started Failed.
  pose proof (Release_after_failed_first_start Start P HStart) as HRelease.
  pose proof (Initialize_running_iff Start FGRIDBridge_new P eq_refl) as HRun.
  rewrite HStart in HRun. cbv zeta in HRelease.
  unfold GRIDEditorModule.StartupModule, GRIDEditorModule.StartServer,
    GRIDEditorModule.ShutdownModule, GRIDEditorModule.StopServer,
    GRIDEditorModule.delete_Bridge. module_fields.
  destruct (Initialize Start FGRIDBridge_new P) as [B P'].
  module_fields. cbn [fst snd] in HRun, HRelease.
  rewrite Shutdown_not_running by exact HRun. module_fields.
  rewrite Shutdown_not_running by exact HRun. module_fields.
  split; [reflexivity|]. split; [exact HRun|]. split; [reflexivity|].
  split; [reflexivity|]. split; [reflexivity|]. exact HRelease.
Qed.

(** The module started on a platform where [Listen] fails: the socket
    the start created and bound is gone after [ShutdownModule]. *)
Lemma ShutdownModule_after_failed_start_releases_the_unshared_socket_witness :
  AllSucceed (ListenFails 54321) = false
  /\ Sockets (snd (Initialize (ListenFails 54321) FGRIDBridge_new
                     (FreshPlatform "/Project/")))
       !! 0%nat = Some SocketBound
  /\ Sockets (snd (GRIDEditorModule.ShutdownModule (Cooperative 0)
                     (fst (GRIDEditorModule.StartupModule (ListenFails 54321)
                             (FreshPlatform "/Project/")))
                     (snd (GRIDEditorModule.StartupModule (ListenFails 54321)
                             (FreshPlatform "/Project/")))))
     = delete 0%nat ∅.
Proof.
  split; [reflexivity|].
  exact (proj1 (proj2 (proj2 (proj2 (proj2 (proj2 (proj2 (proj2
           (ShutdownModule_after_failed_start_releases_the_unshared_socket
              (ListenFails 54321) (Cooperative 0) (FreshPlatform "/Project/") eq_refl))))))))
           eq_refl eq_refl).
Defined.

(** ** The tool registry *)

Section ToolRegistryFacts.
Import ToolRegistry.
Context {K : FStringKeyFuncs}.

Lemma IsValidIndex_spec (R : FGRIDToolRegistry) (Index : Z) :
  IsValidIndex R Index = true <-> 0 <= Index < Z.of_nat (length (Tools R)).
Proof. unfold IsValidIndex. rewrite andb_true_iff, Z.leb_le, Z.ltb_lt. reflexivity. Qed.

Lemma FindTool_RegisterTool (Registration : FGRIDToolRegistration)
  (R : FGRIDToolRegistry) :
  FindTool (RegisterTool Registration R) (Reg_Name Registration)
  = Some (MetadataOf Registration).
Proof.
  unfold FindTool. cbn [RegisterTool ToolNameToIndex]. rewrite lookup_insert_eq.
  assert (HValid : IsValidIndex (RegisterTool Registration R)
                     (Z.of_nat (length (Tools R))) = true).
  { apply IsValidIndex_spec. cbn [RegisterTool Tools]. rewrite length_app.
    cbn [length]. lia. }
  rewrite HValid. cbn [RegisterTool Tools]. rewrite Nat2Z.id.
  apply list_lookup_middle. reflexivity.
Qed.

Lemma ExecuteTool_RegisterTool (Registration : FGRIDToolRegistration)
  (R : FGRIDToolRegistry) (Params : gmap string string) :
  ExecuteTool (RegisterTool Registration R) (Reg_Name Registration) Params
  = if IsToolEnabled R (Reg_Name Registration)
    then ExecuteFunc Registration Params
    else TOOL_DISABLED_Response.
Proof.
  unfold ExecuteTool, IsToolEnabled, DisabledTools_Contains.
  cbn [RegisterTool ToolExecuteFuncs DisabledTools]. rewrite lookup_insert_eq.
  destruct (bool_decide (KeyOf (Reg_Name Registration) ∈ DisabledTools R)); reflexivity.
Qed.

Lemma RegistryConsistent_new : RegistryConsistent FGRIDToolRegistry_new.
Proof.
  split.
  - intros Key Index H. cbn in H. rewrite lookup_empty in H. discriminate.
  - intros Key [f H]. cbn in H. rewrite lookup_empty in H. discriminate.
Qed.

Lemma RegistryConsistent_RegisterTool (Registration : FGRIDToolRegistration)
  (R : FGRIDToolRegistry) :
  RegistryConsistent R -> RegistryConsistent (RegisterTool Registration R).
Proof.
  intros [HIndex HFunc]. split.
  - intros Key Index HLookup. cbn [RegisterTool ToolNameToIndex] in HLookup.
    rewrite IsValidIndex_spec. cbn [RegisterTool Tools ToolExecuteFuncs].
    rewrite length_app. cbn [length].
    destruct (decide (KeyOf (Reg_Name Registration) = Key)) as [<-|Hne].
    + rewrite lookup_insert_eq in HLookup. injection HLookup as <-.
      split; [lia|]. split; [rewrite lookup_insert_eq; eauto|].
      exists (MetadataOf Registration). split; [|reflexivity].
      rewrite Nat2Z.id. apply list_lookup_middle. reflexivity.
    + rewrite lookup_insert_ne in HLookup by exact Hne.
      destruct (HIndex Key Index HLookup) as (HValid & HSome & Tool & HTool & HKey).
      apply IsValidIndex_spec in HValid.
      split; [lia|]. split; [rewrite lookup_insert_ne by exact Hne; exact HSome|].
      exists Tool. split; [|exact HKey].
      rewrite lookup_app_l by lia. exact HTool.
  - intros Key HSome. cbn [RegisterTool ToolNameToIndex ToolExecuteFuncs] in *.
    destruct (decide (KeyOf (Reg_Name Registration) = Key)) as [<-|Hne].
    + rewrite lookup_insert_eq. eauto.
    + rewrite lookup_insert_ne in HSome by exact Hne.
      rewrite lookup_insert_ne by exact Hne. apply HFunc, HSome.
Qed.

Lemma RegistryConsistent_RegistryRun (Calls : list FRegistryCall) :
  forall R, RegistryConsistent R -> RegistryConsistent (RegistryRun Calls R).
Proof.
  induction Calls as [|Call Calls IH]; intros R HR; [exact HR|].
  cbn [RegistryRun fold_left]. apply IH.
  destruct Call as [| |Registration|ToolName bEnabled]; cbn [RegistryStep].
  - unfold Initialize. destruct (bInitialized R); exact HR.
  - split.
    + intros Key Index H. cbn in H. rewrite lookup_empty in H. discriminate.
    + intros Key [f H]. cbn in H. rewrite lookup_empty in H. discriminate.
  - apply RegistryConsistent_RegisterTool, HR.
  - exact HR.
Qed.

(** X22. A tool that has just been registered is found under its name
    with the metadata of the registration (no examples), is the last of
    the listed tools, and executing it calls the registered function on
    the parameters, unless the name was disabled before, in which case
    the answer is [TOOL_DISABLED]. *)
Theorem registered_tool_is_found_and_executed
  (Registration : FGRIDToolRegistration) (R : FGRIDToolRegistry)
  (Params : gmap string string) :
  let R' := RegisterTool Registration R in
  FindTool R' (Reg_Name Registration) = Some (MetadataOf Registration)
  /\ GetAllTools R' = (GetAllTools R ++ [MetadataOf Registration])%list
  /\ IsToolEnabled R' (Reg_Name Registration) = IsToolEnabled R (Reg_Name Registration)
  /\ ExecuteTool R' (Reg_Name Registration) Params
     = if IsToolEnabled R (Reg_Name Registration)
       then ExecuteFunc Registration Params
       else TOOL_DISABLED_Response.
Proof.
  intros R'. subst R'.
  split; [apply FindTool_RegisterTool|]. split; [reflexivity|]. split; [reflexivity|].
  apply ExecuteTool_RegisterTool.
Qed.

(** X23. In every registry reached from the constructed one by calls
    of [Initialize], [Shutdown], [RegisterTool] and [SetToolEnabled],
    finding and executing agree: a name [FindTool] does not find gets
    [UNKNOWN_TOOL] from [ExecuteTool]; a name it finds gets a listed
    tool filed under the same key, and [ExecuteTool] calls the function
    registered for it, or answers [TOOL_DISABLED] when the tool is
    disabled. *)
Theorem reachable_registry_lookups_agree
  (Calls : list FRegistryCall) (ToolName : string) (Params : gmap string string) :
  let R := RegistryRun Calls FGRIDToolRegistry_new in
  match FindTool R ToolName with
  | None => ExecuteTool R ToolName Params = UNKNOWN_TOOL_Response
  | Some Tool =>
      KeyOf (Name Tool) = KeyOf ToolName
      /\ In Tool (GetAllTools R)
      /\ exists Func,
           ToolExecuteFuncs R !! KeyOf ToolName = Some Func
           /\ ExecuteTool R ToolName Params
              = if IsToolEnabled R ToolName then Func Params else TOOL_DISABLED_Response
  end.
Proof.
  intros R.
  assert (HR : RegistryConsistent R)
    by apply RegistryConsistent_RegistryRun, RegistryConsistent_new.
  destruct HR as [HIndex HFunc].
  unfold FindTool, ExecuteTool, IsToolEnabled.
  destruct (ToolNameToIndex R !! KeyOf ToolName) as [Index|] eqn:HLookup.
  - destruct (HIndex _ _ HLookup) as (HValid & [Func HSome] & Tool & HTool & HKey).
    rewrite HValid, HTool, HSome.
    split; [exact HKey|]. split.
    + apply list_elem_of_In. eapply list_elem_of_lookup_2. exact HTool.
    + exists Func. split; [reflexivity|].
      destruct (DisabledTools_Contains R ToolName); reflexivity.
  - destruct (ToolExecuteFuncs R !! KeyOf ToolName) as [Func|] eqn:HSome; [|reflexivity].
    destruct (HFunc (KeyOf ToolName)) as [Index HIdx]; [eauto|].
    rewrite HLookup in HIdx. discriminate.
Qed.

(** X24. Registering a tool leaves the tools filed under other keys
    alone: in every reachable registry a name with another key is found,
    executed and enabled after the registration as before it. *)
Theorem RegisterTool_leaves_other_tools
  (Calls : list FRegistryCall) (Registration : FGRIDToolRegistration)
  (Other : string) (Params : gmap string string) :
  KeyOf Other <> KeyOf (Reg_Name Registration) ->
  let R := RegistryRun Calls FGRIDToolRegistry_new in
  FindTool (RegisterTool Registration R) Other = FindTool R Other
  /\ ExecuteTool (RegisterTool Registration R) Other Params = ExecuteTool R Other Params
  /\ IsToolEnabled (RegisterTool Registration R) Other = IsToolEnabled R Other.
Proof.
  intros Hne R.
  assert (HR : RegistryConsistent R)
    by apply RegistryConsistent_RegistryRun, RegistryConsistent_new.
  destruct HR as [HIndex _].
  split; [|split; [|reflexivity]].
  - unfold FindTool. cbn [RegisterTool ToolNameToIndex].
    rewrite lookup_insert_ne by congruence.
    destruct (ToolNameToIndex R !! KeyOf Other) as [Index|] eqn:HLookup; [|reflexivity].
    destruct (HIndex _ _ HLookup) as (HValid & _).
    rewrite HValid. apply IsValidIndex_spec in HValid.
    assert (HValid' : IsValidIndex (RegisterTool Registration R) Index = true).
    { apply IsValidIndex_spec. cbn [RegisterTool Tools]. rewrite length_app. lia. }
    rewrite HValid'. cbn [RegisterTool Tools]. apply lookup_app_l. lia.
  - unfold ExecuteTool, DisabledTools_Contains.
    cbn [RegisterTool ToolExecuteFuncs DisabledTools].
    rewrite lookup_insert_ne by congruence. reflexivity.
Qed.

(** X25. Registering a second tool under a name with the key of an
    earlier one shadows the earlier: both stay in the list of all tools,
    while [FindTool] under the earlier name gives the metadata of the
    second and [ExecuteTool] calls the function of the second. *)
Theorem second_registration_shadows_the_first
  (First Second : FGRIDToolRegistration) (R : FGRIDToolRegistry)
  (Params : gmap string string) :
  KeyOf (Reg_Name First) = KeyOf (Reg_Name Second) ->
  let R' := RegisterTool Second (RegisterTool First R) in
  GetAllTools R' = (GetAllTools R ++ [MetadataOf First; MetadataOf Second])%list
  /\ FindTool R' (Reg_Name First) = Some (MetadataOf Second)
  /\ ExecuteTool R' (Reg_Name First) Params
     = if IsToolEnabled R (Reg_Name First) then ExecuteFunc Second Params
       else TOOL_DISABLED_Response.
Proof.
  intros HSame R'. subst R'.
  pose proof (FindTool_RegisterTool Second (RegisterTool First R)) as HFind.
  pose proof (ExecuteTool_RegisterTool Second (RegisterTool First R) Params) as HExec.
  split; [|split].
  - unfold GetAllTools. cbn [RegisterTool Tools]. rewrite <- app_assoc. reflexivity.
  - unfold FindTool in *. rewrite HSame. exact HFind.
  - unfold ExecuteTool, IsToolEnabled, DisabledTools_Contains in *. rewrite HSame.
    exact HExec.
Qed.

(** X26. [Shutdown] of the registry forgets every tool and keeps the
    set of disabled names: nothing is listed or found, every execution
    answers [UNKNOWN_TOOL], and a tool disabled before the [Shutdown]
    and registered again after it is still disabled. *)
Theorem Shutdown_forgets_tools_but_not_the_disabled_set
  (R : FGRIDToolRegistry) (Registration : FGRIDToolRegistration)
  (ToolName : string) (Params : gmap string string) :
  GetAllTools (Shutdown R) = []
  /\ FindTool (Shutdown R) ToolName = None
  /\ ExecuteTool (Shutdown R) ToolName Params = UNKNOWN_TOOL_Response
  /\ IsToolEnabled (Shutdown R) ToolName = IsToolEnabled R ToolName
  /\ ExecuteTool
       (RegisterTool Registration
          (Shutdown (SetToolEnabled (Reg_Name Registration) false R)))
       (Reg_Name Registration) Params
     = TOOL_DISABLED_Response.
Proof.
  split; [reflexivity|]. split; [reflexivity|]. split; [reflexivity|].
  split; [reflexivity|].
  unfold ExecuteTool, DisabledTools_Contains.
  cbn [RegisterTool Shutdown SetToolEnabled ToolExecuteFuncs DisabledTools].
  rewrite lookup_insert_eq.
  rewrite bool_decide_eq_true_2; [reflexivity|].
  apply elem_of_union. left. apply elem_of_singleton. reflexivity.
Qed.

Lemma GetEnabledTools_loop_filter (R : FGRIDToolRegistry)
  (Rest : list FGRIDToolMetadata) :
  forall Enabled,
    GetEnabledTools_loop R Rest Enabled
    = (Enabled ++ List.filter (fun Tool => IsToolEnabled R (Name Tool)) Rest)%list.
Proof.
  induction Rest as [|Tool Rest IH]; intros Enabled;
    cbn [GetEnabledTools_loop List.filter].
  - rewrite app_nil_r. reflexivity.
  - unfold IsToolEnabled at 1.
    destruct (negb (DisabledTools_Contains R (Name Tool))); rewrite IH.
    + rewrite <- app_assoc. reflexivity.
    + reflexivity.
Qed.

Lemma GetToolsByCategory_loop_filter {E : Engine} (Wanted : string)
  (Rest : list FGRIDToolMetadata) :
  forall Result,
    GetToolsByCategory_loop Wanted Rest Result
    = (Result ++ List.filter (fun Tool => FString_Equals (Category Tool) Wanted) Rest)%list.
Proof.
  induction Rest as [|Tool Rest IH]; intros Result;
    cbn [GetToolsByCategory_loop List.filter].
  - rewrite app_nil_r. reflexivity.
  - destruct (FString_Equals (Category Tool) Wanted); rewrite IH.
    + rewrite <- app_assoc. reflexivity.
    + reflexivity.
Qed.

(** X27. The two listings select from the registered tools and keep the
    order of registration: [GetEnabledTools] gives the tools whose name
    is not disabled, all of them when nothing is disabled, and
    [GetToolsByCategory] gives the tools whose category the engine's
    string comparison takes for the wanted one. *)
Theorem tool_listings_select_in_registration_order {E : Engine}
  (R : FGRIDToolRegistry) (Wanted : string) :
  GetEnabledTools R
  = List.filter (fun Tool => IsToolEnabled R (Name Tool)) (GetAllTools R)
  /\ GetToolsByCategory R Wanted
     = List.filter (fun Tool => FString_Equals (Category Tool) Wanted) (GetAllTools R)
  /\ (forall Tool, In Tool (GetEnabledTools R) <->
                   In Tool (GetAllTools R) /\ IsToolEnabled R (Name Tool) = true)
  /\ (DisabledTools R = ∅ -> GetEnabledTools R = GetAllTools R).
Proof.
  assert (HEnabled : GetEnabledTools R
            = List.filter (fun Tool => IsToolEnabled R (Name Tool)) (GetAllTools R)).
  { unfold GetEnabledTools. rewrite GetEnabledTools_loop_filter. reflexivity. }
  split; [exact HEnabled|]. split; [|split].
  - unfold GetToolsByCategory. rewrite GetToolsByCategory_loop_filter. reflexivity.
  - intros Tool. rewrite HEnabled. apply List.filter_In.
  - intros HNone. rewrite HEnabled. unfold GetAllTools.
    induction (Tools R) as [|Tool Rest IH]; [reflexivity|].
    cbn [List.filter]. unfold IsToolEnabled at 1, DisabledTools_Contains.
    rewrite HNone. rewrite bool_decide_eq_false_2 by apply not_elem_of_empty.
    cbn [negb]. rewrite IH. reflexivity.
Qed.

(** X28. [SetToolEnabled] switches the tools filed under one key and no
    other: afterwards a name with that key is enabled exactly when the
    flag says so, every other name is enabled as before, and the
    registered tools are untouched.  Executing the name then answers
    [UNKNOWN_TOOL] when no function is registered for it, else
    [TOOL_DISABLED] without calling the function when it was switched
    off, and the function's result when it was switched on. *)
Theorem SetToolEnabled_switches_one_tool
  (R : FGRIDToolRegistry) (ToolName Other : string) (bEnabled : bool)
  (Params : gmap string string) :
  let R' := SetToolEnabled ToolName bEnabled R in
  IsToolEnabled R' Other
  = (if bool_decide (KeyOf Other = KeyOf ToolName) then bEnabled
     else IsToolEnabled R Other)
  /\ FindTool R' Other = FindTool R Other
  /\ GetAllTools R' = GetAllTools R
  /\ ExecuteTool R' ToolName Params
     = match ToolExecuteFuncs R !! KeyOf ToolName with
       | Some Func => if bEnabled then Func Params else TOOL_DISABLED_Response
       | None => UNKNOWN_TOOL_Response
       end.
Proof.
  intros R'. subst R'.
  assert (HSwitch : forall Name,
            IsToolEnabled (SetToolEnabled ToolName bEnabled R) Name
            = (if bool_decide (KeyOf Name = KeyOf ToolName) then bEnabled
               else IsToolEnabled R Name)).
  { intros Name. unfold IsToolEnabled, DisabledTools_Contains.
    cbn [SetToolEnabled DisabledTools].
    destruct (decide (KeyOf Name = KeyOf ToolName)) as [HKey|HKey];
      [ rewrite (bool_decide_eq_true_2 (KeyOf Name = KeyOf ToolName) HKey)
      | rewrite (bool_decide_eq_false_2 (KeyOf Name = KeyOf ToolName) HKey) ];
      destruct bEnabled.
    - rewrite bool_decide_eq_false_2; [reflexivity|].
      rewrite elem_of_difference, elem_of_singleton. tauto.
    - rewrite bool_decide_eq_true_2; [reflexivity|].
      rewrite elem_of_union, elem_of_singleton. tauto.
    - f_equal. apply bool_decide_ext.
      rewrite elem_of_difference, elem_of_singleton. tauto.
    - f_equal. apply bool_decide_ext.
      rewrite elem_of_union, elem_of_singleton. tauto. }
  split; [apply HSwitch|]. split; [reflexivity|]. split; [reflexivity|].
  specialize (HSwitch ToolName). rewrite bool_decide_eq_true_2 in HSwitch by reflexivity.
  unfold IsToolEnabled in HSwitch. unfold ExecuteTool.
  cbn [SetToolEnabled ToolExecuteFuncs] in *.
  destruct (ToolExecuteFuncs R !! KeyOf ToolName); [|reflexivity].
  destruct (DisabledTools_Contains _ ToolName), bEnabled;
    try discriminate HSwitch; reflexivity.
Qed.

End ToolRegistryFacts.

(** With keys that ignore case: registering [Spawn] leaves [List] alone. *)
Lemma RegisterTool_leaves_other_tools_witness :
  KeyOf (FStringKeyFuncs := CaseInsensitiveKeys) "List"
  <> KeyOf (FStringKeyFuncs := CaseInsensitiveKeys) (ToolRegistry.Reg_Name SpawnTool)
  /\ ToolRegistry.FindTool (K := CaseInsensitiveKeys)
       (ToolRegistry.RegisterTool (K := CaseInsensitiveKeys) SpawnTool
          ToolRegistry.FGRIDToolRegistry_new) "List"
     = ToolRegistry.FindTool (K := CaseInsensitiveKeys)
         ToolRegistry.FGRIDToolRegistry_new "List".
Proof.
  assert (HOther : KeyOf (FStringKeyFuncs := CaseInsensitiveKeys) "List"
                   <> KeyOf (FStringKeyFuncs := CaseInsensitiveKeys)
                        (ToolRegistry.Reg_Name SpawnTool))
    by (vm_compute; discriminate).
  split; [exact HOther|].
  apply (RegisterTool_leaves_other_tools (K := CaseInsensitiveKeys) [] SpawnTool
           "List" ∅ HOther).
Defined.

(** With keys that ignore case: [spawn] registered after [Spawn]. *)
Lemma second_registration_shadows_the_first_witness :
  KeyOf (FStringKeyFuncs := CaseInsensitiveKeys) (ToolRegistry.Reg_Name SpawnTool)
  = KeyOf (FStringKeyFuncs := CaseInsensitiveKeys) (ToolRegistry.Reg_Name SpawnToolAgain)
  /\ ToolRegistry.GetAllTools
       (ToolRegistry.RegisterTool (K := CaseInsensitiveKeys) SpawnToolAgain
          (ToolRegistry.RegisterTool (K := CaseInsensitiveKeys) SpawnTool
             ToolRegistry.FGRIDToolRegistry_new))
     = [MetadataOf SpawnTool; MetadataOf SpawnToolAgain].
Proof.
  split; [reflexivity|].
  apply (second_registration_shadows_the_first (K := CaseInsensitiveKeys) SpawnTool
           SpawnToolAgain ToolRegistry.FGRIDToolRegistry_new ∅ eq_refl).
Defined.

(** ** The service context *)

(** X29. A configuration value reads back as it was set: after
    [SetConfigValue] a key with the key of the one set yields the new
    value whatever was stored before, every other key yields what it
    yielded before, and in a context as constructed every key yields
    the caller's default.  Setting a value leaves the cached asset
    registry alone. *)
Theorem config_values_read_back_what_was_set {K : FStringKeyFuncs}
  (C : ServiceContext.FServiceContext) (Key Value Other DefaultValue : string) :
  ServiceContext.GetConfigValue (ServiceContext.SetConfigValue Key Value C)
    Other DefaultValue
  = (if bool_decide (KeyOf Other = KeyOf Key) then Value
     else ServiceContext.GetConfigValue C Other DefaultValue)
  /\ ServiceContext.GetConfigValue ServiceContext.FServiceContext_new Other DefaultValue
     = DefaultValue
  /\ ServiceContext.CachedAssetRegistry (ServiceContext.SetConfigValue Key Value C)
     = ServiceContext.CachedAssetRegistry C.
Proof.
  split; [|split; reflexivity].
  unfold ServiceContext.GetConfigValue, ServiceContext.SetConfigValue.
  cbn [ServiceContext.ConfigValues].
  case_bool_decide as HKey.
  - rewrite HKey, lookup_insert_eq. reflexivity.
  - rewrite lookup_insert_ne by congruence. reflexivity.
Qed.

(** X30. The asset registry is asked of the module manager once: a
    first [GetAssetRegistry] loads the module exactly when nothing is
    cached, and a second call returns the same registry with the context
    and the module manager untouched, whatever the module manager would
    hand out by then.  The configuration is not touched. *)
Theorem asset_registry_is_loaded_once
  (C : ServiceContext.FServiceContext) (Modules Later : ServiceContext.FModuleManager) :
  let First := ServiceContext.GetAssetRegistry C Modules in
  let Second := ServiceContext.GetAssetRegistry (snd (fst First)) Later in
  fst (fst Second) = fst (fst First)
  /\ snd (fst Second) = snd (fst First)
  /\ snd Second = Later
  /\ (ServiceContext.LoadModuleChecked_calls (snd First)
      = match ServiceContext.CachedAssetRegistry C with
        | Some _ => ServiceContext.LoadModuleChecked_calls Modules
        | None => S (ServiceContext.LoadModuleChecked_calls Modules)
        end)
  /\ ServiceContext.ConfigValues (snd (fst First)) = ServiceContext.ConfigValues C.
Proof.
  intros First Second. subst Second First. unfold ServiceContext.GetAssetRegistry.
  destruct (ServiceContext.CachedAssetRegistry C) as [Registry|] eqn:HCache;
    cbn [fst snd ServiceContext.CachedAssetRegistry
         ServiceContext.LoadModuleChecked_calls ServiceContext.ConfigValues
         ServiceContext.AssetRegistryModule_Get];
    try rewrite HCache; repeat split.
Qed.
